(** * kitsune.wiki.models: documents, revisions and redirects

    A shallow embedding of [src/kitsune/wiki/models.py]: the [Document] and
    [Revision] models, the queries they run and the methods [save],
    [delete], [clean], [__setattr__], [is_outdated],
    [localizable_or_latest_revision] and [_attr_for_redirect]; the lookups
    [from_url], [translated_to], [redirect_url] and [redirect_document];
    [content_parsed], [parse_and_calculate_links] and [user_documents].

    The database is an explicit value threaded through every method.  A
    model instance is a record; a foreign key holds a primary key and the
    related object is read from the database when the attribute is
    accessed, as Django's descriptors do.  A Python exception is a [Raise]
    result; the state reached before it is dropped, as the enclosing
    transaction rolls it back. *)

From stdpp Require Import gmap strings list fin_maps pretty.
From Stdlib Require Import ZArith Ascii String.

Local Open Scope string_scope.

(** Discharges [resolves m fk] on a concrete table. *)
Ltac resolve_fk := intros ? [= <-]; vm_compute; eauto.

(** Primary keys are [AutoField] values handed out by the database:
    strictly positive integers.  [if self.id] is then the test that the
    key is set. *)
Abbreviation pk := positive (only parsing).

(** ** Exceptions and results *)

Inductive exn :=
  | SlugCollision
  | TitleCollision
  | ValidationError
  | ProgrammingError
  | DoesNotExist
  | IntegrityError
  | AssertionError
  | FormatError.

(** [OutOfFuel] is not a Python outcome: it marks a run of the model that
    was given too little fuel for the [while True] loop of [unique_attr]
    or the nesting of [save] calls. *)
Inductive result (A : Type) :=
  | Ok (a : A)
  | Raise (e : exn)
  | OutOfFuel.
Arguments Ok {A} a.
Arguments Raise {A} e.
Arguments OutOfFuel {A}.

Global Instance result_ret : MRet result := λ A a, Ok a.
Global Instance result_bind : MBind result := λ A B f m,
  match m with
  | Ok a => f a
  | Raise e => Raise e
  | OutOfFuel => OutOfFuel
  end.

Definition raise_if {A} (b : bool) (e : exn) (k : result A) : result A :=
  if b then Raise e else k.

(** ** Strings *)

(** [unicode.lower()].  The text of a field is a Python unicode value,
    held here as its UTF-8 bytes.  Which letters have a lower-case form is
    decided by the Unicode tables of the interpreter, not by this module,
    so lower-casing is a parameter of the model: what is proved holds for
    every such function. *)
Class Unicode := {
  lower : string → string
}.

(** [s.startswith(p)] *)
Definition startswith (s p : string) : bool := String.prefix p s.

(** The [%] operator.  Two uses occur in the module: a template with the
    named tokens [%(old)s] and [%(number)d] applied to a dict, and a
    template with one [%s] applied to a string.  [%%] is a literal percent
    sign; any other directive, a missing key or a wrong number of
    arguments raises in Python and is a [FormatError] here. *)
Inductive fmt_state :=
  | FLit
  | FPct
  | FKey (k : string)
  | FConv (k : string).

Definition is_char (c : ascii) (s : string) : bool :=
  bool_decide (String c EmptyString = s).

Fixpoint format_go (old number : string) (st : fmt_state) (tpl : string)
  : result string :=
  match tpl with
  | EmptyString =>
      match st with FLit => Ok EmptyString | _ => Raise FormatError end
  | String c rest =>
      match st with
      | FLit =>
          if is_char c "%" then format_go old number FPct rest
          else s ← format_go old number FLit rest ; Ok (String c s)
      | FPct =>
          if is_char c "%" then
            s ← format_go old number FLit rest ; Ok (String c s)
          else if is_char c "(" then format_go old number (FKey "") rest
          else Raise FormatError
      | FKey k =>
          if is_char c ")" then format_go old number (FConv k) rest
          else format_go old number (FKey (k ++ String c EmptyString)) rest
      | FConv k =>
          if bool_decide (k = "old") && is_char c "s" then
            s ← format_go old number FLit rest ; Ok (old ++ s)
          else if bool_decide (k = "number")
                  && (is_char c "d" || is_char c "i" || is_char c "s") then
            s ← format_go old number FLit rest ; Ok (number ++ s)
          else Raise FormatError
      end
  end.

(** [template % dict(old=old, number=i)] *)
Definition format_named (template old : string) (i : positive) : result string :=
  format_go old (pretty i) FLit template.

(** [template % arg] for a string [arg]: exactly one [%s]. *)
Fixpoint format_str_go (arg : string) (used : bool) (tpl : string)
  : result string :=
  match tpl with
  | EmptyString => if used then Ok EmptyString else Raise FormatError
  | String c rest =>
      if is_char c "%" then
        match rest with
        | String c' rest' =>
            if is_char c' "%" then
              s ← format_str_go arg used rest' ; Ok (String c' s)
            else if is_char c' "s" && negb used then
              s ← format_str_go arg true rest' ; Ok (arg ++ s)
            else Raise FormatError
        | EmptyString => Raise FormatError
        end
      else s ← format_str_go arg used rest ; Ok (String c s)
  end.

Definition format_str (template arg : string) : result string :=
  format_str_go arg false template.

(** ** The models *)

(** [User] rows are referenced by primary key only. *)
Abbreviation user := positive (only parsing).

(** [class Document]: the columns the methods below read or write, and
    the two instance attributes [old_slug] and [old_title] that
    [__setattr__] plants on a Python object ([None] when [hasattr] is
    false).  They are no columns: a row read from the database never has
    them. *)
Module Document.
Record t := mk {
    id : option pk;
    title : string;
    slug : string;
    is_template : bool;
    is_localizable : bool;
    locale : string;
    current_revision : option pk;
    latest_localizable_revision : option pk;
    parent : option pk;
    html : string;
    category : Z;
    is_archived : bool;
    old_slug : option string;
    old_title : option string
  }.

Definition set_id v d :=
    mk v (title d) (slug d) (is_template d) (is_localizable d) (locale d)
       (current_revision d) (latest_localizable_revision d) (parent d)
       (html d) (category d) (is_archived d) (old_slug d) (old_title d).
Definition set_title v d :=
    mk (id d) v (slug d) (is_template d) (is_localizable d) (locale d)
       (current_revision d) (latest_localizable_revision d) (parent d)
       (html d) (category d) (is_archived d) (old_slug d) (old_title d).
Definition set_slug v d :=
    mk (id d) (title d) v (is_template d) (is_localizable d) (locale d)
       (current_revision d) (latest_localizable_revision d) (parent d)
       (html d) (category d) (is_archived d) (old_slug d) (old_title d).
Definition set_is_template v d :=
    mk (id d) (title d) (slug d) v (is_localizable d) (locale d)
       (current_revision d) (latest_localizable_revision d) (parent d)
       (html d) (category d) (is_archived d) (old_slug d) (old_title d).
Definition set_is_localizable v d :=
    mk (id d) (title d) (slug d) (is_template d) v (locale d)
       (current_revision d) (latest_localizable_revision d) (parent d)
       (html d) (category d) (is_archived d) (old_slug d) (old_title d).
Definition set_current_revision v d :=
    mk (id d) (title d) (slug d) (is_template d) (is_localizable d) (locale d)
       v (latest_localizable_revision d) (parent d)
       (html d) (category d) (is_archived d) (old_slug d) (old_title d).
Definition set_latest_localizable_revision v d :=
    mk (id d) (title d) (slug d) (is_template d) (is_localizable d) (locale d)
       (current_revision d) v (parent d)
       (html d) (category d) (is_archived d) (old_slug d) (old_title d).
Definition set_html v d :=
    mk (id d) (title d) (slug d) (is_template d) (is_localizable d) (locale d)
       (current_revision d) (latest_localizable_revision d) (parent d)
       v (category d) (is_archived d) (old_slug d) (old_title d).
Definition set_category v d :=
    mk (id d) (title d) (slug d) (is_template d) (is_localizable d) (locale d)
       (current_revision d) (latest_localizable_revision d) (parent d)
       (html d) v (is_archived d) (old_slug d) (old_title d).
Definition set_is_archived v d :=
    mk (id d) (title d) (slug d) (is_template d) (is_localizable d) (locale d)
       (current_revision d) (latest_localizable_revision d) (parent d)
       (html d) (category d) v (old_slug d) (old_title d).
Definition set_old_slug v d :=
    mk (id d) (title d) (slug d) (is_template d) (is_localizable d) (locale d)
       (current_revision d) (latest_localizable_revision d) (parent d)
       (html d) (category d) (is_archived d) v (old_title d).
Definition set_old_title v d :=
    mk (id d) (title d) (slug d) (is_template d) (is_localizable d) (locale d)
       (current_revision d) (latest_localizable_revision d) (parent d)
       (html d) (category d) (is_archived d) (old_slug d) v.
End Document.

(** [class Revision].  [document_id] is the column behind [self.document];
    the methods that use [self.document] as an object take that instance
    as a second argument. *)
Module Revision.
Record t := mk {
    id : option pk;
    document_id : option pk;
    content : string;
    reviewed : option Z;
    significance : option Z;
    reviewer : option user;
    creator : user;
    is_approved : bool;
    based_on : option pk;
    is_ready_for_localization : bool
  }.

Definition set_id v r :=
    mk v (document_id r) (content r) (reviewed r) (significance r)
       (reviewer r) (creator r) (is_approved r) (based_on r)
       (is_ready_for_localization r).
Definition set_document_id v r :=
    mk (id r) v (content r) (reviewed r) (significance r)
       (reviewer r) (creator r) (is_approved r) (based_on r)
       (is_ready_for_localization r).
Definition set_based_on v r :=
    mk (id r) (document_id r) (content r) (reviewed r) (significance r)
       (reviewer r) (creator r) (is_approved r) v
       (is_ready_for_localization r).
Definition set_is_ready_for_localization v r :=
    mk (id r) (document_id r) (content r) (reviewed r) (significance r)
       (reviewer r) (creator r) (is_approved r) (based_on r) v.
End Revision.

Global Instance Document_eq_dec : EqDecision Document.t.
Proof. solve_decision. Defined.
Global Instance Revision_eq_dec : EqDecision Revision.t.
Proof. solve_decision. Defined.

(** ** The database *)

(** One table per model, keyed by primary key; the many-to-many table of
    [Document.contributors]; the [DocumentLink] table, whose
    [unique_together] makes the pair (linked_from, linked_to) a key. *)
Record DB := mkDB {
  documents : gmap positive Document.t;
  revisions : gmap positive Revision.t;
  contributors : gset (positive * positive);
  links : gmap (positive * positive) string
}.

Definition set_documents v db :=
  mkDB v (revisions db) (contributors db) (links db).
Definition set_revisions v db :=
  mkDB (documents db) v (contributors db) (links db).
Definition set_contributors v db :=
  mkDB (documents db) (revisions db) v (links db).
Definition set_links v db :=
  mkDB (documents db) (revisions db) (contributors db) v.

(** A row becomes an instance: its [id] is the key it is stored under and
    it carries no [old_slug] or [old_title]. *)
Definition document_of_row (k : pk) (d : Document.t) : Document.t :=
  Document.set_old_title None (Document.set_old_slug None
    (Document.set_id (Some k) d)).
Definition revision_of_row (k : pk) (r : Revision.t) : Revision.t :=
  Revision.set_id (Some k) r.

(** [Document.objects.all()] and [Revision.objects.all()] *)
Definition all_documents (db : DB) : list Document.t :=
  (λ kd, document_of_row kd.1 kd.2) <$> map_to_list (documents db).
Definition all_revisions (db : DB) : list Revision.t :=
  (λ kr, revision_of_row kr.1 kr.2) <$> map_to_list (revisions db).

(** Reading a foreign key: [None] when the column is null, the related
    instance when the row exists, [DoesNotExist] otherwise. *)
Definition get_document (db : DB) (k : pk) : result Document.t :=
  match documents db !! k with
  | Some d => Ok (document_of_row k d)
  | None => Raise DoesNotExist
  end.
Definition get_revision (db : DB) (k : pk) : result Revision.t :=
  match revisions db !! k with
  | Some r => Ok (revision_of_row k r)
  | None => Raise DoesNotExist
  end.
Definition fk_document (db : DB) (fk : option pk) : result (option Document.t) :=
  match fk with
  | None => Ok None
  | Some k => d ← get_document db k; Ok (Some d)
  end.
(** a foreign key that is not nullable: reading it unset raises too *)
Definition fk_required_document (db : DB) (fk : option pk) : result Document.t :=
  match fk with
  | None => Raise DoesNotExist
  | Some k => get_document db k
  end.
Definition fk_revision (db : DB) (fk : option pk) : result (option Revision.t) :=
  match fk with
  | None => Ok None
  | Some k => r ← get_revision db k; Ok (Some r)
  end.

(** The key an [INSERT] without a primary key receives. *)
Definition next_id {A} (m : gmap positive A) : pk :=
  N.succ_pos (map_fold (λ k _ acc, N.max (Npos k) acc) 0%N m).

(** [queryset.order_by('-id')[0:1]], or [None] for an empty queryset.
    [key] is the sort key: an unset id sorts below every key. *)
Definition id_key (id : option pk) : N :=
  match id with
  | Some k => Npos k
  | None => 0%N
  end.
Definition key (r : Revision.t) : N := id_key (Revision.id r).
Definition newer (r : Revision.t) (acc : option Revision.t) : option Revision.t :=
  match acc with
  | None => Some r
  | Some a => if (key a <? key r)%N then Some r else Some a
  end.
Definition latest (queryset : list Revision.t) : option Revision.t :=
  foldr newer None queryset.

(** [document.revisions]: the reverse of [Revision.document]. *)
Definition revisions_of (db : DB) (d : option pk) : list Revision.t :=
  match d with
  | None => []
  | Some k => filter (λ r, Revision.document_id r = Some k) (all_revisions db)
  end.

(** [document.translations]: the reverse of [Document.parent]. *)
Definition translations_of (db : DB) (d : option pk) : list Document.t :=
  match d with
  | None => []
  | Some k => filter (λ t, Document.parent t = Some k) (all_documents db)
  end.

(** ** Configuration and collaborators

    [kitsune.wiki.config], [django.conf.settings] and the wiki parser are
    not part of this module; their values are parameters. *)
Class Settings := {
  WIKI_DEFAULT_LANGUAGE : string;
  CATEGORIES : list (Z * string);
  TEMPLATE_TITLE_PREFIX : string;
  TYPO_SIGNIFICANCE : Z;
  MEDIUM_SIGNIFICANCE : Z;
  MAJOR_SIGNIFICANCE : Z;
  REDIRECT_CONTENT : string;
  REDIRECT_TITLE : string;
  REDIRECT_SLUG : string;
  (** [wiki_to_html(content, locale=..., doc_id=...)] *)
  wiki_to_html : string → string → option pk → string;
  (** the links [WhatLinksHereParser] reports while rendering, as
      (linked_to, kind) pairs *)
  what_links_here : DB → string → string → option pk → list (pk * string)
}.

(** The two attributes [__setattr__] traps, and the two a translation
    inherits from its parent. *)
Inductive attr := attr_slug | attr_title.
Inductive inherited := attr_is_archived | attr_category.

Global Instance attr_eq_dec : EqDecision attr.
Proof. solve_decision. Defined.

Definition getattr (self : Document.t) (a : attr) : string :=
  match a with
  | attr_slug => Document.slug self
  | attr_title => Document.title self
  end.
Definition set_attr (a : attr) (v : string) (self : Document.t) : Document.t :=
  match a with
  | attr_slug => Document.set_slug v self
  | attr_title => Document.set_title v self
  end.
(** [getattr(self, 'old_' + attr)], [None] when [hasattr] is false *)
Definition old_attr (self : Document.t) (a : attr) : option string :=
  match a with
  | attr_slug => Document.old_slug self
  | attr_title => Document.old_title self
  end.
Definition set_old_attr (a : attr) (v : option string) (self : Document.t)
  : Document.t :=
  match a with
  | attr_slug => Document.set_old_slug v self
  | attr_title => Document.set_old_title v self
  end.
(** [setattr(to, attr, getattr(from, attr))] *)
Definition copy_attr (a : inherited) (from to : Document.t) : Document.t :=
  match a with
  | attr_is_archived => Document.set_is_archived (Document.is_archived from) to
  | attr_category => Document.set_category (Document.category from) to
  end.

(** ** Document *)

(** [Document.__setattr__] for [name] in ('slug', 'title'); every other
    name goes straight to [super().__setattr__]. *)
Definition Document___setattr__ `{Unicode} (self : Document.t) (name : attr)
    (value : string) : Document.t :=
  let self :=
    if bool_decide (is_Some (Document.id self)) then
      match old_attr self name with
      | None =>
          if bool_decide (lower (getattr self name) ≠ lower value)
          then set_old_attr name (Some (getattr self name)) self
          else self
      | Some old =>
          if bool_decide (value = old)
          then set_old_attr name None self
          else self
      end
    else self in
  set_attr name value self.

Definition Document__collides (db : DB) (self : Document.t) (a : attr)
    (value : string) : bool :=
  bool_decide
    (filter (λ d, Document.locale d = Document.locale self
                  ∧ getattr d a = value) (all_documents db) ≠ []).

Definition Document__raise_if_collides (db : DB) (self : Document.t)
    (a : attr) (exception : exn) : result unit :=
  if bool_decide (Document.id self = None)
     || bool_decide (is_Some (old_attr self a)) then
    if Document__collides db self a (getattr self a)
    then Raise exception else Ok ()
  else Ok ().

(** [Document.original]: [self.parent or self] *)
Definition Document_original (db : DB) (self : Document.t)
  : result Document.t :=
  parent ← fk_document db (Document.parent self);
  Ok (default self parent).

(** The primary key a write gives the instance, and the [unique_together]
    constraints of [Meta] that the write must meet. *)
Definition unique_together (docs : gmap positive Document.t) (k : pk)
    (self : Document.t) : bool :=
  bool_decide (map_Forall (λ k' d, k' = k ∨
    Document.locale d ≠ Document.locale self ∨
      (Document.title d ≠ Document.title self
       ∧ Document.slug d ≠ Document.slug self
       ∧ (Document.parent self = None
          ∨ Document.parent d ≠ Document.parent self))) docs).

(** [super(Document, self).save()] *)
Definition Model_save_document (db : DB) (self : Document.t)
  : result (DB * Document.t) :=
  let k := default (next_id (documents db)) (Document.id self) in
  if unique_together (documents db) k self then
    Ok (set_documents (<[k := document_of_row k self]> (documents db)) db,
        Document.set_id (Some k) self)
  else Raise IntegrityError.

(** [Document.objects.create(locale=, title=, slug=, category=,
    is_localizable=)]: the instance before its [save()]; the other fields
    take their defaults. *)
Definition new_document (locale title slug : string) (category : Z)
    (is_localizable : bool) : Document.t :=
  Document.mk None title slug false is_localizable locale None None None
              "" category false None None.

(** [Revision.objects.create(document=, content=, is_approved=,
    reviewer=, creator=)], likewise. *)
Definition new_revision (document : option pk) (content : string)
    (is_approved : bool) (reviewer creator : user) : Revision.t :=
  Revision.mk None document content None None (Some reviewer) creator
              is_approved None false.

Section Models.
Context `{Settings}.

Definition Document__clean_is_localizable (db : DB) (self : Document.t)
  : result Document.t :=
  let self :=
    if bool_decide (Document.locale self ≠ WIKI_DEFAULT_LANGUAGE)
    then Document.set_is_localizable false self else self in
  parent ← fk_document db (Document.parent self);
  if match parent with
     | Some p => negb (Document.is_localizable p)
     | None => false
     end
  then Raise ValidationError
  else if bool_decide (is_Some (Document.id self))
          && negb (Document.is_localizable self)
          && bool_decide (translations_of db (Document.id self) ≠ [])
  then Raise ValidationError
  else Ok self.

Definition Document__ensure_inherited_attr (db : DB) (self : Document.t)
    (a : inherited) : result (DB * Document.t) :=
  parent ← fk_document db (Document.parent self);
  match parent with
  | Some p => Ok (db, copy_attr a p self)
  | None =>
      match Document.id self with
      | Some k =>
          Ok (set_documents
                ((λ t, if bool_decide (Document.parent t = Some k)
                       then copy_attr a self t else t) <$> documents db) db,
              self)
      | None => Ok (db, self)
      end
  end.

Definition Document__clean_category (db : DB) (self : Document.t)
  : result (DB * Document.t) :=
  parent ← fk_document db (Document.parent self);
  if bool_decide (parent = None)
     && bool_decide (Document.category self ∉ CATEGORIES.*1)
  then Raise ValidationError
  else Document__ensure_inherited_attr db self attr_category.

(** [Document.clean] *)
Definition Document_clean (db : DB) (self : Document.t)
  : result (DB * Document.t) :=
  self ← Document__clean_is_localizable db self;
  '(db, self) ← Document__clean_category db self;
  Document__ensure_inherited_attr db self attr_is_archived.

(** The loop of [unique_attr]: [fuel] bounds the number of candidates
    tried, starting at suffix [i]. *)
Fixpoint unique_attr (fuel : nat) (db : DB) (self : Document.t) (a : attr)
    (template : string) (i : positive) : result string :=
  match fuel with
  | O => OutOfFuel
  | S fuel =>
      new_value ← format_named template (getattr self a) i;
      if negb (Document__collides db self a new_value)
      then Ok new_value
      else unique_attr fuel db self a template (i + 1)%positive
  end.

Definition Document__attr_for_redirect (fuel : nat) (db : DB)
    (self : Document.t) (a : attr) (template : string) : result string :=
  match old_attr self a with
  | Some old => Ok old
  | None => unique_attr fuel db self a template 1%positive
  end.

(** [Document.add_link_to]: a duplicate edge is left as it is. *)
Definition Document_add_link_to (from : pk) (lnks : gmap (positive * positive) string)
    (link : pk * string) : gmap (positive * positive) string :=
  match lnks !! (from, link.1) with
  | Some _ => lnks
  | None => <[(from, link.1) := link.2]> lnks
  end.

Definition Document_parse_and_calculate_links (db : DB) (self : Document.t)
  : result DB :=
  cur ← fk_revision db (Document.current_revision self);
  match cur, Document.id self with
  | Some rev, Some k =>
      let kept := filter (λ e, e.1.1 ≠ k) (links db) in
      let found := what_links_here db (Revision.content rev)
                     (Document.locale self) (Document.id self) in
      Ok (set_links (foldl (Document_add_link_to k) kept found) db)
  | _, _ => Ok db
  end.

(** [Revision.content_parsed], with [document] the revision's
    [self.document]. *)
Definition Revision_content_parsed (self : Revision.t)
    (document : Document.t) : string :=
  wiki_to_html (Revision.content self) (Document.locale document)
               (Document.id document).

(** [Q(is_approved=False, reviewed__isnull=False)] *)
Definition rejected (r : Revision.t) : Prop :=
  Revision.is_approved r = false ∧ Revision.reviewed r ≠ None.

Global Instance rejected_dec r : Decision (rejected r).
Proof. unfold rejected. apply _. Defined.

Definition Document_localizable_or_latest_revision (db : DB)
    (self : Document.t) (include_rejected : bool)
  : result (option Revision.t) :=
  rev ← fk_revision db (Document.latest_localizable_revision self);
  if bool_decide (rev = None) || negb (Document.is_localizable self) then
    let revisions := revisions_of db (Document.id self) in
    Ok (match latest (filter (λ r, Revision.is_approved r = true) revisions) with
        | Some r => Some r
        | None =>
            match latest (filter (λ r, ¬ rejected r) revisions) with
            | Some r => Some r
            | None => if include_rejected then latest revisions else None
            end
        end)
  else Ok rev.

(** [significance__gte=level]: a NULL significance matches no comparison. *)
Definition significance_gte (r : Revision.t) (level : Z) : Prop :=
  match Revision.significance r with
  | Some s => (level ≤ s)%Z
  | None => False
  end.

Global Instance significance_gte_dec r level : Decision (significance_gte r level).
Proof. unfold significance_gte. destruct (Revision.significance r); apply _. Defined.

(** [id__gt=based_on_id] when [based_on_id] is set, no filter otherwise *)
Definition more_filters (based_on_id : option pk) (r : Revision.t) : Prop :=
  match based_on_id with
  | Some b =>
      match Revision.id r with
      | Some k => (b < k)%positive
      | None => False
      end
  | None => True
  end.

Global Instance more_filters_dec b r : Decision (more_filters b r).
Proof.
  unfold more_filters. destruct b; [destruct (Revision.id r)|]; apply _.
Defined.

Definition Document_is_outdated (db : DB) (self : Document.t) (level : Z)
  : result bool :=
  parent ← fk_document db (Document.parent self);
  match parent with
  | None => Ok false
  | Some parent =>
      cur ← fk_revision db (Document.current_revision self);
      match cur with
      | None => Ok false
      | Some current_revision =>
          let based_on_id := Revision.based_on current_revision in
          Ok (bool_decide
                (filter (λ r, Revision.is_approved r = true
                              ∧ Revision.is_ready_for_localization r = true
                              ∧ significance_gte r level
                              ∧ more_filters based_on_id r)
                   (revisions_of db (Document.id parent)) ≠ []))
      end
  end.

Definition Document_is_majorly_outdated (db : DB) (self : Document.t)
  : result bool :=
  Document_is_outdated db self MAJOR_SIGNIFICANCE.

(** ** Revision *)

(** [self.based_on.document != original]: model instances are equal when
    their primary keys are. *)
Definition Revision__based_on_is_clean (db : DB) (self : Revision.t)
    (document : Document.t) : result (option Revision.t * bool) :=
  original ← Document_original db document;
  based_on ← fk_revision db (Revision.based_on self);
  match based_on with
  | Some b =>
      bdoc ← fk_required_document db (Revision.document_id b);
      if bool_decide (Document.id bdoc ≠ Document.id original) then
        rev ← Document_localizable_or_latest_revision db original false;
        Ok (rev, false)
      else Ok (based_on, true)
  | None => Ok (based_on, true)
  end.

(** [self.significance > TYPO_SIGNIFICANCE]: [None] is below every
    integer. *)
Definition Revision_can_be_readied_for_localization (self : Revision.t)
    (document : Document.t) : bool :=
  Revision.is_approved self
  && match Revision.significance self with
     | Some s => bool_decide (TYPO_SIGNIFICANCE < s)%Z
     | None => false
     end
  && bool_decide (Document.locale document = WIKI_DEFAULT_LANGUAGE).

(** [Revision.clean].  [document] is [None] for a form that has no
    document instance behind it, where reading [self.document] raises
    [DoesNotExist].  The method assigns to [self] before it raises, so the
    instance it leaves behind is returned next to the outcome. *)
Definition Revision_clean (db : DB) (self : Revision.t)
    (document : option Document.t) : Revision.t * result unit :=
  let readied self :=
    match document with
    | Some d =>
        if Revision_can_be_readied_for_localization self d then (self, Ok ())
        else (Revision.set_is_ready_for_localization false self, Ok ())
    | None =>
        if Revision.is_approved self
           && match Revision.significance self with
              | Some s => bool_decide (TYPO_SIGNIFICANCE < s)%Z
              | None => false
              end
        then (self, Raise DoesNotExist)
        else (Revision.set_is_ready_for_localization false self, Ok ())
    end in
  match document with
  | None => readied (Revision.set_based_on None self)
  | Some d =>
      match Document_original db d with
      | Raise DoesNotExist => readied (Revision.set_based_on None self)
      | Raise e => (self, Raise e)
      | OutOfFuel => (self, OutOfFuel)
      | Ok _ =>
          match Revision__based_on_is_clean db self d with
          | Ok (based_on, is_clean) =>
              if negb is_clean then
                (Revision.set_based_on (based_on ≫= Revision.id) self,
                 Raise ValidationError)
              else readied self
          | Raise e => (self, Raise e)
          | OutOfFuel => (self, OutOfFuel)
          end
      end
  end.

(** [super(Revision, self).save()]: the row takes the key of the
    document instance; a revision of an unsaved document violates the
    NOT NULL of [document_id]. *)
Definition Model_save_revision (db : DB) (self : Revision.t)
    (document : Document.t) : result (DB * Revision.t) :=
  match Document.id document with
  | None => Raise IntegrityError
  | Some d =>
      let k := default (next_id (revisions db)) (Revision.id self) in
      let self :=
        Revision.set_id (Some k) (Revision.set_document_id (Some d) self) in
      Ok (set_revisions (<[k := self]> (revisions db)) db, self)
  end.

(** [a.id < b.id] on keys that may be unset; Python 2 orders [None]
    below every integer. *)
Definition id_lt (a b : option pk) : bool :=
  (id_key a <? id_key b)%N.

(** [Revision.save], with the [save] of [Document] it calls as a
    parameter: the two methods call each other. *)
Definition Revision_save_with
    (Document_save : DB → Document.t → result (DB * Document.t))
    (db : DB) (self : Revision.t) (document : Document.t)
  : result (DB * Revision.t * Document.t) :=
  '(_, is_clean) ← Revision__based_on_is_clean db self document;
  if negb is_clean then Raise ProgrammingError else
  '(db, self) ← Model_save_revision db self document;
  (* is_approved and (not current_revision or current_revision.id < id):
     Some cur when the test passes *)
  newer_than_current ←
    (if Revision.is_approved self then
       cur ← fk_revision db (Document.current_revision document);
       Ok (match cur with
           | None => Some None
           | Some c =>
               if id_lt (Revision.id c) (Revision.id self)
               then Some (Some c) else None
           end)
     else Ok None);
  match newer_than_current with
  | Some cur =>
      let new_revs :=
        filter (λ r, ¬ rejected r) (revisions_of db (Document.id document)) in
      let new_revs :=
        match cur with
        | Some c =>
            filter (λ r, id_lt (Revision.id c) (Revision.id r) = true) new_revs
        | None => new_revs
        end in
      let db :=
        match Document.id document with
        | Some d =>
            set_contributors
              (foldr (λ r acc, {[ (d, Revision.creator r) ]} ∪ acc)
                     (contributors db) new_revs) db
        | None => db
        end in
      let document :=
        if Revision.is_ready_for_localization self
        then Document.set_latest_localizable_revision (Revision.id self) document
        else document in
      let document :=
        Document.set_html (Revision_content_parsed self document) document in
      let document :=
        Document.set_current_revision (Revision.id self) document in
      '(db, document) ← Document_save db document;
      Ok (db, self, document)
  | None =>
      newer_localizable ←
        (if Revision.is_ready_for_localization self then
           llr ← fk_revision db (Document.latest_localizable_revision document);
           Ok (match llr with
               | None => true
               | Some l => id_lt (Revision.id l) (Revision.id self)
               end)
         else Ok false);
      if (newer_localizable : bool) then
        let document :=
          Document.set_latest_localizable_revision (Revision.id self) document in
        '(db, document) ← Document_save db document;
        Ok (db, self, document)
      else Ok (db, self, document)
  end.

(** [Document.save].  [fuel] bounds the nesting of [save] calls (the
    redirect and its revision are saved from inside) and the loop of
    [unique_attr]. *)
Fixpoint Document_save (fuel : nat) (db : DB) (self : Document.t)
  : result (DB * Document.t) :=
  match fuel with
  | O => OutOfFuel
  | S fuel =>
      let self :=
        Document.set_is_template
          (startswith (Document.title self) TEMPLATE_TITLE_PREFIX) self in
      _ ← Document__raise_if_collides db self attr_slug SlugCollision;
      _ ← Document__raise_if_collides db self attr_title TitleCollision;
      self ← Document__clean_is_localizable db self;
      '(db, self) ← Document__ensure_inherited_attr db self attr_is_archived;
      '(db, self) ← Document__clean_category db self;
      '(db, self) ← Model_save_document db self;
      let slug_changed := bool_decide (is_Some (Document.old_slug self)) in
      let title_changed := bool_decide (is_Some (Document.old_title self)) in
      cur ← fk_revision db (Document.current_revision self);
      '(db, self) ←
        match cur with
        | Some current_revision =>
            if slug_changed || title_changed then
              title ← Document__attr_for_redirect fuel db self attr_title
                        REDIRECT_TITLE;
              slug ← Document__attr_for_redirect fuel db self attr_slug
                       REDIRECT_SLUG;
              '(db, doc) ← Document_save fuel db
                             (new_document (Document.locale self) title slug
                                (Document.category self) false);
              content ← format_str REDIRECT_CONTENT (Document.title self);
              '(db, _, _) ← Revision_save_with (Document_save fuel) db
                    (new_revision (Document.id doc) content true
                       (Revision.creator current_revision)
                       (Revision.creator current_revision)) doc;
              let self :=
                if slug_changed then Document.set_old_slug None self else self in
              let self :=
                if title_changed then Document.set_old_title None self else self in
              Ok (db, self)
            else Ok (db, self)
        | None => Ok (db, self)
        end;
      db ← Document_parse_and_calculate_links db self;
      Ok (db, self)
  end.

(** [Revision.save] *)
Definition Revision_save (fuel : nat) (db : DB) (self : Revision.t)
    (document : Document.t) : result (DB * Revision.t * Document.t) :=
  Revision_save_with (Document_save fuel) db self document.

(** Modelled from the spec: [ModelBase.update] of [kitsune.sumo.models],
    which is not among the sources.  [document.update] assigns its
    keyword values to the instance and to the same columns of its stored
    row; [set] is that assignment. *)
Definition ModelBase_update (db : DB) (document : Document.t)
    (set : Document.t → Document.t) : DB * Document.t :=
  (match Document.id document with
   | Some k => set_documents (alter set k (documents db)) db
   | None => db
   end, set document).

(** [latest_revision] of [Revision.delete] *)
Definition latest_revision (db : DB) (document : Document.t)
    (excluded_rev : Revision.t) (constraint : Revision.t → Prop)
    `{∀ r, Decision (constraint r)} : option Revision.t :=
  latest (filter (λ r, Revision.id r ≠ Revision.id excluded_rev)
            (filter constraint (revisions_of db (Document.id document)))).

(** [Revision.delete].  [document] is [self.document].  The delete of the
    base class asserts that the instance has a primary key; rows of other
    tables that reference the revision (votes) are outside this model. *)
Definition Revision_delete (db : DB) (self : Revision.t)
    (document : Document.t) : result (DB * Document.t) :=
  match Revision.id self with
  | None => Raise AssertionError
  | Some k =>
      let db :=
        set_revisions
          ((λ r, if bool_decide (Revision.based_on r = Some k)
                 then Revision.set_based_on None r else r) <$> revisions db) db in
      cur ← fk_revision db (Document.current_revision document);
      '(db, document) ←
        (if bool_decide (cur ≫= Revision.id = Some k) then
           let new_current :=
             latest_revision db document self
               (λ r, Revision.is_approved r = true) in
           html ← match new_current with
                  | Some n =>
                      nd ← fk_required_document db (Revision.document_id n);
                      Ok (Revision_content_parsed n nd)
                  | None => Ok ""
                  end;
           Ok (ModelBase_update db document
                 (λ d, Document.set_html html
                         (Document.set_current_revision
                            (new_current ≫= Revision.id) d)))
         else Ok (db, document));
      llr ← fk_revision db (Document.latest_localizable_revision document);
      '(db, document) ←
        (if bool_decide (llr ≫= Revision.id = Some k) then
           let new_llr :=
             latest_revision db document self
               (λ r, Revision.is_approved r = true
                     ∧ Revision.is_ready_for_localization r = true) in
           Ok (ModelBase_update db document
                 (Document.set_latest_localizable_revision
                    (new_llr ≫= Revision.id)))
         else Ok (db, document));
      Ok (set_revisions (delete k (revisions db)) db, document)
  end.

End Models.

(** ** Lookups

    [from_url], [redirect_url] and the module functions around them go
    through [urlparse], [split_path] of [kitsune.sumo.urlresolvers],
    Django's [resolve] and PyQuery; [LANGUAGE_CODE] and [REDIRECT_HTML]
    come from the settings and from [kitsune.wiki.config]. *)

(** What [resolve(path)] gives: [Http404], a view that is not
    [kitsune.wiki.views.document], or that view with the
    [document_slug] of its keyword arguments. *)
Inductive resolved :=
  | Http404
  | other_view
  | document_view (document_slug : string).

Class Urls := {
  LANGUAGE_CODE : string;
  REDIRECT_HTML : string;
  (** [urlparse(url)]: its [netloc] and its [path] *)
  urlparse : string → string * string;
  split_path : string → string * string;
  resolve : string → resolved;
  (** [PyQuery(html)('a[href]')[0].get('href')], [None] when no anchor
      has an [href] *)
  first_href : string → option string
}.

(** [_doc_components_from_url]: [False], a raised [_NotDocumentView], or
    the tuple. *)
Inductive components :=
  | no_components
  | NotDocumentView
  | doc_components (locale path slug : string).

(** What the lookups raise to their callers. *)
Inductive lookup_exn :=
  | NotImplementedError
  | MultipleObjectsReturned.

Inductive outcome (A : Type) :=
  | Returns (a : A)
  | Throws (e : lookup_exn).
Arguments Returns {A} a.
Arguments Throws {A} e.

(** [queryset.get()] *)
Inductive got (A : Type) :=
  | one_row (a : A)
  | no_row
  | many_rows.
Arguments one_row {A} a.
Arguments no_row {A}.
Arguments many_rows {A}.

Definition queryset_get {A} (queryset : list A) : got A :=
  match queryset with
  | [] => no_row
  | [a] => one_row a
  | _ => many_rows
  end.

Section Lookups.
Context `{Settings} `{Urls}.

(** [Document.content_parsed]: the revision renders itself with the
    locale and the id of its own [document], read through the foreign
    key. *)
Definition Document_content_parsed (db : DB) (self : Document.t)
  : result string :=
  cur ← fk_revision db (Document.current_revision self);
  match cur with
  | None => Ok ""
  | Some rev =>
      document ← fk_required_document db (Revision.document_id rev);
      Ok (Revision_content_parsed rev document)
  end.

(** [Document.translated_to].  [parent=self] selects among the
    translations of [self]; an instance without a key has none. *)
Definition Document_translated_to (db : DB) (self : Document.t)
    (locale : string) : outcome (option Document.t) :=
  if bool_decide (Document.locale self ≠ WIKI_DEFAULT_LANGUAGE)
  then Throws NotImplementedError
  else
    match queryset_get
            (filter (λ d, Document.locale d = locale)
               (translations_of db (Document.id self))) with
    | one_row d => Returns (Some d)
    | no_row => Returns None
    | many_rows => Throws MultipleObjectsReturned
    end.

(** [_doc_components_from_url].  [required_locale] and [netloc] are
    tested for truth: [None] and the empty string are false. *)
Definition _doc_components_from_url (url : string)
    (required_locale : option string) (check_host : bool) : components :=
  let parsed := urlparse url in
  if check_host && bool_decide (parsed.1 ≠ "") then no_components else
  let '(locale, path) := split_path parsed.2 in
  if match required_locale with
     | Some l => bool_decide (l ≠ "") && bool_decide (locale ≠ l)
     | None => false
     end
  then no_components else
  let path := "/" ++ path in
  match resolve path with
  | Http404 => no_components
  | other_view => NotDocumentView
  | document_view slug => doc_components locale path slug
  end.

(** [points_to_document_view]: its [_doc_components_from_url] runs with
    the default [check_host=True]. *)
Definition points_to_document_view (url : string)
    (required_locale : option string) : bool :=
  match _doc_components_from_url url required_locale true with
  | doc_components _ _ _ => true
  | no_components => false
  | NotDocumentView => false
  end.

(** [Document.from_url].  [id_only] defers the loading of the other
    columns and does not change which row is returned. *)
Definition Document_from_url (db : DB) (url : string)
    (required_locale : option string) (check_host : bool)
  : outcome (option Document.t) :=
  match _doc_components_from_url url required_locale check_host with
  | NotDocumentView => Returns None
  | no_components => Returns None
  | doc_components locale path slug =>
      match queryset_get
              (filter (λ d, Document.locale d = locale
                            ∧ Document.slug d = slug) (all_documents db)) with
      | one_row doc => Returns (Some doc)
      | many_rows => Throws MultipleObjectsReturned
      | no_row =>
          match queryset_get
                  (filter (λ d, Document.locale d = WIKI_DEFAULT_LANGUAGE
                                ∧ Document.slug d = slug)
                     (all_documents db)) with
          | one_row doc =>
              match Document_translated_to db doc locale with
              | Returns (Some translation) => Returns (Some translation)
              | Returns None => Returns (Some doc)
              | Throws e => Throws e
              end
          | no_row => Returns None
          | many_rows => Throws MultipleObjectsReturned
          end
      end
  end.

(** [Document.redirect_url] *)
Definition Document_redirect_url (self : Document.t) (source_locale : string)
  : option string :=
  if startswith (Document.html self) REDIRECT_HTML then
    match first_href (Document.html self) with
    | Some full_url =>
        let '(dest_locale, url) := split_path full_url in
        if bool_decide (source_locale ≠ dest_locale)
           && bool_decide (dest_locale = LANGUAGE_CODE)
        then Some ("/" ++ source_locale ++ "/" ++ url)
        else Some full_url
    | None => None
    end
  else None.

(** [Document.redirect_document]: [redirect_url()] with its default
    [source_locale], then [from_url] with its defaults; an empty URL is
    false. *)
Definition Document_redirect_document (db : DB) (self : Document.t)
  : outcome (option Document.t) :=
  match Document_redirect_url self LANGUAGE_CODE with
  | Some url =>
      if bool_decide (url ≠ "") then Document_from_url db url None true
      else Returns None
  | None => Returns None
  end.

End Lookups.

(** [user_documents]: the join of documents and revisions on
    [revisions__creator], made [distinct()]. *)
Definition user_documents (db : DB) (user : user) : list Document.t :=
  remove_dups
    (d ← all_documents db;
     (λ _, d) <$> filter (λ r, Revision.creator r = user)
                    (revisions_of db (Document.id d))).

(** [user_num_documents] *)
Definition user_num_documents (db : DB) (user : user) : nat :=
  List.length (user_documents db user).


(** * Properties *)

(** ** What the specification calls the highest-id row of a kind

    [highest P l o]: [o] is a row of [l] that satisfies [P] and has the
    largest id among those that do, or [None] when no row of [l]
    satisfies [P]. *)
Definition highest (P : Revision.t → Prop) (l : list Revision.t)
    (o : option Revision.t) : Prop :=
  match o with
  | Some r => r ∈ l ∧ P r ∧ ∀ r', r' ∈ l → P r' → (key r' ≤ key r)%N
  | None => ∀ r', r' ∈ l → ¬ P r'
  end.

(** Referential integrity of a foreign key: a key that is set names a
    stored row. *)
Definition resolves {A} (m : gmap positive A) (fk : option pk) : Prop :=
  ∀ k, fk = Some k → is_Some (m !! k).

(** The resolution order of [localizable_or_latest_revision] in the
    words of the specification. *)
Definition resolution_order (db : DB) (D : Document.t)
    (include_rejected : bool) (res : option Revision.t) : Prop :=
  let revs := revisions_of db (Document.id D) in
  (∃ l row, Document.latest_localizable_revision D = Some l
            ∧ revisions db !! l = Some row
            ∧ Document.is_localizable D = true
            ∧ res = Some (revision_of_row l row))
  ∨ ((Document.latest_localizable_revision D = None
      ∨ Document.is_localizable D = false)
     ∧ ∃ a, highest (λ r, Revision.is_approved r = true) revs a
       ∧ match a with
         | Some _ => res = a
         | None =>
             ∃ u, highest (λ r, ¬ rejected r) revs u
               ∧ match u with
                 | Some _ => res = u
                 | None =>
                     if include_rejected then highest (λ _, True) revs res
                     else res = None
                 end
         end).

(** A stored revision of document [p] that is approved, ready for
    localization, of significance [L] or more and, when [based_on_id] is
    set, of a larger id. *)
Definition newer_localizable_revision (db : DB) (p : pk)
    (based_on_id : option pk) (L : Z) : Prop :=
  ∃ k row, revisions db !! k = Some row
    ∧ Revision.document_id row = Some p
    ∧ Revision.is_approved row = true
    ∧ Revision.is_ready_for_localization row = true
    ∧ (∃ s, Revision.significance row = Some s ∧ (L ≤ s)%Z)
    ∧ (∀ b, based_on_id = Some b → (b < k)%positive).

(** The two halves of [Document.save], named for the proofs: the checks
    and the write, and what follows the write. *)
Definition Document_save_write `{Settings} (db : DB) (self : Document.t)
  : result (DB * Document.t) :=
  let self :=
    Document.set_is_template
      (startswith (Document.title self) TEMPLATE_TITLE_PREFIX) self in
  _ ← Document__raise_if_collides db self attr_slug SlugCollision;
  _ ← Document__raise_if_collides db self attr_title TitleCollision;
  self ← Document__clean_is_localizable db self;
  '(db, self) ← Document__ensure_inherited_attr db self attr_is_archived;
  '(db, self) ← Document__clean_category db self;
  Model_save_document db self.

Definition Document_save_redirect `{Settings} (fuel : nat) (db : DB)
    (self : Document.t) (current_revision : Revision.t)
  : result (DB * Document.t) :=
  title ← Document__attr_for_redirect fuel db self attr_title REDIRECT_TITLE;
  slug ← Document__attr_for_redirect fuel db self attr_slug REDIRECT_SLUG;
  '(db, doc) ← Document_save fuel db
                 (new_document (Document.locale self) title slug
                    (Document.category self) false);
  content ← format_str REDIRECT_CONTENT (Document.title self);
  '(db, _, _) ← Revision_save_with (Document_save fuel) db
        (new_revision (Document.id doc) content true
           (Revision.creator current_revision)
           (Revision.creator current_revision)) doc;
  Ok (db, Document.set_old_title None (Document.set_old_slug None self)).

Definition pending_rename (self : Document.t) : bool :=
  bool_decide (is_Some (Document.old_slug self))
  || bool_decide (is_Some (Document.old_title self)).


(** What [_ensure_inherited_attr] does to the stored translations of a
    root document with key [k], for [is_archived] and then [category]. *)
Definition propagate (k : pk) (self : Document.t)
    (docs : gmap positive Document.t) : gmap positive Document.t :=
  (λ t, if bool_decide (Document.parent t = Some k)
        then copy_attr attr_category self t else t)
  <$> ((λ t, if bool_decide (Document.parent t = Some k)
             then copy_attr attr_is_archived self t else t) <$> docs).

(** The stored documents after the checks of [save], before the write. *)
Definition propagated (self : Document.t) (docs : gmap positive Document.t)
  : gmap positive Document.t :=
  match Document.parent self, Document.id self with
  | None, Some k => propagate k self docs
  | _, _ => docs
  end.




(** The revisions table after [Revision.delete] of the row [k]: the row
    is gone and every [based_on] that named it is null. *)
Definition without_revision (k : pk) (revs : gmap positive Revision.t)
  : gmap positive Revision.t :=
  delete k ((λ r, if bool_decide (Revision.based_on r = Some k)
                  then Revision.set_based_on None r else r) <$> revs).


(** The pieces of the approved branch of [Revision.save], named for the
    proofs: the contributors it adds and the fields it re-caches. *)
Definition Revision_new_contributors (db : DB) (document : Document.t)
    (cur : option Revision.t) : DB :=
  let new_revs :=
    filter (λ r, ¬ rejected r) (revisions_of db (Document.id document)) in
  let new_revs :=
    match cur with
    | Some c =>
        filter (λ r, id_lt (Revision.id c) (Revision.id r) = true) new_revs
    | None => new_revs
    end in
  match Document.id document with
  | Some d =>
      set_contributors
        (foldr (λ r acc, {[ (d, Revision.creator r) ]} ∪ acc)
               (contributors db) new_revs) db
  | None => db
  end.

Definition Revision_recache `{Settings} (self : Revision.t)
    (document : Document.t) : Document.t :=
  let document :=
    if Revision.is_ready_for_localization self
    then Document.set_latest_localizable_revision (Revision.id self) document
    else document in
  let document :=
    Document.set_html (Revision_content_parsed self document) document in
  Document.set_current_revision (Revision.id self) document.

(** The tests of the two branches of [Revision.save]. *)
Definition newer_than_current (db : DB) (self : Revision.t)
    (document : Document.t) : result (option (option Revision.t)) :=
  if Revision.is_approved self then
    cur ← fk_revision db (Document.current_revision document);
    Ok (match cur with
        | None => Some None
        | Some c =>
            if id_lt (Revision.id c) (Revision.id self)
            then Some (Some c) else None
        end)
  else Ok None.

Definition newer_localizable (db : DB) (self : Revision.t)
    (document : Document.t) : result bool :=
  if Revision.is_ready_for_localization self then
    llr ← fk_revision db (Document.latest_localizable_revision document);
    Ok (match llr with
        | None => true
        | Some l => id_lt (Revision.id l) (Revision.id self)
        end)
  else Ok false.


(** The redirect [save] leaves behind for a renamed document, and the
    redirect's only revision. *)
Definition redirect_document `{Settings} (cid rid : pk)
    (locale title slug content : string) (category : Z) : Document.t :=
  Document.mk (Some cid) title slug (startswith title TEMPLATE_TITLE_PREFIX)
    false locale (Some rid) None None
    (wiki_to_html content locale (Some cid)) category false None None.

Definition redirect_revision (rid cid : pk) (content : string) (u : user)
  : Revision.t :=
  Revision.mk (Some rid) (Some cid) content None None (Some u) u true None
    false.


(** ** A sample wiki

    The values of [kitsune.wiki.config] as the project ships them, a
    renderer that wraps the markup in a paragraph, and a small database:
    the English article A (key 1) with revisions 1 and 3, its German
    translation B (key 2) with revision 2 based on revision 1. *)
Module Sample.
(** Lower-casing on the two blocks the sample texts use: Basic Latin, and
    the Latin-1 Supplement, whose capitals U+00C0 to U+00DE (without the
    multiplication sign U+00D7) are the two-byte sequences led by 0xC3 with
    a second byte from 0x80 to 0x9E. *)
Definition ascii_lower (c : ascii) : ascii :=
  let n := nat_of_ascii c in
  if (65 <=? n)%nat && (n <=? 90)%nat then ascii_of_nat (n + 32) else c.

Definition latin1_lower (c : ascii) : ascii :=
  let n := nat_of_ascii c in
  if (128 <=? n)%nat && (n <=? 158)%nat && negb (n =? 151)%nat
  then ascii_of_nat (n + 32) else c.

Fixpoint lower_latin (s : string) : string :=
  match s with
  | EmptyString => EmptyString
  | String c s' =>
      if (nat_of_ascii c =? 195)%nat then
        match s' with
        | String c' s'' => String c (String (latin1_lower c') (lower_latin s''))
        | EmptyString => String c EmptyString
        end
      else String (ascii_lower c) (lower_latin s')
  end.

Definition unicode : Unicode := Build_Unicode lower_latin.

Definition settings : Settings := {|
    WIKI_DEFAULT_LANGUAGE := "en-US";
    CATEGORIES := [(10%Z, "Troubleshooting"); (20%Z, "How to")];
    TEMPLATE_TITLE_PREFIX := "Template:";
    TYPO_SIGNIFICANCE := 10;
    MEDIUM_SIGNIFICANCE := 20;
    MAJOR_SIGNIFICANCE := 30;
    REDIRECT_CONTENT := "REDIRECT [[%s]]";
    REDIRECT_TITLE := "%(old)s Redirect %(number)i";
    REDIRECT_SLUG := "%(old)s-redirect-%(number)i";
    wiki_to_html := λ content _ _, "<p>" ++ content ++ "</p>";
    what_links_here := λ _ _ _ _, []
  |}.

Definition A : Document.t :=
    Document.mk (Some 1%positive) "Foo" "foo" false true "en-US"
      (Some 3%positive) (Some 3%positive) None "<p>three</p>" 10 false
      None None.
Definition B : Document.t :=
    Document.mk (Some 2%positive) "Fuh" "fuh" false false "de"
      (Some 2%positive) None (Some 1%positive) "<p>zwei</p>" 10 false
      None None.

Definition R1 : Revision.t :=
    Revision.mk (Some 1%positive) (Some 1%positive) "one" (Some 100%Z)
      (Some 30%Z) (Some 7%positive) 7%positive true None true.
Definition R2 : Revision.t :=
    Revision.mk (Some 2%positive) (Some 2%positive) "zwei" (Some 200%Z)
      None (Some 7%positive) 8%positive true (Some 1%positive) false.
Definition R3 : Revision.t :=
    Revision.mk (Some 3%positive) (Some 1%positive) "three" (Some 300%Z)
      (Some 30%Z) (Some 7%positive) 9%positive true (Some 1%positive) true.

Definition db : DB :=
    mkDB (list_to_map [(1%positive, A); (2%positive, B)])
         (list_to_map [(1%positive, R1); (2%positive, R2); (3%positive, R3)])
         ∅ ∅.

Definition empty : DB := mkDB ∅ ∅ ∅ ∅.

  (** an instance that was never saved *)
Definition draft : Document.t := new_document "en-US" "Foo" "foo" 10 true.

  (** a stored French article whose title begins with a capital outside
      ASCII *)
Definition E : Document.t :=
    Document.mk (Some 4%positive) "École" "ecole" false false "fr"
      None None None "" 10 false None None.

  (** A after [A.title = "Bar"] *)
Definition A_renamed : Document.t :=
  Document___setattr__ (H:=unicode) A attr_title "Bar".

  (** a new approved revision of A, not yet saved *)
Definition R4 : Revision.t :=
    Revision.mk None (Some 1%positive) "four" (Some 400%Z) (Some 20%Z)
      (Some 7%positive) 9%positive true (Some 3%positive) false.

  (** a revision of B that claims to be based on B's own revision 2 *)
Definition R5 : Revision.t :=
    Revision.mk None (Some 2%positive) "fuenf" None None None 8%positive
      false (Some 2%positive) false.

Definition db_of {A} (r : result (DB * A)) : DB :=
    match r with Ok (db', _) => db' | _ => empty end.
Definition document_of (r : result (DB * Document.t)) : Document.t :=
    match r with Ok (_, d) => d | _ => draft end.
End Sample.


(** ** Sample URLs

    A URL scheme of the shape the site uses, [/<locale>/kb/<slug>], for
    the locales of the sample wiki, and a renderer whose redirects carry
    their target in the first single-quoted [href]. *)
Module SampleUrls.
Fixpoint lstrip_slash (s : string) : string :=
  match s with
  | String c rest => if is_char c "/" then lstrip_slash rest else s
  | EmptyString => s
  end.

(** [s.partition(sep)]: the parts before and after the first [sep] *)
Fixpoint partition (sep : string) (s : string) : string * string :=
  match s with
  | String c rest =>
      if is_char c sep then (EmptyString, rest)
      else let '(first, rest) := partition sep rest in (String c first, rest)
  | EmptyString => (EmptyString, EmptyString)
  end.

Fixpoint drop (n : nat) (s : string) : string :=
  match n, s with
  | S n, String _ rest => drop n rest
  | _, _ => s
  end.

Definition split_path (path : string) : string * string :=
  let path := lstrip_slash path in
  let '(first, rest) := partition "/" path in
  if bool_decide (first ∈ ["en-US"; "de"]) then (first, rest)
  else (EmptyString, path).

Definition urlparse (url : string) : string * string :=
  if startswith url "http://support.example/"
  then ("support.example", drop 22 url)
  else (EmptyString, url).

Definition resolve (path : string) : resolved :=
  if startswith path "/kb/" then
    let slug := drop 4 path in
    if bool_decide (slug = EmptyString) then Http404 else document_view slug
  else if bool_decide (path = "/") then other_view
  else Http404.

Definition first_href (html : string) : option string :=
  let '(before, after) := partition "'" html in
  if bool_decide (after = EmptyString) then None
  else Some (partition "'" after).1.

(** [LANGUAGE_CODE] is en-US and [REDIRECT_HTML] is as the project
    ships it. *)
Definition urls : Urls :=
  Build_Urls "en-US" "<p>REDIRECT <a " urlparse split_path resolve first_href.

(** a redirect to [/en-US/kb/bar] *)
Definition redirect : Document.t :=
  Document.mk (Some 5%positive) "Foo Redirect 1" "foo-redirect-1" false
    false "en-US" (Some 6%positive) None None
    "<p>REDIRECT <a href='/en-US/kb/bar'>Bar</a></p>" 10 false None None.

(** settings whose parser reports two links to document 2 and one to
    document 1 *)
Definition linking : Settings := {|
    WIKI_DEFAULT_LANGUAGE := "en-US";
    CATEGORIES := [(10%Z, "Troubleshooting"); (20%Z, "How to")];
    TEMPLATE_TITLE_PREFIX := "Template:";
    TYPO_SIGNIFICANCE := 10;
    MEDIUM_SIGNIFICANCE := 20;
    MAJOR_SIGNIFICANCE := 30;
    REDIRECT_CONTENT := "REDIRECT [[%s]]";
    REDIRECT_TITLE := "%(old)s Redirect %(number)i";
    REDIRECT_SLUG := "%(old)s-redirect-%(number)i";
    wiki_to_html := λ content _ _, "<p>" ++ content ++ "</p>";
    what_links_here := λ _ _ _ _,
      [(2%positive, "link"); (2%positive, "template"); (1%positive, "include")]
  |}.

(** a link table with a stale link out of document 1 and a link out of
    document 2 *)
Definition linked : DB :=
  set_links {[ (1%positive, 7%positive) := "link";
               (2%positive, 1%positive) := "link" ]} Sample.db.
End SampleUrls.

(** [Meta.unique_together] as a property of the documents table: within
    a locale no two rows share a title, a slug or a parent. *)
Definition unique_documents (docs : gmap positive Document.t) : Prop :=
  ∀ i j a b, docs !! i = Some a → docs !! j = Some b → i ≠ j →
    Document.locale a = Document.locale b →
    Document.title a ≠ Document.title b
    ∧ Document.slug a ≠ Document.slug b
    ∧ (is_Some (Document.parent a) → Document.parent a ≠ Document.parent b).





(** ** Queries *)

Lemma elem_of_all_revisions db r :
  r ∈ all_revisions db ↔
  ∃ k row, revisions db !! k = Some row ∧ r = revision_of_row k row.
Proof.
  unfold all_revisions. rewrite list_elem_of_fmap. split.
  - intros [[k row] [-> Hin]]. apply elem_of_map_to_list in Hin. eauto.
  - intros (k & row & Hk & ->). exists (k, row). split; [done|].
    by apply elem_of_map_to_list.
Qed.

Lemma elem_of_all_documents db d :
  d ∈ all_documents db ↔
  ∃ k row, documents db !! k = Some row ∧ d = document_of_row k row.
Proof.
  unfold all_documents. rewrite list_elem_of_fmap. split.
  - intros [[k row] [-> Hin]]. apply elem_of_map_to_list in Hin. eauto.
  - intros (k & row & Hk & ->). exists (k, row). split; [done|].
    by apply elem_of_map_to_list.
Qed.

Lemma elem_of_revisions_of db d r :
  r ∈ revisions_of db (Some d) ↔
  ∃ k row, revisions db !! k = Some row
           ∧ Revision.document_id row = Some d ∧ r = revision_of_row k row.
Proof.
  unfold revisions_of. rewrite list_elem_of_filter, elem_of_all_revisions.
  split.
  - intros (Hd & k & row & Hk & ->). exists k, row. by destruct row.
  - intros (k & row & Hk & Hd & ->). split; [by destruct row|eauto].
Qed.

Lemma revisions_of_key db d r :
  r ∈ revisions_of db d → ∃ k, Revision.id r = Some k ∧ key r = Npos k.
Proof.
  destruct d as [d|]; [|by intros ?%elem_of_nil].
  intros (k & row & _ & _ & ->)%elem_of_revisions_of. by exists k.
Qed.

Lemma latest_None l : latest l = None ↔ l = [].
Proof.
  split; [|by intros ->].
  destruct l as [|r l]; [done|]. unfold latest. simpl. unfold newer.
  case_match; [case_match|]; done.
Qed.

Lemma latest_Some l r :
  latest l = Some r → r ∈ l ∧ ∀ r', r' ∈ l → (key r' ≤ key r)%N.
Proof.
  revert r. induction l as [|a l IH]; intros r; [done|].
  simpl. fold (latest l). unfold newer at 1.
  destruct (latest l) as [b|] eqn:Hb.
  - destruct (IH b eq_refl) as [Hin Hmax].
    destruct (N.ltb_spec (key b) (key a)); intros [= <-].
    + split; [left|]. intros r' [->|Hr']%elem_of_cons; [lia|].
      specialize (Hmax _ Hr'). lia.
    + split; [by right|]. intros r' [->|Hr']%elem_of_cons; [lia|auto].
  - apply latest_None in Hb as ->. intros [= <-]. split; [left|].
    by intros r' ->%list_elem_of_singleton.
Qed.

Lemma latest_highest (P : Revision.t → Prop) `{∀ r, Decision (P r)} l :
  highest P l (latest (filter P l)).
Proof.
  unfold highest. destruct (latest (filter P l)) as [r|] eqn:Hl.
  - apply latest_Some in Hl as [[Hr HP]%list_elem_of_filter Hmax].
    split_and!; [done..|]. intros r' Hr' HP'. apply Hmax.
    by apply list_elem_of_filter.
  - apply latest_None in Hl. intros r' Hr' HP'.
    assert (r' ∈ filter P l) as Hin by by apply list_elem_of_filter.
    rewrite Hl in Hin. by apply elem_of_nil in Hin.
Qed.

Lemma next_id_above {A} (m : gmap positive A) k :
  is_Some (m !! k) → (k < next_id m)%positive.
Proof.
  unfold next_id.
  assert (∀ k, is_Some (m !! k) →
            (Npos k ≤ map_fold (λ k _ acc, N.max (Npos k) acc) 0%N m)%N) as Hle.
  { apply (map_fold_weak_ind (λ n m, ∀ k, is_Some (m !! k) → (Npos k ≤ n)%N)).
    - intros k' [? Hk']. by rewrite lookup_empty in Hk'.
    - intros i x m' r Hi IH k' [y Hk'].
      destruct (decide (i = k')) as [->|Hne]; [lia|].
      rewrite lookup_insert_ne in Hk' by done.
      specialize (IH k' (ex_intro _ y Hk')). lia. }
  intros Hk. specialize (Hle _ Hk).
  destruct (map_fold _ _ _) as [|n]; simpl; lia.
Qed.

Lemma next_id_fresh {A} (m : gmap positive A) : m !! next_id m = None.
Proof.
  destruct (m !! next_id m) as [x|] eqn:Hx; [|done].
  pose proof (next_id_above m (next_id m) (ex_intro _ x Hx)). lia.
Qed.

Lemma get_revision_Some db k row :
  revisions db !! k = Some row →
  get_revision db k = Ok (revision_of_row k row).
Proof. unfold get_revision. by intros ->. Qed.

Lemma get_document_Some db k row :
  documents db !! k = Some row →
  get_document db k = Ok (document_of_row k row).
Proof. unfold get_document. by intros ->. Qed.

Lemma revision_of_row_document_id k r :
  Revision.document_id (revision_of_row k r) = Revision.document_id r.
Proof. by destruct r. Qed.

Lemma revision_of_row_id k r : Revision.id (revision_of_row k r) = Some k.
Proof. by destruct r. Qed.

Lemma document_of_row_id k d : Document.id (document_of_row k d) = Some k.
Proof. by destruct d. Qed.

Lemma document_of_row_locale k d :
  Document.locale (document_of_row k d) = Document.locale d.
Proof. by destruct d. Qed.

Lemma fk_revision_resolves db fk :
  resolves (revisions db) fk →
  fk_revision db fk
  = Ok (match fk with
        | Some k => revision_of_row k <$> revisions db !! k
        | None => None
        end).
Proof.
  intros Hr. destruct fk as [k|]; [|done]. simpl. unfold get_revision.
  destruct (Hr k eq_refl) as [row ->]. done.
Qed.

Lemma fk_document_resolves db fk :
  resolves (documents db) fk →
  fk_document db fk
  = Ok (match fk with
        | Some k => document_of_row k <$> documents db !! k
        | None => None
        end).
Proof.
  intros Hr. destruct fk as [k|]; [|done]. simpl. unfold get_document.
  destruct (Hr k eq_refl) as [row ->]. done.
Qed.

Section Properties.
Context `{Settings} `{Unicode}.

(** ** [localizable_or_latest_revision] and [is_outdated] *)

Lemma localizable_or_latest_revision_returns db D include_rejected :
  resolves (revisions db) (Document.latest_localizable_revision D) →
  ∃ res,
    Document_localizable_or_latest_revision db D include_rejected = Ok res.
Proof.
  intros Hfk. unfold Document_localizable_or_latest_revision.
  rewrite (fk_revision_resolves _ _ Hfk). cbn [mbind result_bind].
  destruct (_ || _); eauto.
Qed.

(** C5: [localizable_or_latest_revision(D, include_rejected)] follows the
    resolution order: the latest localizable revision when it is set and
    D is localizable; else the highest-id approved revision; else the
    highest-id revision that is not rejected; else, with
    [include_rejected], the highest-id revision of any kind; else none. *)
Theorem localizable_or_latest_revision_resolution db D include_rejected :
  resolves (revisions db) (Document.latest_localizable_revision D) →
  ∃ res,
    Document_localizable_or_latest_revision db D include_rejected = Ok res
    ∧ resolution_order db D include_rejected res.
Proof.
  intros Hfk. unfold Document_localizable_or_latest_revision, resolution_order.
  rewrite (fk_revision_resolves _ _ Hfk). simpl.
  set (revs := revisions_of db (Document.id D)).
  pose proof (latest_highest (λ r, Revision.is_approved r = true) revs) as Ha.
  pose proof (latest_highest (λ r, ¬ rejected r) revs) as Hu.
  pose proof (latest_highest (λ _, True) revs) as Hall.
  assert (filter (λ _ : Revision.t, True) revs = revs) as Hid.
  { clear. induction revs as [|r l IH]; [done|].
    rewrite filter_cons_True by done. by rewrite IH. }
  rewrite Hid in Hall. clear Hid.
  assert (∀ res,
    res = match latest (filter (λ r, Revision.is_approved r = true) revs) with
          | Some r => Some r
          | None =>
              match latest (filter (λ r, ¬ rejected r) revs) with
              | Some r => Some r
              | None => if include_rejected then latest revs else None
              end
          end →
    ∃ a, highest (λ r, Revision.is_approved r = true) revs a
      ∧ match a with
        | Some _ => res = a
        | None =>
            ∃ u, highest (λ r, ¬ rejected r) revs u
              ∧ match u with
                | Some _ => res = u
                | None =>
                    if include_rejected then highest (λ _, True) revs res
                    else res = None
                end
        end) as Hfall.
  { intros res ->. eexists; split; [exact Ha|].
    destruct (latest (filter (λ r, Revision.is_approved r = true) revs)); [done|].
    eexists; split; [exact Hu|].
    destruct (latest (filter (λ r, ¬ rejected r) revs)); [done|].
    by destruct include_rejected. }
  destruct (Document.latest_localizable_revision D) as [l|] eqn:Hl.
  - destruct (Hfk l eq_refl) as [row Hrow]. rewrite Hrow. simpl.
    destruct (Document.is_localizable D) eqn:Hloc; simpl.
    + eexists; split; [done|]. left. by exists l, row.
    + eexists; split; [done|]. right. split; [by right|]. by apply Hfall.
  - simpl. eexists; split; [done|]. right. split; [by left|]. by apply Hfall.
Qed.

(** C4: [is_outdated(T, L)] is false when T has no parent or no current
    revision; otherwise it is true exactly when T's parent has an approved,
    ready-for-localization revision of significance L or more whose id
    exceeds that of [T.current_revision.based_on] when that is set; and
    [is_majorly_outdated(T)] is [is_outdated(T, MAJOR_SIGNIFICANCE)]. *)
Theorem is_outdated_iff db T L :
  resolves (documents db) (Document.parent T) →
  resolves (revisions db) (Document.current_revision T) →
  Document_is_majorly_outdated db T
  = Document_is_outdated db T MAJOR_SIGNIFICANCE
  ∧ ∃ b, Document_is_outdated db T L = Ok b
    ∧ (Document.parent T = None ∨ Document.current_revision T = None →
       b = false)
    ∧ (∀ p c cur,
         Document.parent T = Some p →
         Document.current_revision T = Some c →
         revisions db !! c = Some cur →
         (b = true ↔
          newer_localizable_revision db p (Revision.based_on cur) L)).
Proof.
  intros Hp Hc. split; [done|]. unfold Document_is_outdated.
  rewrite (fk_document_resolves _ _ Hp). simpl.
  destruct (Document.parent T) as [p|] eqn:HpT.
  2:{ exists false. split_and!; [done|done|]. by intros p c cur [=]. }
  destruct (Hp p eq_refl) as [P HP]. rewrite HP. simpl.
  rewrite (fk_revision_resolves _ _ Hc). simpl.
  destruct (Document.current_revision T) as [c|] eqn:HcT.
  2:{ exists false. split_and!; [done|done|]. by intros q c cur _ [=]. }
  destruct (Hc c eq_refl) as [cur Hcur]. rewrite Hcur. simpl.
  eexists. split_and!; [done| |].
  { by intros [[=]|[=]]. }
  intros q c' cur' [= <-] [= <-]. rewrite Hcur. intros [= <-].
  rewrite bool_decide_eq_true.
  set (b := Revision.based_on cur).
  unfold newer_localizable_revision. split.
  - intros Hne.
    destruct (filter _ _) as [|r l] eqn:Hf; [done|].
    assert (r ∈ r :: l) as Hr by left. rewrite <-Hf in Hr.
    apply list_elem_of_filter in Hr as [(Ha & Hrd & Hs & Hm) Hr].
    apply elem_of_revisions_of in Hr as (k & row & Hk & Hd & ->).
    exists k, row. destruct row; simpl in *. split_and!; [done..| |].
    + unfold significance_gte in Hs. simpl in Hs.
      destruct significance; [eauto|done].
    + intros b' Hb'. unfold more_filters in Hm. by rewrite Hb' in Hm.
  - intros (k & row & Hk & Hd & Ha & Hrd & (s & Hs & HL) & Hb).
    assert (revision_of_row k row ∈
            filter (λ r, Revision.is_approved r = true
                         ∧ Revision.is_ready_for_localization r = true
                         ∧ significance_gte r L ∧ more_filters b r)
              (revisions_of db (Some p))) as Hin.
    { apply list_elem_of_filter. split.
      - destruct row; simpl in *. split_and!; [done..| |].
        + unfold significance_gte. simpl. by rewrite Hs.
        + unfold more_filters. simpl. destruct b; [by apply Hb|done].
      - apply elem_of_revisions_of. by exists k, row. }
    intros Hnil. apply (elem_of_nil (revision_of_row k row)).
    rewrite <-Hnil. exact Hin.
Qed.

(** ** The shape of [Document.save] *)

Lemma bind_assoc {A B C} (m : result A) (f : A → result B) (g : B → result C) :
  (m ≫= f) ≫= g = m ≫= (λ a, f a ≫= g).
Proof. by destruct m. Qed.

Lemma bind_ext {A B} (m : result A) (f g : A → result B) :
  (∀ a, f a = g a) → m ≫= f = m ≫= g.
Proof. intros Hfg. destruct m; [apply Hfg|done..]. Qed.

Lemma delete_old_attrs (self : Document.t) :
  (let self' :=
     if bool_decide (is_Some (Document.old_slug self))
     then Document.set_old_slug None self else self in
   if bool_decide (is_Some (Document.old_title self))
   then Document.set_old_title None self' else self')
  = Document.set_old_title None (Document.set_old_slug None self).
Proof.
  destruct self as [id ti sl te lo lc cr llr pa ht ca ar [os|] [ot|]]; done.
Qed.

Lemma Document_save_unfold fuel db self :
  Document_save (S fuel) db self =
  '(db, self) ← Document_save_write db self;
  cur ← fk_revision db (Document.current_revision self);
  '(db, self) ←
    match cur with
    | Some current_revision =>
        if pending_rename self
        then Document_save_redirect fuel db self current_revision
        else Ok (db, self)
    | None => Ok (db, self)
    end;
  db ← Document_parse_and_calculate_links db self;
  Ok (db, self).
Proof.
  cbn [Document_save].
  unfold Document_save_write, Document_save_redirect, pending_rename.
  rewrite bind_assoc. apply bind_ext. intros _.
  rewrite bind_assoc. apply bind_ext. intros _.
  rewrite bind_assoc. apply bind_ext. intros self1.
  rewrite bind_assoc. apply bind_ext. intros [db2 self2].
  rewrite bind_assoc. apply bind_ext. intros [db3 self3].
  apply bind_ext. intros [db4 self4].
  apply bind_ext. intros [cur|]; [|done].
  destruct (_ || _); [|done]. f_equal.
  apply bind_ext. intros title. apply bind_ext. intros slug.
  apply bind_ext. intros [db5 doc]. apply bind_ext. intros content.
  apply bind_ext. intros [[db6 r] d]. do 2 f_equal.
  apply delete_old_attrs.
Qed.

Lemma raise_if_collides_existing db self a e k :
  Document.id self = Some k → old_attr self a = None →
  Document__raise_if_collides db self a e = Ok ().
Proof.
  intros Hid Hold. unfold Document__raise_if_collides.
  by rewrite Hid, Hold.
Qed.

Lemma raise_if_collides_Ok db self a e :
  Document__raise_if_collides db self a e = Ok () →
  Document.id self = None ∨ is_Some (old_attr self a) →
  Document__collides db self a (getattr self a) = false.
Proof.
  unfold Document__raise_if_collides. intros Hok Hcase.
  destruct (Document__collides _ _ _ _); [|done].
  destruct Hcase as [Hid|Hold].
  - by rewrite Hid in Hok.
  - rewrite (bool_decide_eq_true_2 _ Hold), orb_true_r in Hok. done.
Qed.

Lemma propagate_lookup k self docs j :
  propagate k self docs !! j =
  (λ t, if bool_decide (Document.parent t = Some k)
        then Document.set_category (Document.category self)
               (Document.set_is_archived (Document.is_archived self) t)
        else t) <$> docs !! j.
Proof.
  unfold propagate. rewrite !lookup_fmap.
  destruct (docs !! j) as [t|]; [|done]. simpl. f_equal.
  destruct t as [id ti sl te lo lc cr llr pa ht ca ar os ot]; simpl.
  destruct (bool_decide (pa = Some k)) eqn:Hb; simpl; by rewrite Hb.
Qed.

Lemma bind_Ok_inv {A B} (m : result A) (f : A → result B) b :
  m ≫= f = Ok b → ∃ a, m = Ok a ∧ f a = Ok b.
Proof. destruct m; [eauto|done..]. Qed.

Lemma fk_document_Ok db fk o :
  fk_document db fk = Ok o →
  match fk with
  | Some k => ∃ row, documents db !! k = Some row
                     ∧ o = Some (document_of_row k row)
  | None => o = None
  end.
Proof.
  destruct fk as [k|]; simpl; [|congruence]. unfold get_document.
  destruct (documents db !! k) as [row|]; simpl; [|done].
  intros [= <-]. eauto.
Qed.

Lemma clean_is_localizable_Ok db self self' :
  Document__clean_is_localizable db self = Ok self' →
  self' = Document.set_is_localizable
            (if bool_decide (Document.locale self ≠ WIKI_DEFAULT_LANGUAGE)
             then false else Document.is_localizable self) self
  ∧ match Document.parent self with
    | Some p => ∃ P, documents db !! p = Some P
                     ∧ Document.is_localizable P = true
    | None => True
    end
  ∧ (is_Some (Document.id self) → Document.is_localizable self' = false →
     translations_of db (Document.id self) = []).
Proof.
  unfold Document__clean_is_localizable.
  set (self0 := if bool_decide (Document.locale self ≠ WIKI_DEFAULT_LANGUAGE)
                then Document.set_is_localizable false self else self).
  assert (self0 = Document.set_is_localizable
            (if bool_decide (Document.locale self ≠ WIKI_DEFAULT_LANGUAGE)
             then false else Document.is_localizable self) self
          ∧ Document.parent self0 = Document.parent self
          ∧ Document.id self0 = Document.id self) as (Heq & Hpar & Hid).
  { unfold self0. destruct (bool_decide _); by destruct self. }
  clearbody self0. rewrite Hpar, Hid.
  intros (parent & Hp & Hok)%bind_Ok_inv.
  apply fk_document_Ok in Hp.
  assert (∀ X : result Document.t,
    (if bool_decide (is_Some (Document.id self))
        && negb (Document.is_localizable self0)
        && bool_decide (translations_of db (Document.id self) ≠ [])
     then Raise ValidationError else Ok self0) = Ok self' →
    self' = self0
    ∧ (is_Some (Document.id self) → Document.is_localizable self' = false →
       translations_of db (Document.id self) = [])) as Hlast.
  { intros _ Hif.
    assert (self' = self0) as -> by (destruct (_ && _); by simplify_eq).
    split; [done|]. intros Hs' Hl'.
    destruct (decide (translations_of db (Document.id self) = []))
      as [|Hne]; [done|]. exfalso.
    rewrite (bool_decide_eq_true_2 _ Hs'), Hl', (bool_decide_eq_true_2 _ Hne)
      in Hif. done. }
  destruct (Document.parent self) as [p|].
  - destruct Hp as (P & HP & ->).
    destruct (Document.is_localizable P) eqn:Hloc.
    + assert (Document.is_localizable (document_of_row p P) = true) as Hloc'
        by by destruct P.
      rewrite Hloc' in Hok. cbn [negb] in Hok.
      apply (Hlast (Ok self0)) in Hok as [-> Htr]. subst self0. eauto.
    + assert (Document.is_localizable (document_of_row p P) = false) as Hloc'
        by by destruct P.
      by rewrite Hloc' in Hok.
  - subst parent. apply (Hlast (Ok self0)) in Hok as [-> Htr].
    subst self0. done.
Qed.

Lemma ensure_inherited_attr_Ok db self a db' self' :
  Document__ensure_inherited_attr db self a = Ok (db', self') →
  match Document.parent self with
  | Some p => ∃ P, documents db !! p = Some P ∧ db' = db
                   ∧ self' = copy_attr a (document_of_row p P) self
  | None =>
      self' = self
      ∧ db' = match Document.id self with
              | Some k =>
                  set_documents
                    ((λ t, if bool_decide (Document.parent t = Some k)
                           then copy_attr a self t else t) <$> documents db) db
              | None => db
              end
  end.
Proof.
  unfold Document__ensure_inherited_attr.
  intros (parent & Hp & Hok)%bind_Ok_inv. apply fk_document_Ok in Hp.
  destruct (Document.parent self) as [p|].
  - destruct Hp as (P & HP & ->). simplify_eq. eauto.
  - subst parent. destruct (Document.id self); by simplify_eq.
Qed.

Lemma clean_category_Ok db self db' self' :
  Document__clean_category db self = Ok (db', self') →
  Document__ensure_inherited_attr db self attr_category = Ok (db', self')
  ∧ (Document.parent self = None → Document.category self ∈ CATEGORIES.*1).
Proof.
  unfold Document__clean_category.
  intros (parent & Hp & Hok)%bind_Ok_inv. apply fk_document_Ok in Hp.
  destruct (Document.parent self) as [p|].
  - destruct Hp as (P & HP & ->). simpl in Hok. done.
  - subst parent. rewrite bool_decide_eq_true_2 in Hok by done.
    simpl in Hok. case_bool_decide as Hcat; [done|].
    split; [done|]. intros _.
    by destruct (decide (Document.category self ∈ CATEGORIES.*1)).
Qed.

Lemma Model_save_document_Ok db self db' self' :
  Model_save_document db self = Ok (db', self') →
  let k := default (next_id (documents db)) (Document.id self) in
  unique_together (documents db) k self = true
  ∧ self' = Document.set_id (Some k) self
  ∧ db' = set_documents (<[k := document_of_row k self]> (documents db)) db.
Proof.
  intros Hok k. unfold Model_save_document in Hok. fold k in Hok.
  destruct (unique_together _ _ _); by simplify_eq.
Qed.

Lemma unique_together_ext docs k self self' :
  Document.locale self' = Document.locale self →
  Document.title self' = Document.title self →
  Document.slug self' = Document.slug self →
  Document.parent self' = Document.parent self →
  unique_together docs k self' = unique_together docs k self.
Proof.
  intros Hl Ht Hs Hp. unfold unique_together. by rewrite Hl, Ht, Hs, Hp.
Qed.

Lemma Document_save_write_Ok db self db1 self1 :
  Document_save_write db self = Ok (db1, self1) →
  let k := default (next_id (documents db)) (Document.id self) in
  ∃ src,
    match Document.parent self with
    | Some p => ∃ P, documents db !! p = Some P
                     ∧ src = document_of_row p P
                     ∧ Document.is_localizable P = true
    | None => src = self ∧ Document.category self ∈ CATEGORIES.*1
    end
    ∧ self1 =
      Document.mk (Some k) (Document.title self) (Document.slug self)
        (startswith (Document.title self) TEMPLATE_TITLE_PREFIX)
        (if bool_decide (Document.locale self ≠ WIKI_DEFAULT_LANGUAGE)
         then false else Document.is_localizable self)
        (Document.locale self) (Document.current_revision self)
        (Document.latest_localizable_revision self) (Document.parent self)
        (Document.html self) (Document.category src)
        (Document.is_archived src) (Document.old_slug self)
        (Document.old_title self)
    ∧ db1 = set_documents
              (<[k := document_of_row k self1]> (propagated self (documents db)))
              db
    ∧ unique_together (propagated self (documents db)) k self1 = true
    ∧ (∀ a, Document.id self = None ∨ is_Some (old_attr self a) →
            Document__collides db self a (getattr self a) = false)
    ∧ (is_Some (Document.id self) → Document.is_localizable self1 = false →
       translations_of db (Document.id self) = []).
Proof.
  intros Hok k. unfold Document_save_write in Hok.
  apply bind_Ok_inv in Hok as ([] & Hs & Hok).
  apply bind_Ok_inv in Hok as ([] & Ht & Hok).
  assert (∀ a, Document.id self = None ∨ is_Some (old_attr self a) →
            Document__collides db self a (getattr self a) = false) as Hcol.
  { intros [] Hcase.
    - apply raise_if_collides_Ok in Hs; [|by destruct self].
      by destruct self.
    - apply raise_if_collides_Ok in Ht; [|by destruct self].
      by destruct self. }
  clear Hs Ht.
  apply bind_Ok_inv in Hok as (self2 & H2 & Hok).
  apply clean_is_localizable_Ok in H2 as (-> & Hpl & Htr).
  apply bind_Ok_inv in Hok as ([db3 self3] & H3 & Hok).
  apply ensure_inherited_attr_Ok in H3.
  apply bind_Ok_inv in Hok as ([db4 self4] & H4 & Hok).
  apply clean_category_Ok in H4 as [H4 Hcat].
  apply ensure_inherited_attr_Ok in H4.
  apply Model_save_document_Ok in Hok as (Huniq & -> & ->).
  unfold propagated.
  destruct self as [id ti sl te lo lc cr llr pa ht ca ar os ot];
    simpl in *.
  destruct pa as [p|].
  - destruct H3 as (P & HP & -> & ->). simpl in H4.
    destruct H4 as (P4 & HP4 & -> & ->). rewrite HP in HP4.
    injection HP4 as <-.
    exists (document_of_row p P). destruct Hpl as (P5 & HP5 & Hloc).
    rewrite HP in HP5. injection HP5 as <-. split; [by eauto|].
    destruct P; simpl in *. split_and!; [done|done| |done|exact Htr].
    fold k. erewrite unique_together_ext; [exact Huniq|done..].
  - destruct H3 as [-> ->]. simpl in H4. destruct H4 as [-> ->].
    simpl in *. eexists. split; [split; [reflexivity|by apply Hcat]|].
    simpl. fold k. destruct id as [i|]; simpl in *.
    + split_and!; [done| |exact Huniq|done|exact Htr].
      unfold propagate. done.
    + split_and!; [done|done|exact Huniq|done|exact Htr].
Qed.

Lemma fk_revision_Raise db fk e :
  fk_revision db fk = Raise e → e = DoesNotExist.
Proof.
  destruct fk as [k|]; [|done]. simpl. unfold get_revision.
  destruct (revisions db !! k); simpl; congruence.
Qed.

Lemma fk_revision_Ok db fk o :
  fk_revision db fk = Ok o →
  match fk with
  | Some k => ∃ row, revisions db !! k = Some row
                     ∧ o = Some (revision_of_row k row)
  | None => o = None
  end.
Proof.
  destruct fk as [k|]; simpl; [|congruence]. unfold get_revision.
  destruct (revisions db !! k) as [row|]; simpl; [|done].
  intros [= <-]. eauto.
Qed.

Lemma fk_revision_not_OutOfFuel db fk : fk_revision db fk ≠ OutOfFuel.
Proof.
  destruct fk as [k|]; [|done]. simpl. unfold get_revision.
  by destruct (revisions db !! k).
Qed.

Lemma parse_and_calculate_links_Ok db self db' :
  Document_parse_and_calculate_links db self = Ok db' →
  documents db' = documents db ∧ revisions db' = revisions db
  ∧ contributors db' = contributors db.
Proof.
  unfold Document_parse_and_calculate_links.
  destruct (fk_revision _ _) as [[rev|]| |]; simpl; try done.
  - destruct (Document.id self); intros [= <-]; done.
  - by intros [= <-].
Qed.

Lemma parse_and_calculate_links_Raise db self e :
  Document_parse_and_calculate_links db self = Raise e → e = DoesNotExist.
Proof.
  unfold Document_parse_and_calculate_links.
  destruct (fk_revision _ _) as [[rev|]| |] eqn:Hfk; simpl; try done.
  - by destruct (Document.id self).
  - intros [= <-]. by apply fk_revision_Raise in Hfk.
Qed.

Lemma parse_and_calculate_links_not_OutOfFuel db self :
  Document_parse_and_calculate_links db self ≠ OutOfFuel.
Proof.
  unfold Document_parse_and_calculate_links.
  pose proof (fk_revision_not_OutOfFuel db (Document.current_revision self)).
  destruct (fk_revision _ _) as [[rev|]| |]; simpl; try done.
  by destruct (Document.id self).
Qed.

Lemma bind_Raise_inv {A B} (m : result A) (f : A → result B) e :
  m ≫= f = Raise e → m = Raise e ∨ ∃ a, m = Ok a ∧ f a = Raise e.
Proof. destruct m; [eauto|intros [= ->]; by left|done]. Qed.

Lemma fk_document_Raise db fk e :
  fk_document db fk = Raise e → e = DoesNotExist.
Proof.
  destruct fk as [k|]; [|done]. simpl. unfold get_document.
  destruct (documents db !! k); simpl; congruence.
Qed.

Lemma raise_if_collides_Raise db self a exception e :
  Document__raise_if_collides db self a exception = Raise e →
  e = exception ∧ (Document.id self = None ∨ is_Some (old_attr self a)).
Proof.
  unfold Document__raise_if_collides.
  destruct (bool_decide (Document.id self = None)) eqn:Hid; simpl.
  - apply bool_decide_eq_true in Hid.
    destruct (Document__collides _ _ _ _); [|done]. intros [= <-]. eauto.
  - destruct (bool_decide (is_Some (old_attr self a))) eqn:Hold; [|done].
    apply bool_decide_eq_true in Hold.
    destruct (Document__collides _ _ _ _); [|done]. intros [= <-]. eauto.
Qed.

Lemma clean_is_localizable_Raise db self e :
  Document__clean_is_localizable db self = Raise e →
  e = ValidationError ∨ e = DoesNotExist.
Proof.
  unfold Document__clean_is_localizable.
  intros [Hp|(parent & _ & Hr)]%bind_Raise_inv.
  - right. by apply fk_document_Raise in Hp.
  - left. repeat case_match; congruence.
Qed.

Lemma ensure_inherited_attr_Raise db self a e :
  Document__ensure_inherited_attr db self a = Raise e → e = DoesNotExist.
Proof.
  unfold Document__ensure_inherited_attr.
  intros [Hp|(parent & _ & Hr)]%bind_Raise_inv.
  - by apply fk_document_Raise in Hp.
  - repeat case_match; congruence.
Qed.

Lemma clean_category_Raise db self e :
  Document__clean_category db self = Raise e →
  e = ValidationError ∨ e = DoesNotExist.
Proof.
  unfold Document__clean_category.
  intros [Hp|(parent & _ & Hr)]%bind_Raise_inv.
  - right. by apply fk_document_Raise in Hp.
  - destruct (_ && _); [left; congruence|].
    right. by apply ensure_inherited_attr_Raise in Hr.
Qed.

Lemma Model_save_document_Raise db self e :
  Model_save_document db self = Raise e → e = IntegrityError.
Proof.
  unfold Model_save_document. destruct (unique_together _ _ _); congruence.
Qed.

Lemma Document_save_write_Raise db self e :
  Document_save_write db self = Raise e →
  e = ValidationError ∨ e = DoesNotExist ∨ e = IntegrityError
  ∨ (e = SlugCollision
     ∧ (Document.id self = None ∨ is_Some (Document.old_slug self)))
  ∨ (e = TitleCollision
     ∧ (Document.id self = None ∨ is_Some (Document.old_title self))).
Proof.
  unfold Document_save_write.
  intros [Hs|([] & _ & Hr)]%bind_Raise_inv.
  { apply raise_if_collides_Raise in Hs as [-> Hcase].
    do 3 right. left. split; [done|]. by destruct self. }
  apply bind_Raise_inv in Hr as [Ht|([] & _ & Hr)].
  { apply raise_if_collides_Raise in Ht as [-> Hcase].
    do 4 right. split; [done|]. by destruct self. }
  apply bind_Raise_inv in Hr as [H2|(self2 & _ & Hr)].
  { apply clean_is_localizable_Raise in H2 as [->| ->]; eauto. }
  apply bind_Raise_inv in Hr as [H3|([db3 self3] & _ & Hr)].
  { apply ensure_inherited_attr_Raise in H3 as ->; eauto. }
  apply bind_Raise_inv in Hr as [H4|([db4 self4] & _ & Hr)].
  { apply clean_category_Raise in H4 as [->| ->]; eauto. }
  apply Model_save_document_Raise in Hr as ->. eauto.
Qed.

(** ** Rename tracking and the collision check *)

(** C10: saving a document that exists in storage and has no pending old
    title or slug never raises [SlugCollision] or [TitleCollision]: the
    check is skipped for it, although its own stored row answers the
    collision query. *)
Theorem save_unchanged_never_collides fuel db D k :
  Document.id D = Some k →
  Document.old_slug D = None →
  Document.old_title D = None →
  Document_save fuel db D ≠ Raise SlugCollision
  ∧ Document_save fuel db D ≠ Raise TitleCollision
  ∧ (∀ a e, Document__raise_if_collides db D a e = Ok ())
  ∧ (∀ a row, documents db !! k = Some row →
       Document.locale row = Document.locale D →
       getattr row a = getattr D a →
       Document__collides db D a (getattr D a) = true).
Proof.
  intros Hid Hs Ht.
  assert (∀ e, Document_save fuel db D = Raise e →
            e ≠ SlugCollision ∧ e ≠ TitleCollision) as Hno.
  { destruct fuel as [|fuel]; [done|]. rewrite Document_save_unfold.
    intros e He.
    destruct (Document_save_write db D) as [[db1 self1]| |] eqn:Hw;
      simpl in He; [| |done].
    - apply Document_save_write_Ok in Hw as (src & _ & -> & _).
      simpl in He. unfold pending_rename in He. simpl in He.
      rewrite Hs, Ht in He.
      rewrite !bool_decide_eq_false_2 in He by (by intros []). simpl in He.
      destruct (fk_revision db1 _) as [[c|]| |] eqn:Hfk; simpl in He;
        try done.
      + destruct (Document_parse_and_calculate_links _ _) eqn:Hl;
          simpl in He; simplify_eq.
        by apply parse_and_calculate_links_Raise in Hl as ->.
      + destruct (Document_parse_and_calculate_links _ _) eqn:Hl;
          simpl in He; simplify_eq.
        by apply parse_and_calculate_links_Raise in Hl as ->.
      + simplify_eq. by apply fk_revision_Raise in Hfk as ->.
    - simplify_eq. apply Document_save_write_Raise in Hw.
      rewrite Hid, Hs, Ht in Hw.
      destruct Hw as [->| [->| [->| [[_ [?|[]]]|[_ [?|[]]]]]]]; done. }
  split_and!.
  - intros He. by apply Hno in He as [? _].
  - intros He. by apply Hno in He as [_ ?].
  - intros a e. apply (raise_if_collides_existing _ _ _ _ k); [done|].
    by destruct a.
  - intros a row Hrow Hloc Hattr. unfold Document__collides.
    apply bool_decide_eq_true. intros Hnil.
    apply (elem_of_nil (document_of_row k row)). rewrite <-Hnil.
    apply list_elem_of_filter. split.
    + destruct row, a; simpl in *; done.
    + apply elem_of_all_documents. eauto.
Qed.

(** C9: on a persisted document, assigning a title or slug that differs
    from the current one only in letter case records no pending old
    value; assigning the tracked original value back removes the pending
    marker; and a change followed by the exact revert leaves the instance
    as it was, so that [save] behaves as if nothing had been assigned. *)
Theorem setattr_tracks_renames D a k :
  Document.id D = Some k →
  (∀ v, old_attr D a = None →
        lower v = lower (getattr D a) →
        ∀ a', old_attr (Document___setattr__ D a v) a' = old_attr D a')
  ∧ (∀ v0, old_attr D a = Some v0 →
        old_attr (Document___setattr__ D a v0) a = None
        ∧ getattr (Document___setattr__ D a v0) a = v0)
  ∧ (∀ v1, old_attr D a = None →
        Document___setattr__ (Document___setattr__ D a v1) a (getattr D a) = D
        ∧ ∀ fuel db,
            Document_save fuel db
              (Document___setattr__ (Document___setattr__ D a v1) a
                 (getattr D a))
            = Document_save fuel db D).
Proof.
  intros Hid. split_and!.
  - intros v Hold Hlow a'. unfold Document___setattr__.
    rewrite Hid, Hold. rewrite bool_decide_eq_true_2 by eauto.
    rewrite bool_decide_eq_false_2 by (intros Hne; by apply Hne).
    by destruct D, a, a'.
  - intros v0 Hold. unfold Document___setattr__.
    rewrite Hid, Hold. rewrite bool_decide_eq_true_2 by eauto.
    rewrite bool_decide_eq_true_2 by done.
    by destruct D, a.
  - intros v1 Hold.
    assert (Document___setattr__ (Document___setattr__ D a v1) a (getattr D a)
            = D) as Heq; [|by rewrite Heq].
    unfold Document___setattr__.
    destruct D as [id ti sl te lo lc cr llr pa ht ca ar os ot].
    simpl in Hid, Hold. subst id.
    destruct a; simpl in *; subst.
    + destruct (decide (lower sl = lower v1)) as [Hl|Hl].
      * rewrite (bool_decide_eq_false_2 (lower sl ≠ lower v1)) by tauto.
        simpl.
        rewrite (bool_decide_eq_false_2 (lower v1 ≠ lower sl))
          by (intros ?; congruence).
        done.
      * rewrite (bool_decide_eq_true_2 (lower sl ≠ lower v1)) by done.
        simpl. by rewrite (bool_decide_eq_true_2 (sl = sl)) by done.
    + destruct (decide (lower ti = lower v1)) as [Hl|Hl].
      * rewrite (bool_decide_eq_false_2 (lower ti ≠ lower v1)) by tauto.
        simpl.
        rewrite (bool_decide_eq_false_2 (lower v1 ≠ lower ti))
          by (intros ?; congruence).
        done.
      * rewrite (bool_decide_eq_true_2 (lower ti ≠ lower v1)) by done.
        simpl. by rewrite (bool_decide_eq_true_2 (ti = ti)) by done.
Qed.

(** ** The redirect attribute generator *)








(** ** Validation of [based_on] *)

(** C8: a revision whose [based_on] names a revision of another document
    than the canonical original of its own document fails [clean] with a
    [ValidationError]; the corrected value, the original's
    localizable-or-latest revision, is computed and left on the instance
    for the caller, and [save] refuses to write.  A [based_on] that is
    null or names a revision of the canonical original passes [clean]
    unchanged. *)
Theorem based_on_validation db R D orig :
  Document_original db D = Ok orig →
  (∀ b brow bd,
     Revision.based_on R = Some b →
     revisions db !! b = Some brow →
     Revision.document_id brow = Some bd →
     is_Some (documents db !! bd) →
     Some bd ≠ Document.id orig →
     resolves (revisions db) (Document.latest_localizable_revision orig) →
     ∃ corrected,
       Document_localizable_or_latest_revision db orig false = Ok corrected
       ∧ Revision__based_on_is_clean db R D = Ok (corrected, false)
       ∧ Revision_clean db R (Some D)
         = (Revision.set_based_on (corrected ≫= Revision.id) R,
            Raise ValidationError)
       ∧ ∀ fuel, Revision_save fuel db R D = Raise ProgrammingError)
  ∧ (Revision.based_on R = None
     ∨ (∃ b brow bd,
          Revision.based_on R = Some b
          ∧ revisions db !! b = Some brow
          ∧ Revision.document_id brow = Some bd
          ∧ is_Some (documents db !! bd)
          ∧ Some bd = Document.id orig) →
     (∃ based_on, Revision__based_on_is_clean db R D = Ok (based_on, true)
                  ∧ based_on ≫= Revision.id = Revision.based_on R)
     ∧ (Revision_clean db R (Some D)).2 = Ok ()
     ∧ Revision.based_on (Revision_clean db R (Some D)).1
       = Revision.based_on R).
Proof.
  intros Horig. split.
  - intros b brow bd Hb Hbrow Hbd [bdoc Hbdoc] Hne Hllr.
    destruct (localizable_or_latest_revision_returns db orig false Hllr)
      as (corrected & Hcorr).
    assert (Revision__based_on_is_clean db R D = Ok (corrected, false))
      as Hclean.
    { unfold Revision__based_on_is_clean. rewrite Horig, Hb.
      cbn [mbind result_bind fk_revision].
      rewrite (get_revision_Some _ _ _ Hbrow). cbn [mbind result_bind].
      rewrite revision_of_row_document_id, Hbd.
      cbn [fk_required_document].
      rewrite (get_document_Some _ _ _ Hbdoc). cbn [mbind result_bind].
      rewrite document_of_row_id.
      rewrite bool_decide_eq_true_2 by done.
      by rewrite Hcorr. }
    exists corrected. split_and!; [done..| |].
    + unfold Revision_clean. by rewrite Horig, Hclean.
    + intros fuel. unfold Revision_save, Revision_save_with.
      by rewrite Hclean.
  - intros Hcase.
    assert (∃ based_on, Revision__based_on_is_clean db R D = Ok (based_on, true)
                        ∧ based_on ≫= Revision.id = Revision.based_on R)
      as (based_on & Hclean & Hsame).
    { unfold Revision__based_on_is_clean. rewrite Horig.
      cbn [mbind result_bind].
      destruct Hcase as [Hnone|(b & brow & bd & Hb & Hbrow & Hbd & [bdoc Hbdoc] & Heq)].
      - rewrite Hnone. by exists None.
      - rewrite Hb. cbn [mbind result_bind fk_revision].
        rewrite (get_revision_Some _ _ _ Hbrow). cbn [mbind result_bind].
        rewrite revision_of_row_document_id, Hbd.
        cbn [fk_required_document].
        rewrite (get_document_Some _ _ _ Hbdoc). cbn [mbind result_bind].
        rewrite document_of_row_id.
        rewrite bool_decide_eq_false_2 by (intros Hne; by apply Hne).
        exists (Some (revision_of_row b brow)). split; [done|].
        by destruct brow. }
    split; [eauto|].
    unfold Revision_clean. rewrite Horig, Hclean. cbn [negb].
    destruct (Revision_can_be_readied_for_localization R D) eqn:Hr;
      [done|]. split; [done|]. by destruct R.
Qed.

(** ** Deleting a revision *)

Lemma revisions_of_ext db db' d :
  revisions db' = revisions db → revisions_of db' d = revisions_of db d.
Proof.
  intros Heq. unfold revisions_of, all_revisions. by rewrite Heq.
Qed.




Lemma without_revision_lookup k revs :
  without_revision k revs !! k = None
  ∧ ∀ j row, j ≠ k → revs !! j = Some row →
      ∃ row', without_revision k revs !! j = Some row'
        ∧ (Revision.based_on row = Some k → Revision.based_on row' = None)
        ∧ (Revision.based_on row ≠ Some k → row' = row).
Proof.
  unfold without_revision. split; [apply lookup_delete_eq|].
  intros j row Hne Hj. rewrite lookup_delete_ne by done.
  rewrite lookup_fmap, Hj. eexists. split; [reflexivity|].
  case_bool_decide as Hb; split.
  - intros _. by destruct row.
  - intros Hn. by destruct Hn.
  - intros Hy. by destruct Hb.
  - done.
Qed.


(** ** What [save] does to the instance and to the tables *)

Lemma Document_save_write_fields db self db1 self1 :
  Document_save_write db self = Ok (db1, self1) →
  Document.id self1
  = Some (default (next_id (documents db)) (Document.id self))
  ∧ Document.title self1 = Document.title self
  ∧ Document.slug self1 = Document.slug self
  ∧ Document.locale self1 = Document.locale self
  ∧ Document.current_revision self1 = Document.current_revision self
  ∧ Document.latest_localizable_revision self1
    = Document.latest_localizable_revision self
  ∧ Document.parent self1 = Document.parent self
  ∧ Document.html self1 = Document.html self
  ∧ Document.old_slug self1 = Document.old_slug self
  ∧ Document.old_title self1 = Document.old_title self
  ∧ revisions db1 = revisions db
  ∧ contributors db1 = contributors db
  ∧ links db1 = links db.
Proof.
  intros (src & _ & -> & -> & _)%Document_save_write_Ok. done.
Qed.

Lemma pending_rename_ext self self' :
  Document.old_slug self' = Document.old_slug self →
  Document.old_title self' = Document.old_title self →
  pending_rename self' = pending_rename self.
Proof. unfold pending_rename. by intros -> ->. Qed.

Lemma bind_Ok_l {A B} (a : A) (f : A → result B) : Ok a ≫= f = f a.
Proof. done. Qed.

(** A save that makes no redirect is the checks, the write and the link
    pass. *)
Lemma Document_save_no_redirect fuel db self db' self' :
  Document.current_revision self = None ∨ pending_rename self = false →
  Document_save fuel db self = Ok (db', self') →
  ∃ db1, Document_save_write db self = Ok (db1, self')
    ∧ documents db' = documents db1
    ∧ revisions db' = revisions db1
    ∧ contributors db' = contributors db1.
Proof.
  intros Hcase. destruct fuel as [|fuel]; [done|].
  rewrite Document_save_unfold.
  intros ([db1 self1] & Hw & Hok)%bind_Ok_inv.
  pose proof (Document_save_write_fields _ _ _ _ Hw)
    as (_ & _ & _ & _ & Hcr & _ & _ & _ & Hos & Hot & _).
  apply bind_Ok_inv in Hok as (cur & Hcur & Hok).
  apply bind_Ok_inv in Hok as ([db2 self2] & Hmid & Hok).
  apply bind_Ok_inv in Hok as (db3 & Hl & Hok).
  injection Hok as <- <-.
  apply parse_and_calculate_links_Ok in Hl as (Hd & Hr & Hc).
  assert (db2 = db1 ∧ self2 = self1) as [-> ->].
  { destruct cur as [c|]; [|by simplify_eq].
    rewrite (pending_rename_ext _ _ Hos Hot) in Hmid.
    destruct Hcase as [Hnone|Hnp].
    - rewrite Hcr, Hnone in Hcur. done.
    - rewrite Hnp in Hmid. by simplify_eq. }
  by exists db1.
Qed.

Lemma collides_false db self a v :
  Document__collides db self a v = false ↔
  ∀ j row, documents db !! j = Some row →
    Document.locale row = Document.locale self → getattr row a ≠ v.
Proof.
  unfold Document__collides. rewrite bool_decide_eq_false. split.
  - intros Hnil j row Hj Hloc Hv. apply Hnil. intros Hempty.
    apply (elem_of_nil (document_of_row j row)). rewrite <-Hempty.
    apply list_elem_of_filter. split.
    + by destruct row, a.
    + apply elem_of_all_documents. eauto.
  - intros Hfree Hne. apply Hne.
    destruct (filter _ _) as [|d l] eqn:Hf; [done|].
    assert (d ∈ d :: l) as Hd by left. rewrite <-Hf in Hd.
    apply list_elem_of_filter in Hd as [[Hloc Hv] Hd].
    apply elem_of_all_documents in Hd as (j & row & Hj & ->).
    destruct (Hfree j row Hj); by destruct row, a.
Qed.

Lemma collides_true db self a v :
  Document__collides db self a v = true ↔
  ∃ j row, documents db !! j = Some row
    ∧ Document.locale row = Document.locale self ∧ getattr row a = v.
Proof.
  unfold Document__collides. rewrite bool_decide_eq_true. split.
  - intros Hne. destruct (filter _ _) as [|d l] eqn:Hf; [done|].
    assert (d ∈ d :: l) as Hd by left. rewrite <-Hf in Hd.
    apply list_elem_of_filter in Hd as [[Hloc Hv] Hd].
    apply elem_of_all_documents in Hd as (j & row & Hj & ->).
    exists j, row. by destruct row, a.
  - intros (j & row & Hj & Hloc & Hv) Hempty.
    apply (elem_of_nil (document_of_row j row)). rewrite <-Hempty.
    apply list_elem_of_filter. split.
    + by destruct row, a.
    + apply elem_of_all_documents. eauto.
Qed.

(** [Document.objects.create] of the redirect: a new row under a fresh
    key, with a title and a slug no document of the locale holds. *)
Lemma create_redirect_document fuel db lc t s cat dba doc :
  Document_save fuel db (new_document lc t s cat false) = Ok (dba, doc) →
  let cid := next_id (documents db) in
  doc = Document.mk (Some cid) t s (startswith t TEMPLATE_TITLE_PREFIX) false
          lc None None None "" cat false None None
  ∧ documents dba = <[cid := doc]> (documents db)
  ∧ revisions dba = revisions db
  ∧ contributors dba = contributors db
  ∧ cat ∈ CATEGORIES.*1
  ∧ (∀ j row, documents db !! j = Some row → Document.locale row = lc →
       Document.title row ≠ t ∧ Document.slug row ≠ s).
Proof.
  intros Hok cid.
  apply Document_save_no_redirect in Hok as (db1 & Hw & Hd & Hr & Hc);
    [|by left].
  pose proof (Document_save_write_fields _ _ _ _ Hw)
    as (_ & _ & _ & _ & _ & _ & _ & _ & _ & _ & Hr1 & Hc1 & _).
  apply Document_save_write_Ok in Hw
    as (src & [-> Hcat] & Hself & Hdb & _ & Hcol & _).
  cbn in Hself. fold cid in Hself.
  assert (doc = Document.mk (Some cid) t s (startswith t TEMPLATE_TITLE_PREFIX)
                  false lc None None None "" cat false None None) as Hdoc.
  { rewrite Hself. by destruct (bool_decide _). }
  split; [done|]. rewrite Hd, Hr, Hc, Hr1, Hc1, Hdb.
  split; [|split_and!; try done].
  - cbn. f_equal. fold cid. rewrite Hdoc. done.
  - intros j row Hj Hloc. split.
    + pose proof (Hcol attr_title (or_introl eq_refl)) as Ht.
      rewrite collides_false in Ht. by apply (Ht j row).
    + pose proof (Hcol attr_slug (or_introl eq_refl)) as Hs.
      rewrite collides_false in Hs. by apply (Hs j row).
Qed.

Lemma propagate_no_children db k self :
  translations_of db (Some k) = [] →
  propagate k self (documents db) = documents db.
Proof.
  intros Hnone. apply map_eq. intros j. rewrite propagate_lookup.
  destruct (documents db !! j) as [t|] eqn:Hj; [|done]. simpl. f_equal.
  case_bool_decide as Hp; [|done]. exfalso.
  apply (elem_of_nil (document_of_row j t)). rewrite <-Hnone.
  unfold translations_of. apply list_elem_of_filter. split.
  - by destruct t.
  - apply elem_of_all_documents. eauto.
Qed.

Lemma Revision_save_with_unfold save db self document :
  Revision_save_with save db self document =
  '(_, is_clean) ← Revision__based_on_is_clean db self document;
  if negb is_clean then Raise ProgrammingError else
  '(db, self) ← Model_save_revision db self document;
  newer ← newer_than_current db self document;
  match newer with
  | Some cur =>
      '(db, document) ← save (Revision_new_contributors db document cur)
                          (Revision_recache self document);
      Ok (db, self, document)
  | None =>
      localizable ← newer_localizable db self document;
      if (localizable : bool) then
        '(db, document) ←
          save db (Document.set_latest_localizable_revision
                     (Revision.id self) document);
        Ok (db, self, document)
      else Ok (db, self, document)
  end.
Proof. reflexivity. Qed.

Lemma Model_save_revision_Ok db self document db' self' :
  Model_save_revision db self document = Ok (db', self') →
  ∃ d, Document.id document = Some d
    ∧ self' = Revision.set_id
                (Some (default (next_id (revisions db)) (Revision.id self)))
                (Revision.set_document_id (Some d) self)
    ∧ db' = set_revisions
              (<[default (next_id (revisions db)) (Revision.id self) := self']>
                 (revisions db)) db.
Proof.
  unfold Model_save_revision. destruct (Document.id document) as [d|]; [|done].
  intros [= <- <-]. by exists d.
Qed.


Lemma new_contributors_tables db document cur :
  documents (Revision_new_contributors db document cur) = documents db
  ∧ revisions (Revision_new_contributors db document cur) = revisions db.
Proof.
  unfold Revision_new_contributors. by destruct (Document.id document).
Qed.

Lemma translations_of_ext db db' k :
  documents db' = documents db → translations_of db' k = translations_of db k.
Proof.
  intros Heq. unfold translations_of, all_documents. by rewrite Heq.
Qed.

(** [Revision.objects.create] of the redirect's revision: a new approved
    row under a fresh key, which becomes the current revision of the
    redirect. *)
Lemma create_redirect_revision fuel dba t s lc cat cid content u dbb r d' :
  let doc := Document.mk (Some cid) t s (startswith t TEMPLATE_TITLE_PREFIX)
               false lc None None None "" cat false None None in
  Revision_save_with (Document_save fuel) dba
    (new_revision (Some cid) content true u u) doc = Ok (dbb, r, d') →
  let rid := next_id (revisions dba) in
  r = redirect_revision rid cid content u
  ∧ d' = redirect_document cid rid lc t s content cat
  ∧ revisions dbb = <[rid := r]> (revisions dba)
  ∧ documents dbb = <[cid := d']> (documents dba).
Proof.
  intros doc Hok rid. rewrite Revision_save_with_unfold in Hok.
  assert (Revision__based_on_is_clean dba
            (new_revision (Some cid) content true u u) doc = Ok (None, true))
    as Hclean by done.
  rewrite Hclean in Hok. rewrite bind_Ok_l in Hok. cbn [negb] in Hok.
  apply bind_Ok_inv in Hok as ([db1 r1] & Hm & Hok).
  apply Model_save_revision_Ok in Hm as (d & Hd & Hr1 & Hdb1).
  injection Hd as <-.
  change (default (next_id (revisions dba))
            (Revision.id (new_revision (Some cid) content true u u)))
    with rid in Hr1, Hdb1.
  assert (r1 = redirect_revision rid cid content u) as Hr1' by done.
  clear Hr1. subst r1.
  assert (newer_than_current db1 (redirect_revision rid cid content u) doc
          = Ok (Some None)) as Hnewer by done.
  rewrite Hnewer in Hok. rewrite bind_Ok_l in Hok.
  apply bind_Ok_inv in Hok as ([db2 d2] & Hsave & Hok).
  injection Hok as <- <- <-.
  apply Document_save_no_redirect in Hsave as (db3 & Hw & Hd3 & Hr3 & _);
    [|by right].
  pose proof (Document_save_write_fields _ _ _ _ Hw)
    as (_ & _ & _ & _ & _ & _ & _ & _ & _ & _ & Hrev3 & _).
  destruct (new_contributors_tables db1 doc None) as [Hdocs Hrevs].
  apply Document_save_write_Ok in Hw
    as (src & [-> _] & Hself & Hdb3 & _ & _ & Htr).
  assert (d2 = redirect_document cid rid lc t s content cat) as Hd2.
  { rewrite Hself. unfold redirect_document. cbn.
    by destruct (bool_decide _). }
  split; [done|]. split; [done|].
  rewrite Hr3, Hrev3, Hrevs, Hdb1. split; [done|].
  rewrite Hd3, Hdb3. cbn [documents set_documents].
  unfold propagated. cbn [Document.parent Document.id Revision_recache].
  change (Document.parent (Revision_recache (redirect_revision rid cid content u) doc))
    with (@None positive).
  change (Document.id (Revision_recache (redirect_revision rid cid content u) doc))
    with (Some cid).
  cbv iota beta.
  rewrite propagate_no_children.
  - rewrite Hdocs, Hdb1. cbn [documents set_revisions default].
    by rewrite Hd2.
  - apply Htr; [by eexists|]. by rewrite Hd2.
Qed.

(** What a successful [save] amounts to: the checks and the write, and,
    for a document with a current revision and a pending rename, one new
    redirect document with its one revision. *)
Lemma Document_save_Ok fuel db self db' self' :
  Document_save fuel db self = Ok (db', self') →
  ∃ db1 self1,
    Document_save_write db self = Ok (db1, self1)
    ∧ ((self' = self1
        ∧ documents db' = documents db1
        ∧ revisions db' = revisions db1
        ∧ (Document.current_revision self = None
           ∨ pending_rename self = false))
       ∨ (pending_rename self = true
          ∧ self' = Document.set_old_title None
                      (Document.set_old_slug None self1)
          ∧ ∃ c cur title slug content,
              Document.current_revision self = Some c
              ∧ revisions db !! c = Some cur
              ∧ Document__attr_for_redirect (pred fuel) db1 self1 attr_title
                  REDIRECT_TITLE = Ok title
              ∧ Document__attr_for_redirect (pred fuel) db1 self1 attr_slug
                  REDIRECT_SLUG = Ok slug
              ∧ format_str REDIRECT_CONTENT (Document.title self) = Ok content
              ∧ documents db'
                = <[next_id (documents db1) :=
                      redirect_document (next_id (documents db1))
                        (next_id (revisions db1)) (Document.locale self)
                        title slug content (Document.category self1)]>
                    (documents db1)
              ∧ revisions db'
                = <[next_id (revisions db1) :=
                      redirect_revision (next_id (revisions db1))
                        (next_id (documents db1)) content
                        (Revision.creator cur)]>
                    (revisions db1)
              ∧ Document.category self1 ∈ CATEGORIES.*1
              ∧ (∀ j row, documents db1 !! j = Some row →
                   Document.locale row = Document.locale self →
                   Document.title row ≠ title ∧ Document.slug row ≠ slug))).
Proof.
  destruct fuel as [|fuel]; [done|]. rewrite Document_save_unfold.
  intros ([db1 self1] & Hw & Hok)%bind_Ok_inv.
  exists db1, self1. split; [done|].
  pose proof (Document_save_write_fields _ _ _ _ Hw)
    as (_ & Hti & _ & Hlc & Hcr & _ & _ & _ & Hos & Hot & Hrev1 & _).
  apply bind_Ok_inv in Hok as (cur & Hcur & Hok).
  apply bind_Ok_inv in Hok as ([db2 self2] & Hmid & Hok).
  apply bind_Ok_inv in Hok as (db3 & Hl & Hok).
  injection Hok as <- <-.
  apply parse_and_calculate_links_Ok in Hl as (Hd & Hr & _).
  rewrite Hd, Hr. rewrite (pending_rename_ext _ _ Hos Hot) in Hmid.
  apply fk_revision_Ok in Hcur. rewrite Hcr in Hcur.
  destruct (Document.current_revision self) as [c|].
  2:{ subst cur. injection Hmid as <- <-. left. eauto. }
  destruct Hcur as (crow & Hcrow & ->).
  destruct (pending_rename self) eqn:Hpend.
  2:{ injection Hmid as <- <-. left. eauto. }
  right. split; [done|].
  unfold Document_save_redirect in Hmid.
  apply bind_Ok_inv in Hmid as (title & Htitle & Hmid).
  apply bind_Ok_inv in Hmid as (slug & Hslug & Hmid).
  apply bind_Ok_inv in Hmid as ([dba doc] & Hdoc & Hmid).
  apply bind_Ok_inv in Hmid as (content & Hcontent & Hmid).
  apply bind_Ok_inv in Hmid as ([[dbb r] d'] & Hrev & Hmid).
  injection Hmid as <- <-. split; [done|].
  apply create_redirect_document in Hdoc
    as (Hdoc & Hdocs & Hrevs & _ & Hcat & Hfree).
  rewrite Hdoc in Hrev.
  apply create_redirect_revision in Hrev as (Hr' & Hd' & Hrevb & Hdocb).
  rewrite Hrev1 in Hcrow.
  exists c, crow, title, slug, content. cbn [pred].
  rewrite Hti in Hcontent.
  split_and!; [done..| | | |].
  - rewrite Hdocb, Hdocs, Hd', insert_insert_eq, Hrevs.
    rewrite Hlc. by destruct crow.
  - rewrite Hrevb, Hr', Hrevs. by destruct crow.
  - done.
  - intros j row Hj Hloc. apply (Hfree j row Hj). by rewrite Hlc.
Qed.

Lemma dom_propagated self (docs : gmap positive Document.t) :
  dom (propagated self docs) = dom docs.
Proof.
  unfold propagated, propagate.
  destruct (Document.parent self); [done|].
  destruct (Document.id self); [|done]. by rewrite !dom_fmap_L.
Qed.

Lemma next_id_not_in_dom {A} (m : gmap positive A) : next_id m ∉ dom m.
Proof. apply not_elem_of_dom, next_id_fresh. Qed.

(** After a successful [save] the instance has a key, its row is stored
    under that key, and the fields [save] does not compute are as they
    were. *)
Lemma Document_save_stored fuel db self db' self' :
  Document_save fuel db self = Ok (db', self') →
  let k := default (next_id (documents db)) (Document.id self) in
  Document.id self' = Some k
  ∧ documents db' !! k = Some (document_of_row k self')
  ∧ Document.current_revision self' = Document.current_revision self
  ∧ Document.html self' = Document.html self
  ∧ Document.latest_localizable_revision self'
    = Document.latest_localizable_revision self
  ∧ Document.locale self' = Document.locale self
  ∧ Document.title self' = Document.title self
  ∧ Document.slug self' = Document.slug self
  ∧ Document.parent self' = Document.parent self.
Proof.
  intros (db1 & self1 & Hw & Hcase)%Document_save_Ok k.
  pose proof (Document_save_write_fields _ _ _ _ Hw)
    as (Hid & Hti & Hsl & Hlc & Hcr & Hllr & Hpa & Hht & _).
  fold k in Hid.
  apply Document_save_write_Ok in Hw as (_ & _ & _ & Hdb1 & _).
  fold k in Hdb1.
  assert (documents db1 !! k = Some (document_of_row k self1)) as Hk.
  { rewrite Hdb1. cbn [documents set_documents]. apply lookup_insert_eq. }
  destruct Hcase as [(-> & Hd & _)|(_ & -> & c & cur & t & s & ct & _ & _ & _ & _ & _ & Hd & _)].
  - rewrite Hd. done.
  - rewrite Hd. split; [by destruct self1|]. split; [|by destruct self1].
    rewrite lookup_insert_ne.
    + rewrite Hk. by destruct self1.
    + intros Heq. pose proof (next_id_fresh (documents db1)) as Hfresh.
      rewrite Heq, Hk in Hfresh. done.
Qed.

(** ** Saving a revision *)

Lemma Revision_recache_fields r D :
  Document.current_revision (Revision_recache r D) = Revision.id r
  ∧ Document.html (Revision_recache r D)
    = wiki_to_html (Revision.content r) (Document.locale D) (Document.id D)
  ∧ Document.latest_localizable_revision (Revision_recache r D)
    = (if Revision.is_ready_for_localization r then Revision.id r
       else Document.latest_localizable_revision D)
  ∧ Document.id (Revision_recache r D) = Document.id D.
Proof.
  unfold Revision_recache, Revision_content_parsed.
  by destruct (Revision.is_ready_for_localization r), D.
Qed.

Lemma id_lt_Some a b : id_lt (Some a) (Some b) = true ↔ (a < b)%positive.
Proof. unfold id_lt. simpl. rewrite N.ltb_lt. lia. Qed.

(** C1: saving an approved revision R of document D.  If D has no
    current revision, or one of a smaller id, R becomes the current
    revision, [html] becomes the rendering of R's content and, when R is
    ready for localization, R becomes the latest localizable revision; if
    D's current revision has a larger id, the current revision and [html]
    stay as they are. *)
Theorem approved_revision_becomes_current fuel db R D db' R' D' :
  Revision.is_approved R = true →
  Revision_save fuel db R D = Ok (db', R', D') →
  ∃ rid d,
    Revision.id R' = Some rid
    ∧ rid = default (next_id (revisions db)) (Revision.id R)
    ∧ Document.id D = Some d
    ∧ (Document.current_revision D = None
       ∨ (∃ c, Document.current_revision D = Some c ∧ (c < rid)%positive) →
       Document.current_revision D' = Some rid
       ∧ Document.html D'
         = wiki_to_html (Revision.content R) (Document.locale D) (Some d)
       ∧ (Revision.is_ready_for_localization R = true →
          Document.latest_localizable_revision D' = Some rid)
       ∧ documents db' !! d = Some (document_of_row d D'))
    ∧ ((∃ c, Document.current_revision D = Some c ∧ (rid < c)%positive) →
       Document.current_revision D' = Document.current_revision D
       ∧ Document.html D' = Document.html D).
Proof.
  intros Happ Hok. unfold Revision_save in Hok.
  rewrite Revision_save_with_unfold in Hok.
  apply bind_Ok_inv in Hok as ([based_on is_clean] & _ & Hok).
  destruct is_clean; [|done]. cbn [negb] in Hok.
  apply bind_Ok_inv in Hok as ([db1 r1] & Hm & Hok).
  apply Model_save_revision_Ok in Hm as (d & Hd & Hr1 & Hdb1).
  set (rid := default (next_id (revisions db)) (Revision.id R)) in *.
  assert (Revision.id r1 = Some rid ∧ Revision.content r1 = Revision.content R
          ∧ Revision.is_approved r1 = true
          ∧ Revision.is_ready_for_localization r1
            = Revision.is_ready_for_localization R) as (Hrid & Hct & Happ1 & Hrdy).
  { rewrite Hr1. by destruct R. }
  clear Hr1 Hdb1.
  apply bind_Ok_inv in Hok as (newer & Hnewer & Hok).
  unfold newer_than_current in Hnewer. rewrite Happ1, Hrid in Hnewer.
  apply bind_Ok_inv in Hnewer as (cur & Hcur & Hnewer).
  apply fk_revision_Ok in Hcur. injection Hnewer as <-.
  assert (∀ dbx, Document_save fuel dbx (Revision_recache r1 D) = Ok (db', D') →
    Document.current_revision D' = Some rid
    ∧ Document.html D'
      = wiki_to_html (Revision.content R) (Document.locale D) (Some d)
    ∧ (Revision.is_ready_for_localization R = true →
       Document.latest_localizable_revision D' = Some rid)
    ∧ documents db' !! d = Some (document_of_row d D')) as Hbranch1.
  { intros dbx Hs. apply Document_save_stored in Hs
      as (Hid & Hrow & Hc & Hh & Hl & _).
    destruct (Revision_recache_fields r1 D) as (Hc' & Hh' & Hl' & Hid').
    rewrite Hid', Hd in Hrow. cbn [default] in Hrow.
    rewrite Hc, Hc', Hh, Hh', Hl, Hl', Hrid, Hct, Hd, Hrdy.
    split_and!; [done..| |done]. by intros ->. }
  assert (∀ (m : result (DB * Document.t)) X,
    (m ≫= λ '(db2, document), Ok (db2, r1, document)) = Ok (db', R', X) →
    m = Ok (db', X) ∧ R' = r1) as Hret.
  { intros m X ([db2 d2] & -> & [= <- <- <-])%bind_Ok_inv. done. }
  exists rid, d.
  destruct (Document.current_revision D) as [c|] eqn:HcD.
  - destruct Hcur as (crow & Hcrow & ->).
    rewrite revision_of_row_id in Hok.
    destruct (id_lt (Some c) (Some rid)) eqn:Hlt.
    + apply id_lt_Some in Hlt.
      apply Hret in Hok as [Hs ->]. apply Hbranch1 in Hs.
      split_and!; [done..| |].
      * by intros _.
      * intros (c' & [= <-] & Hgt). lia.
    + assert (¬ (c < rid)%positive) as Hnlt.
      { intros Hlt'. apply id_lt_Some in Hlt'. congruence. }
      apply bind_Ok_inv in Hok as (localizable & _ & Hok).
      assert (R' = r1 ∧ Document.current_revision D' = Some c
              ∧ Document.html D' = Document.html D) as (-> & Hc' & Hh').
      { destruct localizable.
        - apply Hret in Hok as [Hs ->]. apply Document_save_stored in Hs
            as (_ & _ & Hc & Hh & _).
          rewrite Hc, Hh. by destruct D.
        - injection Hok as <- <- <-. done. }
      split_and!; [done..| |done].
      intros [?|(c' & [= <-] & Hlt')]; done.
  - subst cur. apply Hret in Hok as [Hs ->]. apply Hbranch1 in Hs.
    split_and!; [done..| |].
    + by intros _.
    + by intros (c' & ? & _).
Qed.

(** ** Inherited attributes *)

(** C6: after a successful save of a translation, its category and
    [is_archived] are those of its parent, on the instance and in
    storage; after a successful save of a stored root document, every
    direct translation in storage has the root's category and
    [is_archived]. *)
Theorem save_keeps_inherited_attrs fuel db X db' X' :
  Document_save fuel db X = Ok (db', X') →
  (∀ p, Document.parent X = Some p →
     ∃ k Drow Prow,
       Document.id X' = Some k
       ∧ documents db' !! k = Some Drow
       ∧ documents db' !! p = Some Prow
       ∧ Document.category Drow = Document.category Prow
       ∧ Document.is_archived Drow = Document.is_archived Prow
       ∧ Document.category X' = Document.category Prow
       ∧ Document.is_archived X' = Document.is_archived Prow)
  ∧ (∀ p, Document.parent X = None → Document.id X = Some p →
     ∃ Prow,
       documents db' !! p = Some Prow
       ∧ Document.category Prow = Document.category X
       ∧ Document.is_archived Prow = Document.is_archived X
       ∧ ∀ j D, documents db' !! j = Some D → Document.parent D = Some p →
           Document.category D = Document.category Prow
           ∧ Document.is_archived D = Document.is_archived Prow).
Proof.
  intros Hok.
  pose proof (Document_save_stored _ _ _ _ _ Hok) as (Hid' & Hrow' & _).
  apply Document_save_Ok in Hok as (db1 & self1 & Hw & Hcase).
  apply Document_save_write_Ok in Hw as (src & Hsrc & Hself1 & Hdb1 & _).
  set (k := default (next_id (documents db)) (Document.id X)) in *.
  assert (Document.category X' = Document.category src
          ∧ Document.is_archived X' = Document.is_archived src
          ∧ Document.parent self1 = Document.parent X) as (HcX & HaX & Hp1).
  { destruct Hcase as [(-> & _)|(_ & -> & _)]; by rewrite Hself1. }
  assert (∀ j, is_Some (documents db1 !! j) →
            documents db' !! j = documents db1 !! j) as Hkeep.
  { intros j Hj.
    destruct Hcase as [(_ & -> & _)|(_ & _ & c & cur & t & s & ct & _ & _ & _ & _ & _ & -> & _)]; [done|].
    apply lookup_insert_ne. intros <-.
    rewrite next_id_fresh in Hj. by destruct Hj. }
  assert (documents db1 !! k = Some (document_of_row k self1)) as Hk1.
  { rewrite Hdb1. apply lookup_insert_eq. }
  split.
  - intros p Hp. rewrite Hp in Hsrc. destruct Hsrc as (P & HP & -> & _).
    assert (∃ Prow, documents db' !! p = Some Prow
              ∧ Document.category Prow = Document.category P
              ∧ Document.is_archived Prow = Document.is_archived P)
      as (Prow & HProw & Hc & Ha).
    { destruct (decide (p = k)) as [->|Hne].
      - rewrite Hkeep, Hk1 by (rewrite Hk1; eauto).
        eexists. split; [done|]. rewrite Hself1. by destruct P.
      - assert (documents db1 !! p = Some P) as Hp1'.
        { rewrite Hdb1. cbn [documents set_documents].
          rewrite lookup_insert_ne by done. unfold propagated.
          by rewrite Hp. }
        rewrite Hkeep by (rewrite Hp1'; eauto). eauto. }
    exists k, (document_of_row k X'), Prow.
    split_and!; [done|done|done| | | |].
    + rewrite Hc. destruct X'; simpl in *. rewrite HcX. by destruct P.
    + rewrite Ha. destruct X'; simpl in *. rewrite HaX. by destruct P.
    + rewrite Hc, HcX. by destruct P.
    + rewrite Ha, HaX. by destruct P.
  - intros p Hp Hid. rewrite Hp in Hsrc. destruct Hsrc as [-> _].
    unfold k in *. rewrite Hid in *. cbn [default] in *.
    exists (document_of_row p X'). split; [done|].
    split; [destruct X'; simpl in *; congruence|].
    split; [destruct X'; simpl in *; congruence|].
    intros j D Hj HpD.
    assert (Document.category D = Document.category X
            ∧ Document.is_archived D = Document.is_archived X) as [HcD HaD].
    { assert (documents db1 !! j = Some D) as Hj1.
      { destruct Hcase as [(_ & Hd & _)|(_ & _ & c & cur & t & s & ct & _ & _ & _ & _ & _ & Hd & _)];
          rewrite Hd in Hj; [done|].
        rewrite lookup_insert in Hj. case_decide as Hjc; [|done].
        injection Hj as <-. done. }
      rewrite Hdb1 in Hj1. cbn [documents set_documents] in Hj1.
      rewrite lookup_insert in Hj1. case_decide as Hjp.
      { injection Hj1 as <-. rewrite Hself1 in HpD. simpl in HpD.
        congruence. }
      unfold propagated in Hj1. rewrite Hp, Hid in Hj1.
      rewrite propagate_lookup in Hj1.
      destruct (documents db !! j) as [t|]; [|done]. simpl in Hj1.
      injection Hj1 as <-. case_bool_decide as Hpt.
      - by destruct t.
      - by destruct Hpt. }
    rewrite HcD, HaD. destruct X'; simpl in *. by rewrite HcX, HaX.
Qed.

(** ** Redirects on rename *)

(** C2, as the code has it: a successful save of a stored document D
    that has a current revision and a pending old title or slug creates
    exactly one new document, in D's locale, not localizable, of D's
    category, under a title and a slug that no other document of the
    locale holds (the pending old value where there is one), and exactly
    one new revision: approved, created and reviewed by the creator of
    D's current revision, its content the redirect marker formatted with
    D's title as D is saved (the new title when the title is what
    changed).  The pending old values are cleared, and saving again
    creates no further document or revision. *)
Theorem rename_creates_redirect fuel db D k c db' D' :
  Document.id D = Some k →
  Document.current_revision D = Some c →
  pending_rename D = true →
  Document_save fuel db D = Ok (db', D') →
  ∃ cur cid rid title slug content,
    revisions db !! c = Some cur
    ∧ format_str REDIRECT_CONTENT (Document.title D) = Ok content
    ∧ (cid ∉ dom (documents db)) ∧ cid ≠ k
    ∧ dom (documents db') = {[cid]} ∪ ({[k]} ∪ dom (documents db))
    ∧ documents db' !! cid
      = Some (redirect_document cid rid (Document.locale D) title slug
                content (Document.category D'))
    ∧ (∀ old, Document.old_title D = Some old → title = old)
    ∧ (∀ old, Document.old_slug D = Some old → slug = old)
    ∧ (∀ j row, j ≠ cid → documents db' !! j = Some row →
         Document.locale row = Document.locale D →
         Document.title row ≠ title ∧ Document.slug row ≠ slug)
    ∧ (rid ∉ dom (revisions db))
    ∧ revisions db'
      = <[rid := redirect_revision rid cid content (Revision.creator cur)]>
          (revisions db)
    ∧ Document.old_slug D' = None ∧ Document.old_title D' = None
    ∧ ∀ db'' D'', Document_save fuel db' D' = Ok (db'', D'') →
        dom (documents db'') = dom (documents db')
        ∧ revisions db'' = revisions db'.
Proof.
  intros Hid Hc Hpend Hok.
  pose proof (Document_save_stored _ _ _ _ _ Hok)
    as (Hid' & Hrow' & Hcr' & _ & _ & _ & _ & _ & _).
  rewrite Hid in Hid', Hrow'. cbn [default] in Hid', Hrow'.
  apply Document_save_Ok in Hok as (db1 & self1 & Hw & Hcase).
  destruct Hcase as [(_ & _ & _ & [Hnone|Hnp])|Hred];
    [congruence|congruence|].
  destruct Hred as (_ & HD' & c' & cur & title & slug & content & Hc' & Hcur
                    & Htitle & Hslug & Hcontent & Hdocs & Hrevs & Hcat & Hfree).
  rewrite Hc in Hc'. injection Hc' as <-.
  pose proof (Document_save_write_fields _ _ _ _ Hw)
    as (_ & _ & _ & _ & _ & _ & _ & _ & Hos & Hot & Hrev1 & _).
  apply Document_save_write_Ok in Hw as (_ & _ & _ & Hdb1 & _).
  rewrite Hid in Hdb1. cbn [default] in Hdb1.
  assert (dom (documents db1) = {[k]} ∪ dom (documents db)) as Hdom1.
  { rewrite Hdb1. cbn [documents set_documents].
    by rewrite dom_insert_L, dom_propagated. }
  set (cid := next_id (documents db1)) in *.
  set (rid := next_id (revisions db1)) in *.
  assert (cid ∉ dom (documents db1)) as Hcid by apply next_id_not_in_dom.
  assert (Document.category D' = Document.category self1) as HcatD'
    by (rewrite HD'; by destruct self1).
  exists cur, cid, rid, title, slug, content.
  split; [done|]. split; [done|].
  split.
  { intros Hin. apply Hcid. rewrite Hdom1. apply elem_of_union. by right. }
  split.
  { intros ->. apply Hcid. rewrite Hdom1. apply elem_of_union. left.
    by apply elem_of_singleton. }
  split; [by rewrite Hdocs, dom_insert_L, Hdom1|].
  split; [rewrite Hdocs, lookup_insert_eq, HcatD'; done|].
  split.
  { intros old Hold. unfold Document__attr_for_redirect in Htitle.
    cbn [old_attr] in Htitle. rewrite Hot, Hold in Htitle. congruence. }
  split.
  { intros old Hold. unfold Document__attr_for_redirect in Hslug.
    cbn [old_attr] in Hslug. rewrite Hos, Hold in Hslug. congruence. }
  split.
  { intros j row Hne Hj Hloc. rewrite Hdocs, lookup_insert_ne in Hj by done.
    by apply (Hfree j row). }
  split.
  { unfold rid. rewrite Hrev1. apply next_id_not_in_dom. }
  split; [by rewrite Hrevs, Hrev1|].
  split; [rewrite HD'; by destruct self1|].
  split; [rewrite HD'; by destruct self1|].
  intros db'' D'' Hok2.
  apply Document_save_Ok in Hok2 as (db2 & self2 & Hw2 & Hcase2).
  assert (pending_rename D' = false) as Hnp'
    by (rewrite HD'; by destruct self1).
  destruct Hcase2 as [(_ & Hd2 & Hr2 & _)|(Hp2 & _)]; [|congruence].
  pose proof (Document_save_write_fields _ _ _ _ Hw2)
    as (_ & _ & _ & _ & _ & _ & _ & _ & _ & _ & Hrev2 & _).
  apply Document_save_write_Ok in Hw2 as (_ & _ & _ & Hdb2 & _).
  rewrite Hid' in Hdb2. cbn [default] in Hdb2.
  rewrite Hd2, Hr2, Hrev2. split; [|done].
  rewrite Hdb2. cbn [documents set_documents].
  rewrite dom_insert_L, dom_propagated.
  apply subseteq_union_1_L, singleton_subseteq_l, elem_of_dom. eauto.
Qed.

End Properties.


(** * Further properties of the module *)

Section Further.
Context `{Settings} `{Unicode}.

(** ** Collision errors *)

Lemma raise_if_collides_eq db self a e :
  Document__raise_if_collides db self a e
  = if (bool_decide (Document.id self = None)
        || bool_decide (is_Some (old_attr self a)))
       && Document__collides db self a (getattr self a)
    then Raise e else Ok ().
Proof.
  unfold Document__raise_if_collides.
  by destruct (_ || _), (Document__collides _ _ _ _).
Qed.

Lemma raise_if_collides_template db self a e b :
  Document__raise_if_collides db (Document.set_is_template b self) a e
  = Document__raise_if_collides db self a e.
Proof. by destruct self, a. Qed.

Lemma Document_save_slug_collision fuel db D j row :
  Document.id D = None ∨ is_Some (Document.old_slug D) →
  documents db !! j = Some row →
  Document.locale row = Document.locale D →
  Document.slug row = Document.slug D →
  Document_save (S fuel) db D = Raise SlugCollision.
Proof.
  intros Hcase Hj Hloc Hslug. rewrite Document_save_unfold.
  unfold Document_save_write.
  rewrite (raise_if_collides_template db D attr_slug).
  rewrite (raise_if_collides_eq db D attr_slug).
  assert (Document__collides db D attr_slug (getattr D attr_slug) = true)
    as ->.
  { apply collides_true. by exists j, row. }
  assert (bool_decide (Document.id D = None)
          || bool_decide (is_Some (old_attr D attr_slug)) = true) as ->; [|done].
  destruct Hcase as [Hid|Hold].
  - by rewrite (bool_decide_eq_true_2 _ Hid).
  - rewrite (bool_decide_eq_true_2 (is_Some (old_attr D attr_slug)) Hold).
    apply orb_true_r.
Qed.

(** Saving a document that is new, or whose slug has a pending old value,
    under a slug that a stored document of its locale holds raises
    [SlugCollision], before anything else is checked. *)
Theorem save_slug_collision fuel db D j row :
  Document.id D = None ∨ is_Some (Document.old_slug D) →
  documents db !! j = Some row →
  Document.locale row = Document.locale D →
  Document.slug row = Document.slug D →
  Document_save (S fuel) db D = Raise SlugCollision.
Proof. apply Document_save_slug_collision. Qed.

(** With a slug that passes the check, a title that a stored document of
    the locale holds raises [TitleCollision] for a new document or one
    whose title has a pending old value. *)
Theorem save_title_collision fuel db D j row :
  Document.id D = None ∨ is_Some (Document.old_title D) →
  Document__raise_if_collides db D attr_slug SlugCollision = Ok () →
  documents db !! j = Some row →
  Document.locale row = Document.locale D →
  Document.title row = Document.title D →
  Document_save (S fuel) db D = Raise TitleCollision.
Proof.
  intros Hcase Hs Hj Hloc Htitle. rewrite Document_save_unfold.
  unfold Document_save_write.
  rewrite !raise_if_collides_template, Hs. cbn [mbind result_bind].
  rewrite (raise_if_collides_eq db D attr_title).
  assert (Document__collides db D attr_title (getattr D attr_title) = true)
    as ->.
  { apply collides_true. by exists j, row. }
  assert (bool_decide (Document.id D = None)
          || bool_decide (is_Some (old_attr D attr_title)) = true) as ->;
    [|done].
  destruct Hcase as [Hid|Hold].
  - by rewrite (bool_decide_eq_true_2 _ Hid).
  - rewrite (bool_decide_eq_true_2 (is_Some (old_attr D attr_title)) Hold).
    apply orb_true_r.
Qed.

(** A stored document with a pending old slug and no current revision is
    saved without a redirect and keeps the pending value; saving the same
    instance again raises [SlugCollision]: the collision query finds the
    row the first save wrote. *)
Theorem save_twice_without_revision_collides fuel fuel' db D k old db' D' :
  Document.id D = Some k →
  Document.current_revision D = None →
  Document.old_slug D = Some old →
  Document_save fuel db D = Ok (db', D') →
  Document.old_slug D' = Some old
  ∧ Document_save (S fuel') db' D' = Raise SlugCollision.
Proof.
  intros Hid Hcr Hold Hok.
  pose proof (Document_save_stored _ _ _ _ _ Hok)
    as (Hid' & Hrow & _ & _ & _ & Hlc & _ & Hsl & _).
  apply Document_save_no_redirect in Hok as (db1 & Hw & _); [|by left].
  apply Document_save_write_fields in Hw
    as (_ & _ & _ & _ & _ & _ & _ & _ & Hos & _).
  rewrite Hold in Hos. split; [done|].
  apply (Document_save_slug_collision _ _ _ _ _
           (or_intror (ex_intro _ old Hos)) Hrow).
  - by destruct D'.
  - by destruct D'.
Qed.

(** ** What [save] checks and what it stores *)

(** A successful save leaves [is_template] as the title says, a document
    outside the default locale not localizable, a root document with a
    category of [CATEGORIES] and a translation with a stored, localizable
    parent; the row stored under the instance's key is the instance. *)
Theorem save_normalises fuel db D db' D' :
  Document_save fuel db D = Ok (db', D') →
  Document.is_template D'
  = startswith (Document.title D) TEMPLATE_TITLE_PREFIX
  ∧ (Document.locale D ≠ WIKI_DEFAULT_LANGUAGE →
     Document.is_localizable D' = false)
  ∧ (Document.locale D = WIKI_DEFAULT_LANGUAGE →
     Document.is_localizable D' = Document.is_localizable D)
  ∧ (Document.parent D = None →
     Document.category D' = Document.category D
     ∧ Document.category D ∈ CATEGORIES.*1)
  ∧ (∀ p, Document.parent D = Some p →
     ∃ P, documents db !! p = Some P ∧ Document.is_localizable P = true)
  ∧ ∃ k, Document.id D' = Some k
      ∧ documents db' !! k = Some (document_of_row k D').
Proof.
  intros Hok.
  pose proof (Document_save_stored _ _ _ _ _ Hok) as (Hid' & Hrow' & _).
  apply Document_save_Ok in Hok as (db1 & self1 & Hw & Hcase).
  apply Document_save_write_Ok in Hw as (src & Hsrc & Hself1 & _).
  assert (Document.is_template D' = Document.is_template self1
          ∧ Document.is_localizable D' = Document.is_localizable self1
          ∧ Document.category D' = Document.category self1)
    as (-> & -> & ->).
  { destruct Hcase as [(-> & _)|(_ & -> & _)]; by destruct self1. }
  rewrite Hself1. cbn.
  split; [done|]. split.
  { intros Hne. by rewrite bool_decide_eq_true_2. }
  split.
  { intros Heq. by rewrite bool_decide_eq_false_2 by (intros Hne; by apply Hne). }
  split.
  { intros Hp. rewrite Hp in Hsrc. by destruct Hsrc as [-> ?]. }
  split; [|eauto].
  intros p Hp. rewrite Hp in Hsrc. destruct Hsrc as (P & ? & _ & ?). eauto.
Qed.

(** Saving a stored translation whose parent is not localizable raises
    [ValidationError]. *)
Theorem save_parent_not_localizable fuel db D k p P :
  Document.id D = Some k →
  Document.old_slug D = None →
  Document.old_title D = None →
  Document.parent D = Some p →
  documents db !! p = Some P →
  Document.is_localizable P = false →
  Document_save (S fuel) db D = Raise ValidationError.
Proof.
  intros Hid Hos Hot Hp HP Hloc. rewrite Document_save_unfold.
  unfold Document_save_write.
  rewrite !raise_if_collides_template.
  rewrite (raise_if_collides_existing _ _ attr_slug _ k Hid Hos).
  rewrite (raise_if_collides_existing _ _ attr_title _ k Hid Hot).
  cbn [mbind result_bind]. unfold Document__clean_is_localizable.
  assert (∀ X : Document.t, Document.parent X = Some p →
            fk_document db (Document.parent X)
            = Ok (Some (document_of_row p P))) as Hfk.
  { intros X ->. cbn [fk_document]. by rewrite (get_document_Some _ _ _ HP). }
  rewrite Hfk by (destruct (bool_decide _); by destruct D).
  cbn [mbind result_bind].
  assert (Document.is_localizable (document_of_row p P) = false) as ->
    by by destruct P.
  done.
Qed.

(** Saving a stored root document that is not localizable, or not in the
    default locale, while a stored document names it as parent raises
    [ValidationError]. *)
Theorem save_has_translations fuel db D k j T :
  Document.id D = Some k →
  Document.old_slug D = None →
  Document.old_title D = None →
  Document.parent D = None →
  Document.is_localizable D = false
  ∨ Document.locale D ≠ WIKI_DEFAULT_LANGUAGE →
  documents db !! j = Some T →
  Document.parent T = Some k →
  Document_save (S fuel) db D = Raise ValidationError.
Proof.
  intros Hid Hos Hot Hp Hnl Hj HT. rewrite Document_save_unfold.
  unfold Document_save_write.
  rewrite !raise_if_collides_template.
  rewrite (raise_if_collides_existing _ _ attr_slug _ k Hid Hos).
  rewrite (raise_if_collides_existing _ _ attr_title _ k Hid Hot).
  cbn [mbind result_bind]. unfold Document__clean_is_localizable.
  set (self0 := if bool_decide _ then _ else _).
  assert (Document.parent self0 = None ∧ Document.id self0 = Some k
          ∧ Document.is_localizable self0 = false) as (Hp0 & Hid0 & Hl0).
  { unfold self0. case_bool_decide as Hlc.
    - by destruct D.
    - destruct Hnl as [Hl|Hne]; [by destruct D|by destruct Hlc]. }
  rewrite Hp0, Hid0, Hl0. cbn [fk_document mbind result_bind negb].
  rewrite bool_decide_eq_true_2 by eauto.
  rewrite bool_decide_eq_true_2; [done|].
  intros Hnil. apply (elem_of_nil (document_of_row j T)). rewrite <-Hnil.
  unfold translations_of. apply list_elem_of_filter. split.
  - by destruct T.
  - apply elem_of_all_documents. eauto.
Qed.


(** ** Uniqueness within a locale *)

Lemma propagated_lookup_Some self docs j b :
  propagated self docs !! j = Some b →
  ∃ t, docs !! j = Some t
    ∧ Document.locale b = Document.locale t
    ∧ Document.title b = Document.title t
    ∧ Document.slug b = Document.slug t
    ∧ Document.parent b = Document.parent t.
Proof.
  unfold propagated.
  destruct (Document.parent self); [by eauto 10|].
  destruct (Document.id self) as [k|]; [|by eauto 10].
  rewrite propagate_lookup. destruct (docs !! j) as [t|]; [|done].
  simpl. intros [= <-]. exists t. split; [done|].
  case_bool_decide; by destruct t.
Qed.

Lemma unique_documents_propagated self docs :
  unique_documents docs → unique_documents (propagated self docs).
Proof.
  intros Huniq i j a b Hi Hj Hne Hloc.
  apply propagated_lookup_Some in Hi as (a' & Hi & Hla & Hta & Hsa & Hpa).
  apply propagated_lookup_Some in Hj as (b' & Hj & Hlb & Htb & Hsb & Hpb).
  rewrite Hta, Htb, Hsa, Hsb, Hpa, Hpb.
  apply (Huniq i j); [done..|congruence].
Qed.

Lemma unique_documents_insert docs k row :
  unique_documents docs →
  (∀ j d, docs !! j = Some d → j ≠ k →
     Document.locale d = Document.locale row →
     Document.title d ≠ Document.title row
     ∧ Document.slug d ≠ Document.slug row
     ∧ (Document.parent row = None
        ∨ Document.parent d ≠ Document.parent row)) →
  unique_documents (<[k := row]> docs).
Proof.
  intros Huniq Hrow i j a b Hi Hj Hne Hloc.
  destruct (decide (k = i)) as [<-|Hik]; destruct (decide (k = j)) as [<-|Hjk].
  - done.
  - rewrite lookup_insert_eq in Hi. rewrite lookup_insert_ne in Hj by done.
    injection Hi as <-.
    destruct (Hrow j b Hj) as (Ht & Hs & Hp); [done..|].
    split; [congruence|]. split; [congruence|].
    intros [p Hpa]. destruct Hp as [Hp|Hp]; congruence.
  - rewrite lookup_insert_eq in Hj. rewrite lookup_insert_ne in Hi by done.
    injection Hj as <-.
    destruct (Hrow i a Hi) as (Ht & Hs & Hp); [done..|].
    split; [done|]. split; [done|].
    intros [p Hpa]. destruct Hp as [Hp|Hp]; congruence.
  - rewrite lookup_insert_ne in Hi by done.
    rewrite lookup_insert_ne in Hj by done. by apply (Huniq i j).
Qed.

Lemma Document_save_unique_documents fuel db D db' D' :
  unique_documents (documents db) →
  Document_save fuel db D = Ok (db', D') →
  unique_documents (documents db').
Proof.
  intros Huniq Hok.
  apply Document_save_Ok in Hok as (db1 & self1 & Hw & Hcase).
  pose proof (Document_save_write_fields _ _ _ _ Hw)
    as (_ & _ & _ & Hlc & _).
  apply Document_save_write_Ok in Hw as (_ & _ & _ & Hdb1 & Hut & _).
  set (k := default (next_id (documents db)) (Document.id D)) in *.
  assert (unique_documents (documents db1)) as Huniq1.
  { rewrite Hdb1. cbn [documents set_documents].
    apply unique_documents_insert;
      [by apply unique_documents_propagated|].
    intros j d Hj Hne Hloc.
    unfold unique_together in Hut. apply bool_decide_eq_true in Hut.
    destruct (Hut j d Hj) as [?|[Hl|Hrest]]; [done| |].
    - destruct Hl. rewrite Hloc. by destruct self1.
    - destruct Hrest as (Ht & Hs & Hp). by destruct self1. }
  destruct Hcase as [(_ & -> & _)|(_ & _ & c & cur & t & s & ct & _ & _ & _ & _ & _ & -> & _ & _ & Hfree)];
    [done|].
  apply unique_documents_insert; [done|].
  intros j d Hj _ Hloc. unfold redirect_document in *. cbn in *.
  destruct (Hfree j d Hj Hloc) as [Ht Hs]. eauto.
Qed.

(** [save] keeps the documents table unique within each locale by title,
    slug and parent, the redirect it may create included. *)
Theorem save_keeps_documents_unique fuel db D db' D' :
  unique_documents (documents db) →
  Document_save fuel db D = Ok (db', D') →
  unique_documents (documents db').
Proof. apply Document_save_unique_documents. Qed.

(** ** More on saving a revision *)

Lemma Document_save_revisions fuel db D db' D' :
  Document_save fuel db D = Ok (db', D') →
  revisions db' = revisions db
  ∨ ∃ r, revisions db' = <[next_id (revisions db) := r]> (revisions db).
Proof.
  intros (db1 & self1 & Hw & Hcase)%Document_save_Ok.
  apply Document_save_write_fields in Hw
    as (_ & _ & _ & _ & _ & _ & _ & _ & _ & _ & Hrev1 & _).
  destruct Hcase as [(_ & _ & -> & _)|(_ & _ & c & cur & t & s & ct & _ & _ & _ & _ & _ & _ & -> & _)].
  - by left.
  - right. rewrite Hrev1. eauto.
Qed.

Lemma newer_than_current_unapproved db R D :
  Revision.is_approved R = false → newer_than_current db R D = Ok None.
Proof. unfold newer_than_current. by intros ->. Qed.

Lemma newer_localizable_not_ready db R D :
  Revision.is_ready_for_localization R = false →
  newer_localizable db R D = Ok false.
Proof. unfold newer_localizable. by intros ->. Qed.

(** Saving a revision that is neither approved nor ready for localization
    only writes the revision: with a valid [based_on] and a stored
    document it returns whatever the fuel, the new row is the only change
    to the revisions table, and the document, its table and the
    contributors are as before. *)
Theorem save_unapproved_revision fuel db R D d based_on :
  Revision.is_approved R = false →
  Revision.is_ready_for_localization R = false →
  Document.id D = Some d →
  Revision__based_on_is_clean db R D = Ok (based_on, true) →
  let rid := default (next_id (revisions db)) (Revision.id R) in
  let R' := Revision.set_id (Some rid) (Revision.set_document_id (Some d) R) in
  Revision_save fuel db R D
  = Ok (set_revisions (<[rid := R']> (revisions db)) db, R', D)
  ∧ (Revision.id R = None → revisions db !! rid = None).
Proof.
  intros Happ Hrdy Hd Hclean rid R'. split.
  - unfold Revision_save. rewrite Revision_save_with_unfold, Hclean.
    cbn [mbind result_bind negb]. unfold Model_save_revision. rewrite Hd.
    cbn [mbind result_bind]. fold rid. fold R'.
    rewrite newer_than_current_unapproved by (by destruct R).
    cbn [mbind result_bind].
    rewrite newer_localizable_not_ready by (by destruct R).
    done.
  - intros Hnone. unfold rid. rewrite Hnone. apply next_id_fresh.
Qed.

Lemma Revision_save_stored fuel db R D db' R' D' :
  Revision_save fuel db R D = Ok (db', R', D') →
  ∃ rid d,
    Revision.id R' = Some rid
    ∧ Document.id D = Some d
    ∧ R' = Revision.set_id (Some rid) (Revision.set_document_id (Some d) R)
    ∧ revisions db' !! rid = Some R'
    ∧ (Revision.id R = None → revisions db !! rid = None)
    ∧ (∀ j r, j ≠ rid → revisions db !! j = Some r →
         revisions db' !! j = Some r).
Proof.
  intros Hok. unfold Revision_save in Hok.
  rewrite Revision_save_with_unfold in Hok.
  apply bind_Ok_inv in Hok as ([based_on is_clean] & _ & Hok).
  destruct is_clean; [|done]. cbn [negb] in Hok.
  apply bind_Ok_inv in Hok as ([db1 r1] & Hm & Hok).
  apply Model_save_revision_Ok in Hm as (d & Hd & Hr1 & Hdb1).
  set (rid := default (next_id (revisions db)) (Revision.id R)) in *.
  assert (revisions db1 !! rid = Some r1) as Hstored.
  { rewrite Hdb1. apply lookup_insert_eq. }
  assert (∀ j r, j ≠ rid → revisions db !! j = Some r →
            revisions db1 !! j = Some r) as Hold.
  { intros j r Hne Hj. rewrite Hdb1. cbn [revisions set_revisions].
    by rewrite lookup_insert_ne. }
  assert (∀ dbx, revisions dbx = revisions db1 →
            ∀ D2, Document_save fuel dbx D2 = Ok (db', D') →
            ∀ j r, revisions db1 !! j = Some r → revisions db' !! j = Some r)
    as Hsave.
  { intros dbx Hx D2 Hs j r Hj.
    apply Document_save_revisions in Hs as [->|[r2 ->]]; rewrite Hx; [done|].
    rewrite lookup_insert_ne; [done|]. intros <-.
    by rewrite next_id_fresh in Hj. }
  assert (R' = r1 ∧ ∀ j r, revisions db1 !! j = Some r →
                           revisions db' !! j = Some r) as [-> Hkeep].
  { apply bind_Ok_inv in Hok as (newer & _ & Hok).
    destruct newer as [cur|].
    - apply bind_Ok_inv in Hok as ([db2 d2] & Hs & Hok).
      injection Hok as <- <- <-. split; [done|].
      apply (Hsave _ (proj2 (new_contributors_tables db1 D cur)) _ Hs).
    - apply bind_Ok_inv in Hok as (localizable & _ & Hok).
      destruct localizable.
      + apply bind_Ok_inv in Hok as ([db2 d2] & Hs & Hok).
        injection Hok as <- <- <-. split; [done|].
        by apply (Hsave _ eq_refl _ Hs).
      + by injection Hok as <- <- <-. }
  exists rid, d. split; [rewrite Hr1; by destruct R|]. split; [done|].
  split; [done|]. split; [by apply Hkeep|]. split.
  - intros Hnone. unfold rid. rewrite Hnone. apply next_id_fresh.
  - intros j r Hne Hj. by apply Hkeep, Hold.
Qed.

(** A revision that [save] accepts is stored under its key as the
    instance [save] leaves, a new revision gets a key no row had, and the
    rows stored under other keys are untouched. *)
Theorem save_revision_stores fuel db R D db' R' D' :
  Revision_save fuel db R D = Ok (db', R', D') →
  ∃ rid d,
    Revision.id R' = Some rid
    ∧ Document.id D = Some d
    ∧ R' = Revision.set_id (Some rid) (Revision.set_document_id (Some d) R)
    ∧ revisions db' !! rid = Some R'
    ∧ (Revision.id R = None → revisions db !! rid = None)
    ∧ (∀ j r, j ≠ rid → revisions db !! j = Some r →
         revisions db' !! j = Some r).
Proof. apply Revision_save_stored. Qed.

(** ** Contributors *)

Lemma foldr_contributors_spec (d : positive) (base : gset (positive * positive))
    (l : list Revision.t) x :
  x ∈ foldr (λ r acc, {[ (d, Revision.creator r) ]} ∪ acc) base l ↔
  x ∈ base ∨ ∃ r, r ∈ l ∧ x = (d, Revision.creator r).
Proof.
  induction l as [|a l IH]; simpl.
  - split; [by left|]. intros [?|(r & Hr & _)]; [done|].
    by apply elem_of_nil in Hr.
  - rewrite elem_of_union, elem_of_singleton, IH. split.
    + intros [->|[?|(r & Hr & ->)]].
      * right. exists a. split; [left|done].
      * by left.
      * right. exists r. split; [by right|done].
    + intros [?|(r & Hr & ->)]; [by right; left|].
      apply elem_of_cons in Hr as [->|Hr]; [by left|].
      right. right. eauto.
Qed.

Lemma new_contributors_subseteq db D cur :
  contributors db ⊆ contributors (Revision_new_contributors db D cur).
Proof.
  unfold Revision_new_contributors.
  destruct (Document.id D) as [d|]; [|done].
  intros x Hx. cbn [contributors set_contributors].
  apply foldr_contributors_spec. by left.
Qed.

Lemma Revision_save_with_contributors save db R D db' R' D' :
  (∀ dbx X dby Y, save dbx X = Ok (dby, Y) →
     contributors dbx ⊆ contributors dby) →
  Revision_save_with save db R D = Ok (db', R', D') →
  contributors db ⊆ contributors db'.
Proof.
  intros Hsave Hok. rewrite Revision_save_with_unfold in Hok.
  apply bind_Ok_inv in Hok as ([based_on is_clean] & _ & Hok).
  destruct is_clean; [|done]. cbn [negb] in Hok.
  apply bind_Ok_inv in Hok as ([db1 r1] & Hm & Hok).
  apply Model_save_revision_Ok in Hm as (d & _ & _ & Hdb1).
  assert (contributors db1 = contributors db) as Hc1 by by rewrite Hdb1.
  rewrite <-Hc1.
  apply bind_Ok_inv in Hok as (newer & _ & Hok).
  destruct newer as [cur|].
  - apply bind_Ok_inv in Hok as ([db2 d2] & Hs & Hok).
    injection Hok as <- <- <-. apply Hsave in Hs.
    etrans; [apply (new_contributors_subseteq db1 D cur)|done].
  - apply bind_Ok_inv in Hok as (localizable & _ & Hok).
    destruct localizable.
    + apply bind_Ok_inv in Hok as ([db2 d2] & Hs & Hok).
      injection Hok as <- <- <-. by apply Hsave in Hs.
    + by injection Hok as <- <- <-.
Qed.

Lemma Document_save_contributors fuel db D db' D' :
  Document_save fuel db D = Ok (db', D') →
  contributors db ⊆ contributors db'.
Proof.
  revert db D db' D'. induction fuel as [|fuel IH]; intros db D db' D';
    [done|].
  rewrite Document_save_unfold.
  intros ([db1 self1] & Hw & Hok)%bind_Ok_inv.
  apply Document_save_write_fields in Hw
    as (_ & _ & _ & _ & _ & _ & _ & _ & _ & _ & _ & Hc1 & _).
  rewrite <-Hc1.
  apply bind_Ok_inv in Hok as (cur & _ & Hok).
  apply bind_Ok_inv in Hok as ([db2 self2] & Hmid & Hok).
  apply bind_Ok_inv in Hok as (db3 & Hl & Hok).
  injection Hok as <- <-.
  apply parse_and_calculate_links_Ok in Hl as (_ & _ & ->).
  destruct cur as [c|]; [|by injection Hmid as <- <-].
  destruct (pending_rename self1); [|by injection Hmid as <- <-].
  unfold Document_save_redirect in Hmid.
  apply bind_Ok_inv in Hmid as (title & _ & Hmid).
  apply bind_Ok_inv in Hmid as (slug & _ & Hmid).
  apply bind_Ok_inv in Hmid as ([dba doc] & Hdoc & Hmid).
  apply bind_Ok_inv in Hmid as (content & _ & Hmid).
  apply bind_Ok_inv in Hmid as ([[dbb r] d'] & Hrev & Hmid).
  injection Hmid as <- <-.
  apply IH in Hdoc.
  apply Revision_save_with_contributors in Hrev; [|exact IH].
  by etrans.
Qed.


(** Approving a revision that is newer than the current one adds its
    creator to the contributors of the document. *)
Theorem approved_revision_adds_contributor fuel db R D db' R' D' d :
  Revision.is_approved R = true →
  Document.id D = Some d →
  Document.current_revision D = None
  ∨ (∃ c, Document.current_revision D = Some c
          ∧ (c < default (next_id (revisions db)) (Revision.id R))%positive) →
  Revision_save fuel db R D = Ok (db', R', D') →
  (d, Revision.creator R) ∈ contributors db'.
Proof.
  intros Happ Hd Hnewer Hok. unfold Revision_save in Hok.
  rewrite Revision_save_with_unfold in Hok.
  apply bind_Ok_inv in Hok as ([based_on is_clean] & _ & Hok).
  destruct is_clean; [|done]. cbn [negb] in Hok.
  apply bind_Ok_inv in Hok as ([db1 r1] & Hm & Hok).
  apply Model_save_revision_Ok in Hm as (d0 & Hd0 & Hr1 & Hdb1).
  rewrite Hd in Hd0. injection Hd0 as <-.
  set (rid := default (next_id (revisions db)) (Revision.id R)) in *.
  assert (r1 ∈ revisions_of db1 (Some d)) as Hin.
  { apply elem_of_revisions_of. exists rid, r1.
    split; [rewrite Hdb1; apply lookup_insert_eq|].
    rewrite Hr1. by destruct R. }
  assert (¬ rejected r1) as Hnr.
  { intros [Hna _]. rewrite Hr1 in Hna. destruct R; simpl in *. congruence. }
  assert (Revision.id r1 = Some rid ∧ Revision.is_approved r1 = true
          ∧ Revision.creator r1 = Revision.creator R) as (Hid1 & Happ1 & Hcr1)
    by (rewrite Hr1; by destruct R).
  apply bind_Ok_inv in Hok as (newer & Hn & Hok).
  unfold newer_than_current in Hn. rewrite Happ1, Hid1 in Hn.
  apply bind_Ok_inv in Hn as (cur & Hcur & Hn).
  apply fk_revision_Ok in Hcur. injection Hn as <-.
  assert (∃ cur', (match cur with
                   | Some c => if id_lt (Revision.id c) (Some rid)
                               then Some (Some c) else None
                   | None => Some None
                   end) = Some cur'
                  ∧ match cur' with
                    | Some c => id_lt (Revision.id c) (Some rid) = true
                    | None => True
                    end) as (cur' & Hcur' & Hlt).
  { destruct Hnewer as [Hnone|(c & Hc & Hlt)].
    - rewrite Hnone in Hcur. subst cur. by exists None.
    - rewrite Hc in Hcur. destruct Hcur as (crow & _ & ->).
      rewrite revision_of_row_id.
      assert (id_lt (Some c) (Some rid) = true) as Hlt'
        by by apply id_lt_Some.
      rewrite Hlt'. exists (Some (revision_of_row c crow)).
      by rewrite revision_of_row_id. }
  rewrite Hcur' in Hok.
  apply bind_Ok_inv in Hok as ([db2 d2] & Hs & Hok).
  injection Hok as <- <- <-.
  apply Document_save_contributors in Hs. apply Hs.
  unfold Revision_new_contributors. rewrite Hd.
  cbn [contributors set_contributors]. apply foldr_contributors_spec.
  right. exists r1. split; [|by rewrite Hcr1].
  destruct cur' as [c|].
  - apply list_elem_of_filter. split; [by rewrite Hid1|].
    by apply list_elem_of_filter.
  - by apply list_elem_of_filter.
Qed.

(** ** [clean] of a revision *)

(** When [clean] passes, a revision that is still marked ready for
    localization is approved, of a significance above
    [TYPO_SIGNIFICANCE], and belongs to a document of the default
    locale. *)
Theorem clean_polices_readiness db R D R' :
  Revision_clean db R (Some D) = (R', Ok ()) →
  Revision.is_ready_for_localization R' = true →
  Revision.is_approved R' = true
  ∧ (∃ s, Revision.significance R' = Some s ∧ (TYPO_SIGNIFICANCE < s)%Z)
  ∧ Document.locale D = WIKI_DEFAULT_LANGUAGE.
Proof.
  assert (∀ X : Revision.t,
    (if Revision_can_be_readied_for_localization X D then (X, Ok ())
     else (Revision.set_is_ready_for_localization false X, Ok ()))
    = (R', Ok ()) →
    Revision.is_ready_for_localization R' = true →
    Revision.is_approved R' = true
    ∧ (∃ s, Revision.significance R' = Some s ∧ (TYPO_SIGNIFICANCE < s)%Z)
    ∧ Document.locale D = WIKI_DEFAULT_LANGUAGE) as Hreadied.
  { intros X HX Hrdy.
    destruct (Revision_can_be_readied_for_localization X D) eqn:Hcan.
    - injection HX as <-. unfold Revision_can_be_readied_for_localization in Hcan.
      apply andb_prop in Hcan as [[Ha Hs]%andb_prop Hl].
      split; [done|]. split; [|by apply bool_decide_eq_true in Hl].
      destruct (Revision.significance X) as [s|]; [|done].
      exists s. split; [done|]. by apply bool_decide_eq_true in Hs.
    - injection HX as <-. by destruct X. }
  unfold Revision_clean.
  destruct (Document_original db D) as [orig|[]|]; try done;
    try (intros [= _ ?]; done); [|by apply Hreadied].
  destruct (Revision__based_on_is_clean db R D) as [[b []]| |]; try done.
  cbn [negb]. by apply Hreadied.
Qed.

(** Where the document behind the form is missing, [clean] does not
    raise a validation error: it nulls [based_on]. *)
Theorem clean_without_document db R D :
  Revision.based_on (Revision_clean db R None).1 = None
  ∧ (Revision_clean db R None).2 ≠ Raise ValidationError
  ∧ (Document_original db D = Raise DoesNotExist →
     Revision.based_on (Revision_clean db R (Some D)).1 = None
     ∧ (Revision_clean db R (Some D)).2 = Ok ()).
Proof.
  split_and!.
  - unfold Revision_clean. repeat case_match; by destruct R.
  - unfold Revision_clean. by repeat case_match.
  - intros Horig. unfold Revision_clean. rewrite Horig.
    destruct (Revision_can_be_readied_for_localization _ D);
      split; try done; by destruct R.
Qed.

(** ** After a delete *)

Lemma latest_revision_not_excluded db D R (P : Revision.t → Prop)
    `{∀ r, Decision (P r)} n :
  latest_revision db D R P = Some n → Revision.id n ≠ Revision.id R.
Proof.
  unfold latest_revision. intros [Hin _]%latest_Some.
  by apply list_elem_of_filter in Hin as [? _].
Qed.

(** What the docstring of [delete] promises: once the revision with key
    [k] is deleted, no stored revision is based on it and, for a document
    instance that agrees with its stored row, neither the instance nor
    the row names it as current or latest localizable revision. *)
Theorem delete_leaves_no_reference db R D k d Drow db' D' :
  Revision.id R = Some k →
  Document.id D = Some d →
  documents db !! d = Some Drow →
  Document.current_revision Drow = Document.current_revision D →
  Document.latest_localizable_revision Drow
  = Document.latest_localizable_revision D →
  Revision_delete db R D = Ok (db', D') →
  revisions db' !! k = None
  ∧ (∀ j row, revisions db' !! j = Some row →
       Revision.based_on row ≠ Some k)
  ∧ Document.current_revision D' ≠ Some k
  ∧ Document.latest_localizable_revision D' ≠ Some k
  ∧ ∃ Drow', documents db' !! d = Some Drow'
      ∧ Document.current_revision Drow' = Document.current_revision D'
      ∧ Document.latest_localizable_revision Drow'
        = Document.latest_localizable_revision D'.
Proof.
  intros HR HD HDrow Hsc Hsl Hok. unfold Revision_delete in Hok.
  rewrite HR in Hok. cbv zeta in Hok.
  set (db1 := set_revisions _ db) in Hok.
  apply bind_Ok_inv in Hok as (cur & Hcur & Hok).
  apply bind_Ok_inv in Hok as ([db2 D2] & H2 & Hok).
  apply bind_Ok_inv in Hok as (llr & Hllr & Hok).
  apply bind_Ok_inv in Hok as ([db3 D3] & H3 & Hok).
  injection Hok as <- <-.
  assert (∀ db0 fk o, fk_revision db0 fk = Ok o → o ≫= Revision.id = fk)
    as Hfkid.
  { intros db0 fk o Ho. apply fk_revision_Ok in Ho.
    destruct fk as [c|]; [|by subst].
    destruct Ho as (row & _ & ->). by destruct row. }
  apply Hfkid in Hcur. apply Hfkid in Hllr. rewrite Hcur in H2.
  rewrite Hllr in H3.
  (* the first update *)
  assert (Document.id D2 = Some d
          ∧ Document.current_revision D2 ≠ Some k
          ∧ Document.latest_localizable_revision D2
            = Document.latest_localizable_revision D
          ∧ revisions db2 = revisions db1
          ∧ ∃ Drow2, documents db2 !! d = Some Drow2
              ∧ Document.current_revision Drow2 = Document.current_revision D2
              ∧ Document.latest_localizable_revision Drow2
                = Document.latest_localizable_revision D2)
    as (HD2 & Hc2 & Hl2 & Hr2 & Drow2 & HDrow2 & Hsc2 & Hsl2).
  { revert H2.
    destruct (bool_decide (Document.current_revision D = Some k)) eqn:Hk;
      intros H2.
    - apply bind_Ok_inv in H2 as (html & _ & H2).
      unfold ModelBase_update in H2. rewrite HD in H2.
      injection H2 as <- <-.
      split; [by destruct D|]. split.
      { destruct (latest_revision db1 D R _) as [n|] eqn:Hn;
          [|by destruct D].
        apply latest_revision_not_excluded in Hn. rewrite HR in Hn.
        by destruct D. }
      split; [by destruct D|]. split; [done|].
      cbn [documents set_documents].
      rewrite lookup_alter_eq. change (documents db1) with (documents db).
      rewrite HDrow. eexists. split; [reflexivity|].
      destruct D, Drow; simpl in *. by subst.
    - apply bool_decide_eq_false in Hk.
      injection H2 as <- <-. split; [done|]. split; [done|].
      split; [done|]. split; [done|]. exists Drow. by split. }
  (* the second update *)
  rewrite Hl2 in H3. rewrite <-Hl2 in H3.
  assert (Document.current_revision D3 = Document.current_revision D2
          ∧ Document.latest_localizable_revision D3 ≠ Some k
          ∧ revisions db3 = revisions db2
          ∧ ∃ Drow3, documents db3 !! d = Some Drow3
              ∧ Document.current_revision Drow3 = Document.current_revision D3
              ∧ Document.latest_localizable_revision Drow3
                = Document.latest_localizable_revision D3)
    as (Hc3 & Hl3 & Hr3 & Drow3 & HDrow3 & Hsc3 & Hsl3).
  { revert H3.
    destruct (bool_decide (Document.latest_localizable_revision D2 = Some k))
      eqn:Hk; intros H3.
    - unfold ModelBase_update in H3. rewrite HD2 in H3.
      injection H3 as <- <-.
      split; [by destruct D2|]. split.
      { destruct (latest_revision db2 D2 R _) as [n|] eqn:Hn;
          [|by destruct D2].
        apply latest_revision_not_excluded in Hn. rewrite HR in Hn.
        by destruct D2. }
      split; [done|]. cbn [documents set_documents].
      rewrite lookup_alter_eq, HDrow2. eexists. split; [reflexivity|].
      destruct D2, Drow2; simpl in *. by subst.
    - apply bool_decide_eq_false in Hk.
      injection H3 as <- <-. split; [done|]. split; [done|].
      split; [done|]. exists Drow2. by split. }
  cbn [revisions documents set_revisions].
  rewrite Hr3, Hr2. change (delete k (revisions db1))
    with (without_revision k (revisions db)).
  destruct (without_revision_lookup k (revisions db)) as [Hgone _].
  split; [done|]. split.
  { intros j row Hj Hb. unfold without_revision in Hj.
    apply lookup_delete_Some in Hj as [Hne Hj].
    rewrite lookup_fmap in Hj.
    destruct (revisions db !! j) as [row0|]; [|done]. simpl in Hj.
    injection Hj as <-. case_bool_decide as Hb0; [by destruct row0|done]. }
  split; [congruence|]. split; [done|]. eauto.
Qed.

(** ** Staleness and resolution *)

Lemma is_outdated_monotone db T L L' :
  (L' ≤ L)%Z →
  Document_is_outdated db T L = Ok true →
  Document_is_outdated db T L' = Ok true.
Proof.
  intros HL. unfold Document_is_outdated.
  destruct (fk_document db (Document.parent T)) as [[P|]| |]; try done.
  cbn [mbind result_bind].
  destruct (fk_revision db (Document.current_revision T)) as [[c|]| |];
    try done.
  cbn [mbind result_bind]. intros [= Hb]. f_equal.
  apply bool_decide_eq_true in Hb. apply bool_decide_eq_true.
  intros Hnil. apply Hb.
  destruct (filter _ _) as [|r l] eqn:Hf; [done|]. exfalso.
  assert (r ∈ r :: l) as Hr by left. rewrite <-Hf in Hr.
  apply list_elem_of_filter in Hr as [(Ha & Hrd & Hs & Hm) Hr].
  apply (elem_of_nil r). rewrite <-Hnil.
  apply list_elem_of_filter. split; [|done]. split_and!; [done..| |done].
  unfold significance_gte in *. destruct (Revision.significance r); [lia|done].
Qed.

(** [is_outdated] is monotone in the level: a translation outdated at
    one level is outdated at every lower one; so with
    [MEDIUM_SIGNIFICANCE] not above [MAJOR_SIGNIFICANCE] a majorly
    outdated translation is outdated at the default level. *)
Theorem is_outdated_lower_level db T :
  (∀ L L', (L' ≤ L)%Z →
     Document_is_outdated db T L = Ok true →
     Document_is_outdated db T L' = Ok true)
  ∧ ((MEDIUM_SIGNIFICANCE ≤ MAJOR_SIGNIFICANCE)%Z →
     Document_is_majorly_outdated db T = Ok true →
     Document_is_outdated db T MEDIUM_SIGNIFICANCE = Ok true).
Proof.
  split.
  - intros L L'. apply is_outdated_monotone.
  - intros HL. by apply is_outdated_monotone.
Qed.

(** When [localizable_or_latest_revision] falls back to the history, the
    revision it returns is a revision of the document, it is rejected
    only if [include_rejected] was passed, allowing rejected revisions
    does not change a result that was found without them, and with
    [include_rejected] nothing is returned only when the document has no
    revision at all. *)
Theorem localizable_or_latest_fallback db D include_rejected :
  Document.latest_localizable_revision D = None
  ∨ Document.is_localizable D = false →
  resolves (revisions db) (Document.latest_localizable_revision D) →
  (∀ r, Document_localizable_or_latest_revision db D include_rejected
        = Ok (Some r) →
     r ∈ revisions_of db (Document.id D)
     ∧ (include_rejected = false → ¬ rejected r)
     ∧ (include_rejected = false →
        Document_localizable_or_latest_revision db D true = Ok (Some r)))
  ∧ (Document_localizable_or_latest_revision db D true = Ok None ↔
     revisions_of db (Document.id D) = []).
Proof.
  intros Hcase Hfk. unfold Document_localizable_or_latest_revision.
  rewrite (fk_revision_resolves _ _ Hfk). cbn [mbind result_bind].
  assert (bool_decide
            (match Document.latest_localizable_revision D with
             | Some k => revision_of_row k <$> revisions db !! k
             | None => None
             end = None) || negb (Document.is_localizable D) = true) as ->.
  { destruct Hcase as [->| ->]; [done|]. apply orb_true_r. }
  set (revs := revisions_of db (Document.id D)).
  pose proof (latest_Some (filter (λ r, Revision.is_approved r = true) revs))
    as Ha.
  pose proof (latest_Some (filter (λ r, ¬ rejected r) revs)) as Hu.
  pose proof (latest_Some revs) as Hall.
  pose proof (latest_None (filter (λ r, Revision.is_approved r = true) revs))
    as Han.
  pose proof (latest_None (filter (λ r, ¬ rejected r) revs)) as Hun.
  pose proof (latest_None revs) as Halln.
  destruct (latest (filter (λ r, Revision.is_approved r = true) revs))
    as [a|].
  { split.
    - intros r [= <-]. destruct (Ha a eq_refl) as [Hin _].
      apply list_elem_of_filter in Hin as [Happ Hin].
      split; [done|]. split; [|done]. intros _ [Hna _]. congruence.
    - split; [done|]. intros Hnil. destruct (Ha a eq_refl) as [Hin _].
      apply list_elem_of_filter in Hin as [_ Hin].
      rewrite Hnil in Hin. by apply elem_of_nil in Hin. }
  destruct (latest (filter (λ r, ¬ rejected r) revs)) as [u|].
  { split.
    - intros r [= <-]. destruct (Hu u eq_refl) as [Hin _].
      by apply list_elem_of_filter in Hin as [Hnr Hin].
    - split; [done|]. intros Hnil. destruct (Hu u eq_refl) as [Hin _].
      apply list_elem_of_filter in Hin as [_ Hin].
      rewrite Hnil in Hin. by apply elem_of_nil in Hin. }
  split.
  - intros r Hr. destruct include_rejected; [|done].
    injection Hr as Hr. destruct (Hall r Hr) as [Hin _]. by split.
  - split.
    + intros [= Hnone]. by apply Halln.
    + intros Hnil. f_equal. by apply Halln.
Qed.

(** ** Sequences of assignments *)

(** What [__setattr__] remembers across two assignments to a stored
    document without a pending value: after a real change the old value
    stays the first one, whatever is assigned next (short of the exact
    revert); after a change of letter case only, a later real change
    records the case-changed value, not the one that was stored; and on
    an instance that was never saved nothing is recorded. *)
Theorem setattr_twice D a v1 v2 :
  (∀ k, Document.id D = Some k → old_attr D a = None →
     (lower (getattr D a) ≠ lower v1 → v2 ≠ getattr D a →
      old_attr (Document___setattr__ (Document___setattr__ D a v1) a v2) a
      = Some (getattr D a))
     ∧ (lower (getattr D a) = lower v1 → lower v1 ≠ lower v2 →
        old_attr (Document___setattr__ (Document___setattr__ D a v1) a v2) a
        = Some v1))
  ∧ (Document.id D = None →
     ∀ a', old_attr (Document___setattr__ (Document___setattr__ D a v1) a v2)
             a' = old_attr D a').
Proof.
  split.
  - intros k Hid Hold.
    destruct D as [id ti sl te lo lc cr llr pa ht ca ar os ot].
    simpl in Hid. subst id.
    assert (Hs : ∀ x : pk, bool_decide (is_Some (Some x)) = true)
      by (intros; by apply bool_decide_eq_true_2).
    destruct a; simpl in Hold; subst; split; intros H1 H2;
      unfold Document___setattr__; simpl; rewrite ?Hs; simpl.
    + rewrite (bool_decide_eq_true_2 (lower sl ≠ lower v1)) by done. simpl.
      rewrite ?Hs; simpl. by rewrite (bool_decide_eq_false_2 (v2 = sl)).
    + rewrite (bool_decide_eq_false_2 (lower sl ≠ lower v1)) by tauto. simpl.
      rewrite ?Hs; simpl.
      by rewrite (bool_decide_eq_true_2 (lower v1 ≠ lower v2)).
    + rewrite (bool_decide_eq_true_2 (lower ti ≠ lower v1)) by done. simpl.
      rewrite ?Hs; simpl. by rewrite (bool_decide_eq_false_2 (v2 = ti)).
    + rewrite (bool_decide_eq_false_2 (lower ti ≠ lower v1)) by tauto. simpl.
      rewrite ?Hs; simpl.
      by rewrite (bool_decide_eq_true_2 (lower v1 ≠ lower v2)).
  - intros Hid a'.
    destruct D as [id ti sl te lo lc cr llr pa ht ca ar os ot].
    simpl in Hid. subst id. by destruct a, a'.
Qed.

(** ** Termination of [save] *)

Lemma bind_OutOfFuel_inv {A B} (m : result A) (f : A → result B) :
  m ≫= f = OutOfFuel → m = OutOfFuel ∨ ∃ a, m = Ok a ∧ f a = OutOfFuel.
Proof. destruct m; [eauto|done|by left]. Qed.

Lemma fk_document_not_OutOfFuel db fk : fk_document db fk ≠ OutOfFuel.
Proof.
  destruct fk as [k|]; [|done]. simpl. unfold get_document.
  by destruct (documents db !! k).
Qed.

Lemma Document_save_write_not_OutOfFuel db D :
  Document_save_write db D ≠ OutOfFuel.
Proof.
  unfold Document_save_write.
  intros [Hs|([] & _ & Hw)]%bind_OutOfFuel_inv.
  { rewrite raise_if_collides_eq in Hs. by destruct (_ && _). }
  apply bind_OutOfFuel_inv in Hw as [Ht|([] & _ & Hw)].
  { rewrite raise_if_collides_eq in Ht. by destruct (_ && _). }
  apply bind_OutOfFuel_inv in Hw as [H2|(self2 & _ & Hw)].
  { unfold Document__clean_is_localizable in H2.
    apply bind_OutOfFuel_inv in H2 as [H2|(p & _ & H2)].
    - by apply fk_document_not_OutOfFuel in H2.
    - by repeat case_match. }
  apply bind_OutOfFuel_inv in Hw as [H3|([db3 self3] & _ & Hw)].
  { unfold Document__ensure_inherited_attr in H3.
    apply bind_OutOfFuel_inv in H3 as [H3|(p & _ & H3)].
    - by apply fk_document_not_OutOfFuel in H3.
    - by repeat case_match. }
  apply bind_OutOfFuel_inv in Hw as [H4|([db4 self4] & _ & Hw)].
  { unfold Document__clean_category in H4.
    apply bind_OutOfFuel_inv in H4 as [H4|(p & _ & H4)].
    - by apply fk_document_not_OutOfFuel in H4.
    - destruct (_ && _); [done|].
      unfold Document__ensure_inherited_attr in H4.
      apply bind_OutOfFuel_inv in H4 as [H4|(p' & _ & H4)].
      + by apply fk_document_not_OutOfFuel in H4.
      + by repeat case_match. }
  unfold Model_save_document in Hw. by destruct (unique_together _ _ _).
Qed.

Lemma Document_save_returns_without_redirect fuel db D :
  Document.current_revision D = None ∨ pending_rename D = false →
  Document_save (S fuel) db D ≠ OutOfFuel.
Proof.
  intros Hcase. rewrite Document_save_unfold.
  intros [Hw|([db1 self1] & Hw & Hoof)]%bind_OutOfFuel_inv.
  { by apply Document_save_write_not_OutOfFuel in Hw. }
  pose proof (Document_save_write_fields _ _ _ _ Hw)
    as (_ & _ & _ & _ & Hcr & _ & _ & _ & Hos & Hot & _).
  apply bind_OutOfFuel_inv in Hoof as [Hc|(cur & Hcur & Hoof)].
  { by apply fk_revision_not_OutOfFuel in Hc. }
  apply bind_OutOfFuel_inv in Hoof as [Hmid|([db2 self2] & _ & Hoof)].
  - destruct cur as [c|]; [|done].
    rewrite (pending_rename_ext _ _ Hos Hot) in Hmid.
    destruct Hcase as [Hnone|Hnp].
    + rewrite Hcr, Hnone in Hcur. done.
    + by rewrite Hnp in Hmid.
  - apply bind_OutOfFuel_inv in Hoof as [Hl|(db3 & _ & ?)]; [|done].
    by apply parse_and_calculate_links_not_OutOfFuel in Hl.
Qed.


Lemma format_named_not_OutOfFuel template old i :
  format_named template old i ≠ OutOfFuel.
Proof.
  unfold format_named. generalize FLit as st.
  induction template as [|c rest IH]; intros st; simpl.
  { by destruct st. }
  assert (∀ st (f : string → result string),
            (∀ s, f s ≠ OutOfFuel) →
            format_go old (pretty i) st rest ≫= f ≠ OutOfFuel) as Hb.
  { intros st' f Hf [Hg|(s & _ & Hs)]%bind_OutOfFuel_inv.
    - by apply IH in Hg.
    - by apply Hf in Hs. }
  destruct st.
  - destruct (is_char c "%"); [apply IH|by apply Hb].
  - destruct (is_char c "%"); [by apply Hb|].
    destruct (is_char c "("); [apply IH|done].
  - destruct (is_char c ")"); apply IH.
  - destruct (_ && _); [by apply Hb|].
    destruct (_ && _); [by apply Hb|done].
Qed.

(** A run of [unique_attr] that uses up its fuel found every candidate
    it formatted taken. *)
Lemma unique_attr_OutOfFuel fuel db self a template i :
  unique_attr fuel db self a template i = OutOfFuel →
  ∀ j, (i ≤ j)%positive → (Pos.to_nat j < Pos.to_nat i + fuel)%nat →
    ∃ w, format_named template (getattr self a) j = Ok w
         ∧ Document__collides db self a w = true.
Proof.
  revert i. induction fuel as [|fuel IH]; intros i Hoof j Hij Hj; [lia|].
  revert Hoof. simpl.
  pose proof (format_named_not_OutOfFuel template (getattr self a) i) as Hn.
  destruct (format_named template (getattr self a) i) as [w| |] eqn:Hf;
    simpl; try done.
  destruct (Document__collides db self a w) eqn:Hc; simpl; [|done].
  intros Hoof. destruct (decide (j = i)) as [->|Hne]; [by eauto|].
  apply (IH _ Hoof); lia.
Qed.

(** Candidates with distinct values that are all taken are no more than
    the stored documents. *)
Lemma colliding_candidates_bounded db self a template (n : nat) :
  (∀ i j w, format_named template (getattr self a) i = Ok w →
            format_named template (getattr self a) j = Ok w → i = j) →
  (∀ j, (Pos.to_nat j ≤ n)%nat →
     ∃ w, format_named template (getattr self a) j = Ok w
          ∧ Document__collides db self a w = true) →
  (n ≤ size (documents db))%nat.
Proof.
  intros Hinj Hall.
  assert (∃ X : gset positive, size X = n ∧ X ⊆ dom (documents db)
            ∧ ∀ k, k ∈ X → ∃ j w row, (Pos.to_nat j ≤ n)%nat
                ∧ format_named template (getattr self a) j = Ok w
                ∧ documents db !! k = Some row ∧ getattr row a = w)
    as (X & <- & Hsub & _).
  2:{ rewrite <-size_dom. by apply subseteq_size. }
  induction n as [|n IH].
  { exists ∅. split; [apply size_empty|]. split; [apply empty_subseteq|].
    intros k Hk. by apply not_elem_of_empty in Hk. }
  destruct IH as (X & Hsz & Hsub & HX).
  { intros j Hj. apply Hall. lia. }
  destruct (Hall (Pos.of_nat (S n))) as (w & Hw & Hc).
  { rewrite Nat2Pos.id; lia. }
  apply collides_true in Hc as (k & row & Hk & _ & Hv).
  assert (k ∉ X) as Hfresh.
  { intros (j & w' & row' & Hj & Hw' & Hk' & Hv')%HX.
    rewrite Hk in Hk'. injection Hk' as <-. rewrite Hv in Hv'. subst w'.
    pose proof (Hinj _ _ _ Hw Hw') as Heq.
    rewrite <-Heq, Nat2Pos.id in Hj; lia. }
  exists ({[k]} ∪ X). split; [|split].
  - rewrite size_union, size_singleton, Hsz; [done|].
    intros k' ->%elem_of_singleton. done.
  - apply union_subseteq. split; [|done].
    apply singleton_subseteq_l, elem_of_dom. eauto.
  - intros k' [->%elem_of_singleton|Hin]%elem_of_union.
    + exists (Pos.of_nat (S n)), w, row. rewrite Nat2Pos.id; [|lia]. eauto.
    + destruct (HX _ Hin) as (j & w' & row' & Hj & ?). exists j, w', row'.
      split; [lia|done].
Qed.

Lemma unique_attr_returns fuel db self a template :
  (∀ i j w, format_named template (getattr self a) i = Ok w →
            format_named template (getattr self a) j = Ok w → i = j) →
  (size (documents db) < fuel)%nat →
  unique_attr fuel db self a template 1 ≠ OutOfFuel.
Proof.
  intros Hinj Hsz Hoof.
  pose proof (unique_attr_OutOfFuel _ _ _ _ _ _ Hoof) as Hall.
  assert (fuel ≤ size (documents db))%nat; [|lia].
  apply (colliding_candidates_bounded db self a template); [done|].
  intros j Hj. apply Hall; lia.
Qed.

Lemma Document_original_not_OutOfFuel db d : Document_original db d ≠ OutOfFuel.
Proof.
  unfold Document_original.
  intros [Hp|(p & _ & Hp)]%bind_OutOfFuel_inv.
  - by apply fk_document_not_OutOfFuel in Hp.
  - by destruct p.
Qed.

Lemma localizable_or_latest_revision_not_OutOfFuel db d b :
  Document_localizable_or_latest_revision db d b ≠ OutOfFuel.
Proof.
  unfold Document_localizable_or_latest_revision.
  intros [Hp|(p & _ & Hp)]%bind_OutOfFuel_inv.
  - by apply fk_revision_not_OutOfFuel in Hp.
  - by destruct (_ || _).
Qed.

Lemma based_on_is_clean_not_OutOfFuel db r d :
  Revision__based_on_is_clean db r d ≠ OutOfFuel.
Proof.
  unfold Revision__based_on_is_clean.
  intros [Hp|(o & _ & Hp)]%bind_OutOfFuel_inv.
  { by apply Document_original_not_OutOfFuel in Hp. }
  apply bind_OutOfFuel_inv in Hp as [Hp|([b|] & _ & Hp)]; [|  |done].
  { by apply fk_revision_not_OutOfFuel in Hp. }
  apply bind_OutOfFuel_inv in Hp as [Hp|(bd & _ & Hp)].
  { destruct (Revision.document_id b) as [k|]; [|done]. simpl in Hp.
    unfold get_document in Hp. by destruct (documents db !! k). }
  destruct (bool_decide _); [|done].
  apply bind_OutOfFuel_inv in Hp as [Hp|(? & _ & ?)]; [|done].
  by apply localizable_or_latest_revision_not_OutOfFuel in Hp.
Qed.

(** [Revision.save] returns when the [save] of [Document] it calls
    returns on documents without a pending rename. *)
Lemma Revision_save_with_returns save db self document :
  pending_rename document = false →
  (∀ db d, pending_rename d = false → save db d ≠ OutOfFuel) →
  Revision_save_with save db self document ≠ OutOfFuel.
Proof.
  intros Hnp Hsave. rewrite Revision_save_with_unfold.
  intros [Hp|([o c] & _ & Hp)]%bind_OutOfFuel_inv.
  { by apply based_on_is_clean_not_OutOfFuel in Hp. }
  destruct (negb c); [done|].
  apply bind_OutOfFuel_inv in Hp as [Hp|([db1 r1] & _ & Hp)].
  { unfold Model_save_revision in Hp. by destruct (Document.id document). }
  apply bind_OutOfFuel_inv in Hp as [Hp|(newer & _ & Hp)].
  { unfold newer_than_current in Hp. destruct (Revision.is_approved r1); [|done].
    apply bind_OutOfFuel_inv in Hp as [Hp|(? & _ & ?)]; [|done].
    by apply fk_revision_not_OutOfFuel in Hp. }
  destruct newer as [cur|].
  - apply bind_OutOfFuel_inv in Hp as [Hp|([] & _ & ?)]; [|done].
    apply Hsave in Hp; [done|].
    rewrite <-Hnp. apply pending_rename_ext;
      unfold Revision_recache; by destruct (Revision.is_ready_for_localization r1).
  - apply bind_OutOfFuel_inv in Hp as [Hp|(l & _ & Hp)].
    { unfold newer_localizable in Hp.
      destruct (Revision.is_ready_for_localization r1); [|done].
      apply bind_OutOfFuel_inv in Hp as [Hp|(? & _ & ?)]; [|done].
      by apply fk_revision_not_OutOfFuel in Hp. }
    destruct l; [|done].
    apply bind_OutOfFuel_inv in Hp as [Hp|([] & _ & ?)]; [|done].
    by apply Hsave in Hp.
Qed.

Lemma size_Document_save_write db D db1 self1 :
  Document_save_write db D = Ok (db1, self1) →
  (size (documents db1) ≤ S (size (documents db)))%nat.
Proof.
  intros (src & _ & _ & -> & _)%Document_save_write_Ok.
  cbn [documents set_documents].
  rewrite <-!size_dom, dom_insert_L, size_union_alt, size_singleton.
  rewrite dom_propagated.
  assert (size (dom (documents db) ∖ {[default (next_id (documents db))
                                        (Document.id D)]})
          ≤ size (dom (documents db)))%nat; [|lia].
  apply subseteq_size, subseteq_difference_l. done.
Qed.

Lemma format_str_not_OutOfFuel template arg :
  format_str template arg ≠ OutOfFuel.
Proof.
  unfold format_str. generalize false as used.
  assert (∀ n tpl used, (String.length tpl < n)%nat →
            format_str_go arg used tpl ≠ OutOfFuel) as Hall.
  { induction n as [|n IH]; intros tpl used Hn; [lia|].
    destruct tpl as [|ch tpl]; simpl; [by destruct used|].
    simpl in Hn. destruct (is_char ch "%").
    - destruct tpl as [|ch' tpl']; [done|]. simpl in Hn.
      destruct (is_char ch' "%"); [|destruct (_ && _); [|done]].
      + intros [Hf|(? & _ & ?)]%bind_OutOfFuel_inv; [|done].
        apply IH in Hf; [done|lia].
      + intros [Hf|(? & _ & ?)]%bind_OutOfFuel_inv; [|done].
        apply IH in Hf; [done|lia].
    - intros [Hf|(? & _ & ?)]%bind_OutOfFuel_inv; [|done].
      apply IH in Hf; [done|lia]. }
  intros used. apply (Hall (S (String.length template))). lia.
Qed.

(** [save] returns: the only unbounded part is the [while True] of
    [unique_attr], and that loop ends when the redirect templates give
    distinct values for distinct suffixes, because a database of n
    documents can take at most n of the candidates.  With fuel beyond the
    number of stored documents plus two, [save] gives a result or raises;
    it never runs out. *)
Theorem save_terminates fuel db D :
  (∀ old i j w, format_named REDIRECT_TITLE old i = Ok w →
                format_named REDIRECT_TITLE old j = Ok w → i = j) →
  (∀ old i j w, format_named REDIRECT_SLUG old i = Ok w →
                format_named REDIRECT_SLUG old j = Ok w → i = j) →
  (size (documents db) + 2 < fuel)%nat →
  Document_save fuel db D ≠ OutOfFuel.
Proof.
  intros Htitle Hslug Hfuel.
  destruct fuel as [|[|fuel]]; [lia..|].
  rewrite Document_save_unfold.
  intros [Hw|([db1 self1] & Hw & Hoof)]%bind_OutOfFuel_inv.
  { by apply Document_save_write_not_OutOfFuel in Hw. }
  pose proof (size_Document_save_write _ _ _ _ Hw) as Hsz.
  apply bind_OutOfFuel_inv in Hoof as [Hc|(cur & Hcur & Hoof)].
  { by apply fk_revision_not_OutOfFuel in Hc. }
  apply bind_OutOfFuel_inv in Hoof as [Hmid|([db2 self2] & _ & Hoof)].
  2:{ apply bind_OutOfFuel_inv in Hoof as [Hl|(db3 & _ & ?)]; [|done].
      by apply parse_and_calculate_links_not_OutOfFuel in Hl. }
  destruct cur as [c|]; [|done].
  destruct (pending_rename self1); [|done].
  unfold Document_save_redirect in Hmid.
  apply bind_OutOfFuel_inv in Hmid as [Ht|(title & _ & Hmid)].
  { unfold Document__attr_for_redirect in Ht.
    destruct (old_attr self1 attr_title); [done|].
    apply unique_attr_returns in Ht; [done|by apply Htitle|lia]. }
  apply bind_OutOfFuel_inv in Hmid as [Hs|(slug & _ & Hmid)].
  { unfold Document__attr_for_redirect in Hs.
    destruct (old_attr self1 attr_slug); [done|].
    apply unique_attr_returns in Hs; [done|by apply Hslug|lia]. }
  apply bind_OutOfFuel_inv in Hmid as [Hd|([dba doc] & Hd & Hmid)].
  { apply Document_save_returns_without_redirect in Hd; [done|by left]. }
  apply bind_OutOfFuel_inv in Hmid as [Hf|(content & _ & Hmid)].
  { by apply format_str_not_OutOfFuel in Hf. }
  apply bind_OutOfFuel_inv in Hmid as [Hr|([[] ] & _ & ?)]; [|done].
  apply Revision_save_with_returns in Hr; [done| |].
  - apply Document_save_no_redirect in Hd as (? & Hw' & _); [|by left].
    pose proof (Document_save_write_fields _ _ _ _ Hw')
      as (_ & _ & _ & _ & _ & _ & _ & _ & Hos & Hot & _).
    unfold pending_rename. by rewrite Hos, Hot.
  - intros db' d Hd'. apply Document_save_returns_without_redirect. by right.
Qed.

End Further.

(** * Lookups, the cached html, contributions and links *)

Section LookupProperties.
Context `{Settings} `{Urls}.

Lemma NoDup_all_documents db : NoDup (all_documents db).
Proof.
  unfold all_documents. apply NoDup_fmap_2_strong; [|apply NoDup_map_to_list].
  intros [i a] [j b] Hi Hj Heq. simpl in Heq.
  apply elem_of_map_to_list in Hi, Hj.
  assert (i = j) as <-.
  { apply (f_equal Document.id) in Heq. simpl in Heq. congruence. }
  rewrite Hi in Hj. by injection Hj as <-.
Qed.

(** [get()] on a filter that at most one stored row can pass. *)
Lemma queryset_get_unique db (P : Document.t → Prop) `{∀ d, Decision (P d)} :
  (∀ i j a b, documents db !! i = Some a → documents db !! j = Some b →
     P (document_of_row i a) → P (document_of_row j b) → i = j) →
  match queryset_get (filter P (all_documents db)) with
  | one_row d =>
      ∃ j row, documents db !! j = Some row ∧ d = document_of_row j row ∧ P d
  | no_row => ∀ j row, documents db !! j = Some row → ¬ P (document_of_row j row)
  | many_rows => False
  end.
Proof.
  intros Huniq.
  pose proof (NoDup_filter P _ (NoDup_all_documents db)) as Hnd.
  assert (∀ d, d ∈ filter P (all_documents db) ↔
            P d ∧ ∃ j row, documents db !! j = Some row
                           ∧ d = document_of_row j row) as Hin.
  { intros d. by rewrite list_elem_of_filter, elem_of_all_documents. }
  destruct (filter P (all_documents db)) as [|d1 [|d2 l]]; simpl.
  - intros j row Hj HP. apply (elem_of_nil (document_of_row j row)).
    apply Hin. eauto.
  - assert (d1 ∈ [d1]) as (HP & j & row & Hj & ->)%Hin by left. eauto.
  - assert (d1 ∈ d1 :: d2 :: l) as (HP1 & i & a & Hi & ->)%Hin by left.
    assert (d2 ∈ document_of_row i a :: d2 :: l)
      as (HP2 & j & b & Hj & ->)%Hin by (right; left).
    pose proof (Huniq _ _ _ _ Hi Hj HP1 HP2) as <-.
    rewrite Hi in Hj. injection Hj as <-.
    apply NoDup_cons in Hnd as [Hnd _]. apply Hnd. left.
Qed.

Lemma translated_to_filter db k l :
  filter (λ d, Document.locale d = l) (translations_of db (Some k))
  = filter (λ d, Document.parent d = Some k ∧ Document.locale d = l)
      (all_documents db).
Proof.
  unfold translations_of. rewrite list_filter_filter.
  apply list_filter_iff. intros d. tauto.
Qed.

Lemma translated_to_unique db D k l :
  unique_documents (documents db) →
  Document.locale D = WIKI_DEFAULT_LANGUAGE →
  Document.id D = Some k →
  match Document_translated_to db D l with
  | Returns (Some t) =>
      ∃ j row, documents db !! j = Some row ∧ t = document_of_row j row
        ∧ Document.parent row = Some k ∧ Document.locale row = l
  | Returns None =>
      ∀ j row, documents db !! j = Some row →
        Document.parent row = Some k → Document.locale row ≠ l
  | Throws _ => False
  end.
Proof.
  intros Huniq Hloc Hid. unfold Document_translated_to.
  rewrite bool_decide_eq_false_2 by (intros Hne; by apply Hne).
  rewrite Hid, translated_to_filter.
  pose proof (queryset_get_unique db
    (λ d, Document.parent d = Some k ∧ Document.locale d = l)) as Hget.
  destruct (queryset_get _) as [d| |].
  - destruct Hget as (j & row & Hj & -> & Hp & Hl).
    + intros i j a b Hi Hj [Hpa Hla] [Hpb Hlb].
      destruct (decide (i = j)) as [|Hne]; [done|exfalso].
      destruct (Huniq i j a b Hi Hj Hne) as (_ & _ & Hpar).
      * destruct a, b; simpl in *; congruence.
      * apply Hpar; destruct a, b; simpl in *; [eauto|congruence].
    + exists j, row. by destruct row.
  - intros j row Hj Hp Hl. apply (Hget) with (j := j) (row := row).
    + intros i j' a b Hi Hj' [Hpa Hla] [Hpb Hlb].
      destruct (decide (i = j')) as [|Hne]; [done|exfalso].
      destruct (Huniq i j' a b Hi Hj' Hne) as (_ & _ & Hpar).
      * destruct a, b; simpl in *; congruence.
      * apply Hpar; destruct a, b; simpl in *; [eauto|congruence].
    + done.
    + by destruct row.
  - apply Hget.
    intros i j a b Hi Hj [Hpa Hla] [Hpb Hlb].
    destruct (decide (i = j)) as [|Hne]; [done|exfalso].
    destruct (Huniq i j a b Hi Hj Hne) as (_ & _ & Hpar).
    + destruct a, b; simpl in *; congruence.
    + apply Hpar; destruct a, b; simpl in *; [eauto|congruence].
Qed.

(** Round trip of [save] and [translated_to]: once a translation of a
    default-language document is saved, [translated_to] of that document
    and the translation's locale returns the saved translation, and never
    fails on more than one match. *)
Theorem save_then_translated_to fuel db T db' T' P p :
  unique_documents (documents db) →
  Document.parent T = Some p →
  Document_save fuel db T = Ok (db', T') →
  Document.id P = Some p →
  Document.locale P = WIKI_DEFAULT_LANGUAGE →
  ∃ k, Document.id T' = Some k
    ∧ Document_translated_to db' P (Document.locale T)
      = Returns (Some (document_of_row k T')).
Proof.
  intros Huniq Hpar Hsave Hid Hloc.
  pose proof (Document_save_unique_documents _ _ _ _ _ Huniq Hsave)
    as Huniq'.
  pose proof (Document_save_stored _ _ _ _ _ Hsave)
    as (Hk & Hrow & _ & _ & _ & Hl & _ & _ & Hp).
  set (k := default (next_id (documents db)) (Document.id T)) in *.
  exists k. split; [done|].
  pose proof (translated_to_unique db' P p (Document.locale T) Huniq' Hloc Hid)
    as Hres.
  destruct (Document_translated_to db' P (Document.locale T)) as [[t|]|e].
  - destruct Hres as (j & row & Hj & -> & Hpj & Hlj).
    destruct (decide (j = k)) as [->|Hne].
    + rewrite Hrow in Hj. injection Hj as <-. by destruct T'.
    + exfalso.
      destruct (Huniq' j k row _ Hj Hrow Hne) as (_ & _ & Hparent).
      * rewrite Hlj. destruct T'; simpl in *. congruence.
      * apply Hparent; [eauto|]. rewrite Hpj. destruct T'; simpl in *.
        congruence.
  - exfalso. apply (Hres k _ Hrow).
    + destruct T'; simpl in *. congruence.
    + destruct T'; simpl in *. congruence.
  - done.
Qed.


Lemma get_by_slug db l s :
  unique_documents (documents db) →
  match queryset_get
          (filter (λ d, Document.locale d = l ∧ Document.slug d = s)
             (all_documents db)) with
  | one_row d =>
      ∃ j row, documents db !! j = Some row ∧ d = document_of_row j row
        ∧ Document.locale row = l ∧ Document.slug row = s
  | no_row =>
      ∀ j row, documents db !! j = Some row →
        ¬ (Document.locale row = l ∧ Document.slug row = s)
  | many_rows => False
  end.
Proof.
  intros Huniq.
  pose proof (queryset_get_unique db
    (λ d, Document.locale d = l ∧ Document.slug d = s)) as Hget.
  assert (∀ i j a b, documents db !! i = Some a → documents db !! j = Some b →
            Document.locale (document_of_row i a) = l
            ∧ Document.slug (document_of_row i a) = s →
            Document.locale (document_of_row j b) = l
            ∧ Document.slug (document_of_row j b) = s → i = j) as Hone.
  { intros i j a b Hi Hj [Hla Hsa] [Hlb Hsb].
    destruct (decide (i = j)) as [|Hne]; [done|exfalso].
    destruct (Huniq i j a b Hi Hj Hne) as (_ & Hslug & _);
      destruct a, b; simpl in *; congruence. }
  specialize (Hget Hone).
  destruct (queryset_get _) as [d| |]; [| |done].
  - destruct Hget as (j & row & Hj & -> & Hl & Hs).
    exists j, row. by destruct row.
  - intros j row Hj [Hl Hs]. apply (Hget j row Hj). by destruct row.
Qed.

(** The fallback chain of [from_url] on a wiki that keeps title, slug and
    parent unique within a locale.  For a URL with components
    (locale, path, slug): the document of that locale and slug when one
    is stored; otherwise, through the default-language document of that
    slug, its translation into the locale when there is one and that
    document itself when there is none; [None] when no document of
    either locale has the slug. *)
Theorem from_url_resolution db url required_locale check_host l path s :
  unique_documents (documents db) →
  _doc_components_from_url url required_locale check_host
  = doc_components l path s →
  let named lc (row : Document.t) :=
    Document.locale row = lc ∧ Document.slug row = s in
  let answer := Document_from_url db url required_locale check_host in
  (∀ j row, documents db !! j = Some row → named l row →
     answer = Returns (Some (document_of_row j row)))
  ∧ ((∀ j row, documents db !! j = Some row → ¬ named l row) →
     (∀ i E, documents db !! i = Some E → named WIKI_DEFAULT_LANGUAGE E →
        (∀ j T, documents db !! j = Some T → Document.parent T = Some i →
           Document.locale T = l →
           answer = Returns (Some (document_of_row j T)))
        ∧ ((∀ j T, documents db !! j = Some T → Document.parent T = Some i →
              Document.locale T ≠ l) →
           answer = Returns (Some (document_of_row i E))))
     ∧ ((∀ i E, documents db !! i = Some E →
           ¬ named WIKI_DEFAULT_LANGUAGE E) →
        answer = Returns None)).
Proof.
  intros Huniq Hcomp named answer. subst answer. unfold Document_from_url.
  rewrite Hcomp.
  pose proof (get_by_slug db l s Huniq) as Hfirst.
  pose proof (get_by_slug db WIKI_DEFAULT_LANGUAGE s Huniq) as Hsecond.
  assert (∀ i j a b, documents db !! i = Some a → documents db !! j = Some b →
            Document.locale a = Document.locale b →
            Document.slug a = Document.slug b → i = j) as Hone.
  { intros i j a b Hi Hj Hl Hs.
    destruct (decide (i = j)) as [|Hne]; [done|exfalso].
    by destruct (Huniq i j a b Hi Hj Hne Hl) as (_ & Hslug & _). }
  split.
  - intros j row Hj [Hl Hs].
    destruct (queryset_get _) as [d| |]; [| |done].
    + destruct Hfirst as (j' & row' & Hj' & -> & Hl' & Hs').
      assert (j' = j) as -> by (apply (Hone _ _ _ _ Hj' Hj); congruence).
      rewrite Hj in Hj'. by injection Hj' as <-.
    + by destruct (Hfirst j row Hj).
  - intros Hnone.
    destruct (queryset_get (filter (λ d, Document.locale d = l ∧ _) _))
      as [d| |]; [| |done].
    { destruct Hfirst as (j' & row' & Hj' & _ & Hl' & Hs').
      by destruct (Hnone j' row' Hj'). }
    clear Hfirst. split.
    + intros i E Hi [HlE HsE].
      destruct (queryset_get _) as [d| |]; [| |done].
      2:{ by destruct (Hsecond i E Hi). }
      destruct Hsecond as (i' & E' & Hi' & -> & Hl' & Hs').
      assert (i' = i) as -> by (apply (Hone _ _ _ _ Hi' Hi); congruence).
      rewrite Hi in Hi'. injection Hi' as <-.
      pose proof (translated_to_unique db (document_of_row i E) i l Huniq)
        as Htr.
      destruct (Document_translated_to db (document_of_row i E) l)
        as [[t|]|e].
      * destruct Htr as (j' & T' & Hj' & -> & Hp' & Hl''); [by destruct E..|].
        split.
        -- intros j T Hj Hp Hl.
           destruct (decide (j' = j)) as [->|Hne].
           { rewrite Hj in Hj'. by injection Hj' as <-. }
           exfalso.
           destruct (Huniq j' j T' T Hj' Hj Hne) as (_ & _ & Hparent);
             [congruence|].
           apply Hparent; [eauto|congruence].
        -- intros Hno. by destruct (Hno j' T' Hj' Hp').
      * split.
        -- intros j T Hj Hp Hl. exfalso.
           apply (Htr ltac:(by destruct E) ltac:(by destruct E) j T Hj Hp Hl).
        -- done.
      * exfalso. apply Htr; by destruct E.
    + intros Hnodef.
      destruct (queryset_get _) as [d| |]; [| |done].
      * destruct Hsecond as (i' & E' & Hi' & _ & Hl' & Hs').
        by destruct (Hnodef i' E' Hi').
      * done.
Qed.

(** What [from_url] never does.  It never raises the
    [NotImplementedError] of [translated_to], whatever the tables hold:
    the document it asks for a translation is one it read in the default
    language.  On a wiki with unique slugs and parents per locale it
    raises nothing at all.  A document it returns is stored, and is
    either of the URL's locale or the default-language document of the
    URL's slug; with [check_host] the URL then points to the document
    view. *)
Theorem from_url_result db url required_locale check_host :
  let answer := Document_from_url db url required_locale check_host in
  answer ≠ Throws NotImplementedError
  ∧ (unique_documents (documents db) → ∀ e, answer ≠ Throws e)
  ∧ ∀ d, answer = Returns (Some d) →
      (∃ j row, documents db !! j = Some row ∧ d = document_of_row j row)
      ∧ (∃ l path s,
           _doc_components_from_url url required_locale check_host
           = doc_components l path s
           ∧ (Document.locale d = l
              ∨ (Document.locale d = WIKI_DEFAULT_LANGUAGE
                 ∧ Document.slug d = s)))
      ∧ (check_host = true → points_to_document_view url required_locale = true).
Proof.
  intros answer. subst answer. unfold Document_from_url, points_to_document_view.
  assert (∀ (P : Document.t → Prop) `{∀ d, Decision (P d)} d,
            queryset_get (filter P (all_documents db)) = one_row d →
            P d ∧ ∃ j row, documents db !! j = Some row
                           ∧ d = document_of_row j row) as Hone.
  { intros P ? d Hget.
    assert (d ∈ filter P (all_documents db)) as Hin.
    { destruct (filter P (all_documents db)) as [|d1 [|d2 rest]];
        simpl in Hget; try done. injection Hget as ->. left. }
    apply list_elem_of_filter in Hin as [HP Hin].
    by apply elem_of_all_documents in Hin. }
  split; [|split].
  - destruct (_doc_components_from_url _ _ _) as [| |l path s]; try done.
    destruct (queryset_get _) as [d| |]; try done.
    destruct (queryset_get _) as [d| |] eqn:Hget; try done.
    apply Hone in Hget as [[Hl _] _].
    unfold Document_translated_to.
    rewrite bool_decide_eq_false_2 by (intros Hne; by apply Hne).
    by destruct (queryset_get _).
  - intros Huniq e.
    destruct (_doc_components_from_url _ _ _) as [| |l path s] eqn:Hcomp;
      try done.
    pose proof (get_by_slug db l s Huniq) as Hfirst.
    pose proof (get_by_slug db WIKI_DEFAULT_LANGUAGE s Huniq) as Hsecond.
    destruct (queryset_get (filter (λ d, Document.locale d = l ∧ _) _))
      as [d| |]; try done.
    destruct (queryset_get _) as [d| |]; try done.
    destruct Hsecond as (i & E & Hi & -> & Hl & Hs).
    pose proof (translated_to_unique db (document_of_row i E) i l Huniq)
      as Htr.
    destruct (Document_translated_to db (document_of_row i E) l)
      as [[t|]|e']; try done.
    exfalso. apply Htr; by destruct E.
  - intros d.
    destruct (_doc_components_from_url url required_locale check_host)
      as [| |l path s] eqn:Hcomp; try done.
    assert (check_host = true →
            match _doc_components_from_url url required_locale true with
            | doc_components _ _ _ => true
            | _ => false
            end = true) as Hview.
    { intros ->. by rewrite Hcomp. }
    destruct (queryset_get (filter (λ d, Document.locale d = l ∧ _) _))
      as [d1| |] eqn:Hget1; try done.
    { intros [= ->]. apply Hone in Hget1 as [[Hl Hs] Hstored].
      split; [done|]. split; [|done]. exists l, path, s. eauto. }
    clear Hget1.
    destruct (queryset_get _) as [d2| |] eqn:Hget2; try done.
    apply Hone in Hget2 as [[Hl Hs] Hstored].
    destruct (Document_translated_to db d2 l) as [[t|]|e] eqn:Htr; try done.
    + intros [= ->]. unfold Document_translated_to in Htr.
      destruct (bool_decide _); [done|].
      destruct (queryset_get _) as [t| |] eqn:Hget3; try done.
      injection Htr as ->.
      destruct Hstored as (i & E & Hi & ->).
      change (Document.id (document_of_row i E)) with (Some i) in Hget3.
      rewrite translated_to_filter in Hget3.
      apply Hone in Hget3 as [[Hp Hl'] Hstored'].
      split; [done|]. split; [|done]. exists l, path, s. eauto.
    + intros [= ->]. split; [done|]. split; [|done].
      exists l, path, s. eauto.
Qed.

(** [redirect_url] rewrites the link of a redirect only for a caller in
    another locale than [LANGUAGE_CODE] and a link into [LANGUAGE_CODE].
    With the default [source_locale], which is [LANGUAGE_CODE], the first
    [href] comes back as it is, so [redirect_document] always follows the
    link as written; and a document whose html does not start with
    [REDIRECT_HTML] has neither a redirect URL nor a redirect
    document. *)
Theorem redirect_url_default_source db D source_locale :
  Document_redirect_url D LANGUAGE_CODE
  = (if startswith (Document.html D) REDIRECT_HTML
     then first_href (Document.html D) else None)
  ∧ (∀ u, Document_redirect_url D source_locale = Some u →
       first_href (Document.html D) ≠ Some u →
       source_locale ≠ LANGUAGE_CODE
       ∧ ∃ full_url, first_href (Document.html D) = Some full_url
           ∧ (split_path full_url).1 = LANGUAGE_CODE
           ∧ u = "/" ++ source_locale ++ "/" ++ (split_path full_url).2)
  ∧ (startswith (Document.html D) REDIRECT_HTML = false →
     Document_redirect_url D source_locale = None
     ∧ Document_redirect_document db D = Returns None)
  ∧ (∀ u, startswith (Document.html D) REDIRECT_HTML = true →
       first_href (Document.html D) = Some u → u ≠ "" →
       Document_redirect_document db D = Document_from_url db u None true).
Proof.
  assert (Document_redirect_url D LANGUAGE_CODE
          = (if startswith (Document.html D) REDIRECT_HTML
             then first_href (Document.html D) else None)) as Hdefault.
  { unfold Document_redirect_url.
    destruct (startswith _ _); [|done].
    destruct (first_href _) as [full_url|]; [|done].
    destruct (split_path full_url) as [dest url].
    destruct (bool_decide (LANGUAGE_CODE ≠ dest)) eqn:Hne; [|done].
    apply bool_decide_eq_true in Hne.
    by rewrite bool_decide_eq_false_2 by (intros Heq; by apply Hne). }
  split; [done|]. split; [|split].
  - intros u. unfold Document_redirect_url.
    destruct (startswith _ _); [|done].
    destruct (first_href _) as [full_url|]; [|done].
    destruct (split_path full_url) as [dest url] eqn:Hsplit.
    destruct (bool_decide (source_locale ≠ dest)) eqn:Hne; simpl;
      [|by intros [= ->]].
    destruct (bool_decide (dest = LANGUAGE_CODE)) eqn:Hdest;
      [|by intros [= ->]].
    apply bool_decide_eq_true in Hne, Hdest. subst dest.
    intros [= <-] _. split; [done|]. exists full_url. by rewrite Hsplit.
  - intros Hno. unfold Document_redirect_document. rewrite Hdefault.
    unfold Document_redirect_url. by rewrite Hno.
  - intros u Hyes Hhref Hu. unfold Document_redirect_document.
    rewrite Hdefault, Hyes, Hhref. by rewrite bool_decide_eq_true_2.
Qed.


(** ** The cached [html] *)

Lemma fk_revision_stored db k row :
  revisions db !! k = Some row →
  fk_revision db (Some k) = Ok (Some (revision_of_row k row)).
Proof. intros Hk. simpl. unfold get_revision. by rewrite Hk. Qed.

Lemma fk_required_document_stored db k row :
  documents db !! k = Some row →
  fk_required_document db (Some k) = Ok (document_of_row k row).
Proof. intros Hk. simpl. unfold get_document. by rewrite Hk. Qed.

Lemma Revision_save_newer fuel db R D db' R' D' :
  Revision.is_approved R = true →
  Document.current_revision D = None
  ∨ (∃ c, Document.current_revision D = Some c
          ∧ (c < default (next_id (revisions db)) (Revision.id R))%positive) →
  Revision_save fuel db R D = Ok (db', R', D') →
  ∃ rid d,
    revisions db' !! rid = Some R'
    ∧ Revision.id R' = Some rid
    ∧ Revision.document_id R' = Some d
    ∧ Revision.content R' = Revision.content R
    ∧ Document.current_revision D' = Some rid
    ∧ Document.html D'
      = wiki_to_html (Revision.content R) (Document.locale D) (Some d)
    ∧ documents db' !! d = Some (document_of_row d D')
    ∧ Document.locale D' = Document.locale D
    ∧ Document.id D' = Some d.
Proof.
  intros Happ Hnewer Hok. unfold Revision_save in Hok.
  rewrite Revision_save_with_unfold in Hok.
  apply bind_Ok_inv in Hok as ([based_on is_clean] & _ & Hok).
  destruct is_clean; [|done]. cbn [negb] in Hok.
  apply bind_Ok_inv in Hok as ([db1 r1] & Hm & Hok).
  apply Model_save_revision_Ok in Hm as (d & Hd & Hr1 & Hdb1).
  set (rid := default (next_id (revisions db)) (Revision.id R)) in *.
  assert (Revision.id r1 = Some rid ∧ Revision.content r1 = Revision.content R
          ∧ Revision.is_approved r1 = true
          ∧ Revision.document_id r1 = Some d) as (Hrid & Hct & Happ1 & Hdoc).
  { rewrite Hr1. by destruct R. }
  assert (revisions db1 !! rid = Some r1) as Hstored.
  { rewrite Hdb1. apply lookup_insert_eq. }
  clear Hr1 Hdb1.
  apply bind_Ok_inv in Hok as (newer & Hn & Hok).
  unfold newer_than_current in Hn. rewrite Happ1, Hrid in Hn.
  apply bind_Ok_inv in Hn as (cur & Hcur & Hn).
  apply fk_revision_Ok in Hcur. injection Hn as <-.
  assert (∃ cur', (match cur with
                   | Some c => if id_lt (Revision.id c) (Some rid)
                               then Some (Some c) else None
                   | None => Some None
                   end) = Some cur') as [cur' Hcur'].
  { destruct Hnewer as [Hnone|(c & Hc & Hlt)].
    - rewrite Hnone in Hcur. subst cur. eauto.
    - rewrite Hc in Hcur. destruct Hcur as (crow & _ & ->).
      rewrite revision_of_row_id.
      rewrite (proj2 (id_lt_Some c rid) Hlt). eauto. }
  rewrite Hcur' in Hok.
  apply bind_Ok_inv in Hok as ([db2 d2] & Hs & Hok).
  injection Hok as <- <- <-.
  pose proof (Document_save_revisions _ _ _ _ _ Hs) as Hrevs.
  rewrite (proj2 (new_contributors_tables db1 D cur')) in Hrevs.
  apply Document_save_stored in Hs
    as (Hid & Hrow & Hc & Hh & _ & Hl & _).
  destruct (Revision_recache_fields r1 D) as (Hc' & Hh' & _ & Hid').
  rewrite Hid', Hd in Hid, Hrow. cbn [default] in Hid, Hrow.
  exists rid, d. split_and!; try done.
  - destruct Hrevs as [->|[r2 ->]]; [done|].
    rewrite lookup_insert_ne; [done|]. intros <-.
    by rewrite next_id_fresh in Hstored.
  - by rewrite Hc, Hc'.
  - by rewrite Hh, Hh', Hct, Hd.
  - rewrite Hl. unfold Revision_recache.
    by destruct (Revision.is_ready_for_localization r1), D.
Qed.

(** [html] is a cache of [content_parsed].  When an approved revision
    newer than the current one is saved, the document instance and its
    stored row come back with an [html] equal to what [content_parsed]
    renders afresh from the tables. *)
Theorem approved_save_keeps_html_fresh fuel db R D db' R' D' :
  Revision.is_approved R = true →
  Document.current_revision D = None
  ∨ (∃ c, Document.current_revision D = Some c
          ∧ (c < default (next_id (revisions db)) (Revision.id R))%positive) →
  Revision_save fuel db R D = Ok (db', R', D') →
  Document_content_parsed db' D' = Ok (Document.html D')
  ∧ ∃ d row, Document.id D' = Some d ∧ documents db' !! d = Some row
      ∧ Document_content_parsed db' (document_of_row d row)
        = Ok (Document.html row).
Proof.
  intros Happ Hnewer Hok.
  destruct (Revision_save_newer _ _ _ _ _ _ _ Happ Hnewer Hok)
    as (rid & d & Hrev & Hrid & Hdoc & Hct & Hcur & Hhtml & Hrow & Hloc & Hid).
  assert (∀ X, Document.current_revision X = Some rid →
            Document_content_parsed db' X = Ok (Document.html D')) as Hfresh.
  { intros X HX. unfold Document_content_parsed.
    rewrite HX, (fk_revision_stored _ _ _ Hrev), bind_Ok_l.
    replace (Revision.document_id (revision_of_row rid R')) with (Some d)
      by (by destruct R').
    rewrite (fk_required_document_stored _ _ _ Hrow), bind_Ok_l. f_equal.
    rewrite Hhtml. unfold Revision_content_parsed.
    replace (Revision.content (revision_of_row rid R'))
      with (Revision.content R) by (by destruct R').
    f_equal; by destruct D'. }
  split; [by apply Hfresh|].
  exists d, (document_of_row d D'). split; [done|]. split; [done|].
  replace (Document.html (document_of_row d D')) with (Document.html D')
    by (by destruct D').
  apply Hfresh. by destruct D'.
Qed.





(** ** Contributions of a user *)

Lemma elem_of_user_documents db u d :
  d ∈ user_documents db u ↔
  ∃ k row j r, documents db !! k = Some row ∧ d = document_of_row k row
    ∧ revisions db !! j = Some r
    ∧ Revision.document_id r = Some k ∧ Revision.creator r = u.
Proof.
  unfold user_documents. rewrite elem_of_remove_dups, list_elem_of_bind.
  split.
  - intros (d0 & Hin & Hd0).
    apply list_elem_of_fmap in Hin as (r & -> & Hr).
    apply list_elem_of_filter in Hr as [Hu Hr].
    apply elem_of_all_documents in Hd0 as (k & row & Hk & ->).
    rewrite document_of_row_id in Hr.
    apply elem_of_revisions_of in Hr as (j & r0 & Hj & Hdoc & ->).
    exists k, row, j, r0. split_and!; try done.
  - intros (k & row & j & r & Hk & -> & Hj & Hdoc & Hu).
    exists (document_of_row k row). split.
    + apply list_elem_of_fmap. exists (revision_of_row j r). split; [done|].
      apply list_elem_of_filter. split; [by destruct r|].
      rewrite document_of_row_id. apply elem_of_revisions_of.
      exists j, r. eauto.
    + apply elem_of_all_documents. eauto.
Qed.


(** [user_documents] lists exactly the stored documents that have a
    revision created by the user, each of them once however many
    revisions the user made; so [user_num_documents] is at most the number
    of stored documents, and zero for a user without revisions. *)
Theorem user_documents_counts_each_once db u :
  NoDup (user_documents db u)
  ∧ (∀ d, d ∈ user_documents db u ↔
       ∃ k row j r, documents db !! k = Some row ∧ d = document_of_row k row
         ∧ revisions db !! j = Some r
         ∧ Revision.document_id r = Some k ∧ Revision.creator r = u)
  ∧ (user_num_documents db u ≤ size (documents db))%nat
  ∧ ((∀ j r, revisions db !! j = Some r → Revision.creator r ≠ u) →
     user_num_documents db u = 0%nat).
Proof.
  split; [apply NoDup_remove_dups|]. split; [apply elem_of_user_documents|].
  split.
  - unfold user_num_documents.
    replace (size (documents db)) with (List.length (all_documents db)).
    2:{ unfold all_documents. rewrite length_fmap.
        apply length_map_to_list. }
    change (List.length (user_documents db u))
      with (base.length (user_documents db u)).
    apply submseteq_length, NoDup_submseteq; [apply NoDup_remove_dups|].
    intros d (k & row & _ & _ & Hk & -> & _)%elem_of_user_documents.
    apply elem_of_all_documents. eauto.
  - intros Hnone. unfold user_num_documents.
    destruct (user_documents db u) as [|d l] eqn:Hl; [done|].
    assert (d ∈ user_documents db u) as Hd by (rewrite Hl; left).
    apply elem_of_user_documents in Hd as (k & row & j & r & _ & _ & Hj & _ & Hu).
    by destruct (Hnone j r Hj).
Qed.

Lemma Document_save_dom fuel db D db' D' :
  Document_save fuel db D = Ok (db', D') →
  dom (documents db) ⊆ dom (documents db').
Proof.
  intros (db1 & self1 & Hw & Hcase)%Document_save_Ok.
  apply Document_save_write_Ok in Hw as (_ & _ & _ & -> & _).
  cbn [documents set_documents] in Hcase.
  assert (dom (documents db)
          ⊆ dom (<[default (next_id (documents db)) (Document.id D) :=
                     document_of_row (default (next_id (documents db))
                                        (Document.id D)) self1]>
                   (propagated D (documents db)))) as Hsub.
  { rewrite dom_insert_L, dom_propagated. apply union_subseteq_r. }
  destruct Hcase as [(_ & -> & _)|(_ & _ & c & cur & t & sl & ct & _ & _ & _ & _
                                    & _ & -> & _)]; [done|].
  rewrite dom_insert_L. etrans; [exact Hsub|]. apply union_subseteq_r.
Qed.

Lemma Revision_save_dom fuel db R D db' R' D' :
  Revision_save fuel db R D = Ok (db', R', D') →
  dom (documents db) ⊆ dom (documents db').
Proof.
  intros Hok. unfold Revision_save in Hok.
  rewrite Revision_save_with_unfold in Hok.
  apply bind_Ok_inv in Hok as ([based_on is_clean] & _ & Hok).
  destruct is_clean; [|done]. cbn [negb] in Hok.
  apply bind_Ok_inv in Hok as ([db1 r1] & Hm & Hok).
  apply Model_save_revision_Ok in Hm as (d & Hd & Hr1 & Hdb1).
  assert (documents db1 = documents db) as Hdocs by (by rewrite Hdb1).
  apply bind_Ok_inv in Hok as (newer & _ & Hok).
  destruct newer as [cur|].
  - apply bind_Ok_inv in Hok as ([db2 d2] & Hs & Hok).
    injection Hok as <- <- <-. apply Document_save_dom in Hs.
    by rewrite (proj1 (new_contributors_tables db1 D cur)), Hdocs in Hs.
  - apply bind_Ok_inv in Hok as (localizable & _ & Hok).
    destruct localizable.
    + apply bind_Ok_inv in Hok as ([db2 d2] & Hs & Hok).
      injection Hok as <- <- <-. apply Document_save_dom in Hs.
      by rewrite Hdocs in Hs.
    + injection Hok as <- <- <-. by rewrite Hdocs.
Qed.

(** Round trip of [Revision.save] and [user_documents]: after a revision
    of a stored document is saved, approved or not, the document is among
    the documents its creator has contributed to. *)
Theorem saved_revision_counts_for_creator fuel db R D db' R' D' d :
  Document.id D = Some d →
  is_Some (documents db !! d) →
  Revision_save fuel db R D = Ok (db', R', D') →
  (∃ doc, doc ∈ user_documents db' (Revision.creator R)
          ∧ Document.id doc = Some d)
  ∧ (0 < user_num_documents db' (Revision.creator R))%nat.
Proof.
  intros Hd Hstored Hok.
  pose proof (Revision_save_dom _ _ _ _ _ _ _ Hok) as Hdom.
  apply Revision_save_stored in Hok
    as (rid & d' & Hrid & Hd' & HR' & Hrow & _).
  rewrite Hd in Hd'. injection Hd' as <-.
  assert (is_Some (documents db' !! d)) as [row Hdrow].
  { apply elem_of_dom, Hdom, elem_of_dom, Hstored. }
  assert (document_of_row d row ∈ user_documents db' (Revision.creator R))
    as Hin.
  { apply elem_of_user_documents. exists d, row, rid, R'.
    split_and!; try done; rewrite HR'; by destruct R. }
  split.
  - exists (document_of_row d row). split; [done|apply document_of_row_id].
  - unfold user_num_documents.
    destruct (user_documents db' (Revision.creator R)); [|simpl; lia].
    by apply elem_of_nil in Hin.
Qed.

(** ** What links here *)

Lemma add_link_to_other k lnks link from to :
  from ≠ k →
  Document_add_link_to k lnks link !! (from, to) = lnks !! (from, to).
Proof.
  intros Hne. unfold Document_add_link_to.
  destruct (lnks !! (k, link.1)); [done|].
  rewrite lookup_insert_ne; [done|]. congruence.
Qed.

Lemma foldl_add_link_to_other k found lnks from to :
  from ≠ k →
  foldl (Document_add_link_to k) lnks found !! (from, to) = lnks !! (from, to).
Proof.
  intros Hne. revert lnks.
  induction found as [|link found IH]; intros lnks; [done|]. simpl.
  by rewrite IH, add_link_to_other.
Qed.

Lemma foldl_add_link_to_kept k found lnks to kind :
  lnks !! (k, to) = Some kind →
  foldl (Document_add_link_to k) lnks found !! (k, to) = Some kind.
Proof.
  revert lnks. induction found as [|link found IH]; intros lnks Hl; [done|].
  simpl. apply IH. unfold Document_add_link_to.
  destruct (lnks !! (k, link.1)) eqn:Hk; [done|].
  rewrite lookup_insert_ne; [done|]. intros [= Heq]. congruence.
Qed.

Lemma foldl_add_link_to_first k found lnks to :
  lnks !! (k, to) = None →
  foldl (Document_add_link_to k) lnks found !! (k, to)
  = (λ x, x.2.2) <$> list_find (λ link, link.1 = to) found.
Proof.
  revert lnks. induction found as [|link found IH]; intros lnks Hl; [done|].
  simpl. unfold Document_add_link_to at 2.
  destruct (decide (link.1 = to)) as [Heq|Hne].
  - rewrite Heq, Hl. simpl.
    by apply foldl_add_link_to_kept, lookup_insert_eq.
  - rewrite IH.
    + destruct (list_find _ found) as [[i x]|]; done.
    + destruct (lnks !! (k, link.1)); [done|].
      rewrite lookup_insert_ne; [done|]. congruence.
Qed.

(** What [parse_and_calculate_links] leaves in the link table of a
    stored document with a current revision: the links out of other
    documents are untouched; the links out of the document are replaced
    by the ones the parser reports, one per target, the first kind
    reported for a target winning over later ones; stale links to targets
    the parser no longer reports are gone.  A document without a current
    revision keeps whatever links it had. *)
Theorem links_are_recomputed db D db' :
  Document_parse_and_calculate_links db D = Ok db' →
  (Document.current_revision D = None → db' = db)
  ∧ ∀ k c, Document.id D = Some k → Document.current_revision D = Some c →
      ∃ row, revisions db !! c = Some row
        ∧ (∀ from to, from ≠ k →
             links db' !! (from, to) = links db !! (from, to))
        ∧ ∀ to, links db' !! (k, to)
                = (λ x, x.2.2)
                  <$> list_find (λ link, link.1 = to)
                        (what_links_here db (Revision.content row)
                           (Document.locale D) (Some k)).
Proof.
  unfold Document_parse_and_calculate_links. intros Hok. split.
  - intros Hnone. rewrite Hnone in Hok. simpl in Hok. congruence.
  - intros k c Hk Hc. rewrite Hc, Hk in Hok.
    apply bind_Ok_inv in Hok as (cur & Hcur & Hok).
    apply fk_revision_Ok in Hcur as (row & Hrow & ->).
    injection Hok as <-. exists row. split; [done|].
    cbn [links set_links]. split.
    + intros from to Hne. rewrite foldl_add_link_to_other by done.
      destruct (links db !! (from, to)) as [kind|] eqn:Hl.
      * by apply map_lookup_filter_Some_2.
      * apply map_lookup_filter_None. by left.
    + intros to.
      replace (Revision.content (revision_of_row c row))
        with (Revision.content row) by (by destruct row).
      apply foldl_add_link_to_first.
      apply map_lookup_filter_None. right. intros kind _ Hne. by apply Hne.
Qed.



(** ** Old addresses after a rename *)

Lemma Document_from_url_direct db url required_locale check_host l path s j row :
  unique_documents (documents db) →
  _doc_components_from_url url required_locale check_host
  = doc_components l path s →
  documents db !! j = Some row →
  Document.locale row = l → Document.slug row = s →
  Document_from_url db url required_locale check_host
  = Returns (Some (document_of_row j row)).
Proof.
  intros Huniq Hcomp Hj Hl Hs. unfold Document_from_url. rewrite Hcomp.
  pose proof (get_by_slug db l s Huniq) as Hfirst.
  destruct (queryset_get _) as [d| |]; [| |done].
  - destruct Hfirst as (j' & row' & Hj' & -> & Hl' & Hs').
    destruct (decide (j' = j)) as [->|Hne].
    + rewrite Hj in Hj'. by injection Hj' as <-.
    + exfalso. destruct (Huniq j' j row' row Hj' Hj Hne) as (_ & Hslug & _);
        congruence.
  - by destruct (Hfirst j row Hj).
Qed.

(** The address a document had before its slug changed keeps working.
    On a wiki with unique slugs, titles and parents per locale, after a
    stored document with a current revision is saved under a new slug,
    [from_url] on a URL of the document's locale and its old slug returns
    a stored document of that locale and slug which is not the renamed
    document: the redirect that [save] created, whose [html] is the
    rendering of [REDIRECT_CONTENT] filled with the document's title. *)
Theorem old_url_resolves_to_redirect fuel db D db' D' k c old url
    required_locale check_host path :
  unique_documents (documents db) →
  Document.id D = Some k →
  Document.current_revision D = Some c →
  Document.old_slug D = Some old →
  Document_save fuel db D = Ok (db', D') →
  _doc_components_from_url url required_locale check_host
  = doc_components (Document.locale D) path old →
  ∃ r content,
    Document_from_url db' url required_locale check_host = Returns (Some r)
    ∧ Document.locale r = Document.locale D
    ∧ Document.slug r = old
    ∧ Document.id r ≠ Some k
    ∧ format_str REDIRECT_CONTENT (Document.title D) = Ok content
    ∧ Document.html r
      = wiki_to_html content (Document.locale D) (Document.id r).
Proof.
  intros Huniq Hk Hc Hold Hsave Hcomp.
  pose proof (Document_save_unique_documents _ _ _ _ _ Huniq Hsave) as Huniq'.
  destruct (Document_save_Ok _ _ _ _ _ Hsave) as (db1 & self1 & Hw & Hcase).
  pose proof (Document_save_write_fields _ _ _ _ Hw)
    as (Hid1 & _ & _ & _ & _ & _ & _ & _ & Hos & _).
  destruct Hcase as [(_ & _ & _ & [Hnone|Hnp])
                    |(_ & _ & c' & cur & title & slug & content & _ & _ & _
                      & Hslug & Hcontent & Hdocs & _)].
  { congruence. }
  { unfold pending_rename in Hnp. rewrite Hold in Hnp.
    by rewrite bool_decide_eq_true_2 in Hnp by eauto. }
  unfold Document__attr_for_redirect in Hslug.
  change (old_attr self1 attr_slug) with (Document.old_slug self1) in Hslug.
  rewrite Hos, Hold in Hslug. injection Hslug as <-.
  set (cid := next_id (documents db1)) in *.
  set (row := redirect_document cid (next_id (revisions db1))
                (Document.locale D) title old content
                (Document.category self1)) in *.
  assert (documents db' !! cid = Some row) as Hrow.
  { rewrite Hdocs. apply lookup_insert_eq. }
  exists (document_of_row cid row), content.
  split; [|split_and!; try done].
  - by apply (Document_from_url_direct db' url required_locale check_host
                (Document.locale D) path old cid row).
  - simpl. intros [= Heq].
    assert (is_Some (documents db1 !! k)) as [x Hx].
    { apply Document_save_write_Ok in Hw as (_ & _ & _ & -> & _).
      rewrite Hk. cbn [default documents set_documents].
      rewrite lookup_insert_eq. eauto. }
    pose proof (next_id_fresh (documents db1)) as Hfresh.
    fold cid in Hfresh. rewrite Heq, Hx in Hfresh. done.
Qed.


(** ** Translations and originals *)

(** [translated_to] and [original] are inverse to each other: a document
    that [translated_to] returns is stored, is of the requested locale and
    has the asked document as its [original]; [translated_to] is refused
    with [NotImplementedError] on every document outside the default
    language, and an instance that was never saved has no translation. *)
Theorem translated_to_original db D l :
  (Document.locale D ≠ WIKI_DEFAULT_LANGUAGE →
   Document_translated_to db D l = Throws NotImplementedError)
  ∧ (Document.locale D = WIKI_DEFAULT_LANGUAGE → Document.id D = None →
     Document_translated_to db D l = Returns None)
  ∧ ∀ t, Document_translated_to db D l = Returns (Some t) →
      Document.locale t = l
      ∧ ∃ k j row, Document.id D = Some k
          ∧ documents db !! j = Some row ∧ t = document_of_row j row
          ∧ Document.parent t = Some k
          ∧ ∀ Drow, documents db !! k = Some Drow →
              Document_original db t = Ok (document_of_row k Drow).
Proof.
  unfold Document_translated_to. split; [|split].
  - intros Hne. by rewrite bool_decide_eq_true_2.
  - intros Hl Hid. rewrite bool_decide_eq_false_2 by (intros Hne; by apply Hne).
    by rewrite Hid.
  - intros t. destruct (bool_decide _); [done|].
    destruct (Document.id D) as [k|] eqn:Hid; [|done].
    rewrite translated_to_filter.
    destruct (queryset_get _) as [d| |] eqn:Hget; try done.
    intros [= ->].
    assert (t ∈ filter (λ d, Document.parent d = Some k
                             ∧ Document.locale d = l) (all_documents db))
      as Hin.
    { destruct (filter _ _) as [|d1 [|d2 rest]]; simpl in Hget; try done.
      injection Hget as ->. left. }
    apply list_elem_of_filter in Hin as [[Hp Hl] Hin].
    apply elem_of_all_documents in Hin as (j & row & Hj & ->).
    split; [done|]. exists k, j, row. split_and!; try done.
    intros Drow Hk. unfold Document_original. rewrite Hp. simpl.
    unfold get_document. by rewrite Hk.
Qed.

End LookupProperties.

(** * The properties on the sample wiki *)

(** The sample wiki keeps titles, slugs and parents unique within a
    locale. *)
Lemma sample_db_unique : unique_documents (documents Sample.db).
Proof.
  intros i j a b Hi Hj Hne Hloc.
  apply elem_of_map_to_list in Hi, Hj.
  set (l := map_to_list (documents Sample.db)) in Hi, Hj.
  vm_compute in l. subst l.
  apply elem_of_cons in Hi as [[= -> ->]|Hi];
    [|apply elem_of_cons in Hi as [[= -> ->]|Hi]; [|by apply elem_of_nil in Hi]];
  (apply elem_of_cons in Hj as [[= -> ->]|Hj];
    [|apply elem_of_cons in Hj as [[= -> ->]|Hj]; [|by apply elem_of_nil in Hj]]);
  done.
Qed.

Lemma is_outdated_iff_witness :
  resolves (documents Sample.db) (Document.parent Sample.B)
  ∧ resolves (revisions Sample.db) (Document.current_revision Sample.B)
  ∧ Document_is_outdated Sample.db Sample.B 20 = Ok true
  ∧ Document_is_majorly_outdated (H:=Sample.settings) Sample.db Sample.B
    = Ok true.
Proof.
  assert (resolves (documents Sample.db) (Document.parent Sample.B)) as Hp
    by resolve_fk.
  assert (resolves (revisions Sample.db)
            (Document.current_revision Sample.B)) as Hc by resolve_fk.
  split; [exact Hp|]. split; [exact Hc|].
  assert (∀ L, (L ≤ 30)%Z → Document_is_outdated Sample.db Sample.B L = Ok true)
    as Hout.
  { intros L HL.
    destruct (is_outdated_iff (H:=Sample.settings) Sample.db Sample.B L Hp Hc)
      as (_ & b & -> & _ & Hiff).
    f_equal. apply (Hiff 1%positive 2%positive Sample.R2); [reflexivity..|].
    exists 3%positive, Sample.R3. split_and!; [reflexivity..| |].
    - exists 30%Z. by split.
    - by intros b' [= <-]. }
  split; [by apply Hout|].
  destruct (is_outdated_iff (H:=Sample.settings) Sample.db Sample.B 20 Hp Hc)
    as (-> & _).
  by apply Hout.
Defined.

Lemma localizable_or_latest_revision_resolution_witness :
  resolves (revisions Sample.db)
    (Document.latest_localizable_revision Sample.A)
  ∧ ∃ res, Document_localizable_or_latest_revision Sample.db Sample.A false
           = Ok res
      ∧ resolution_order Sample.db Sample.A false res.
Proof.
  assert (resolves (revisions Sample.db)
            (Document.latest_localizable_revision Sample.A)) as Hl
    by resolve_fk.
  split; [exact Hl|].
  exact (localizable_or_latest_revision_resolution Sample.db Sample.A false Hl).
Defined.


Lemma approved_revision_becomes_current_witness :
  Revision.is_approved Sample.R4 = true
  ∧ ∃ db' R' D',
      Revision_save (H:=Sample.settings) 3 Sample.db Sample.R4 Sample.A
      = Ok (db', R', D')
      ∧ Revision.id R' = Some 4%positive
      ∧ Document.current_revision D' = Some 4%positive
      ∧ Document.html D' = "<p>four</p>"
      ∧ documents db' !! 1%positive = Some (document_of_row 1%positive D').
Proof.
  split; [reflexivity|].
  destruct (Revision_save (H:=Sample.settings) 3 Sample.db Sample.R4 Sample.A)
    as [[[db' R'] D']| |] eqn:Hs; [|vm_compute in Hs; discriminate..].
  exists db', R', D'. split; [reflexivity|].
  destruct (approved_revision_becomes_current (H:=Sample.settings) 3 Sample.db
              Sample.R4 Sample.A db' R' D' eq_refl Hs)
    as (rid & d & Hrid & Hrid' & Hd & Hnewer & _).
  assert (rid = 4%positive) as -> by (rewrite Hrid'; reflexivity).
  assert (d = 1%positive) as -> by (by injection Hd).
  destruct Hnewer as (Hc & Hh & _ & Hrow).
  { right. exists 3%positive. split; [reflexivity|lia]. }
  split; [exact Hrid|]. split; [exact Hc|]. split; [exact Hh|]. exact Hrow.
Defined.


Lemma save_keeps_inherited_attrs_witness :
  ∃ db' B',
    Document_save (H:=Sample.settings) 3 Sample.db
      (Document.set_is_archived true Sample.B) = Ok (db', B')
    ∧ Document.is_archived B' = false
    ∧ ∃ Drow Prow,
        documents db' !! 2%positive = Some Drow
        ∧ documents db' !! 1%positive = Some Prow
        ∧ Document.category Drow = Document.category Prow
        ∧ Document.is_archived Drow = Document.is_archived Prow.
Proof.
  destruct (Document_save (H:=Sample.settings) 3 Sample.db
              (Document.set_is_archived true Sample.B))
    as [[db' B']| |] eqn:Hs; [|vm_compute in Hs; discriminate..].
  exists db', B'. split; [reflexivity|].
  destruct (save_keeps_inherited_attrs (H:=Sample.settings) _ _ _ _ _ Hs)
    as [Htr _].
  destruct (Htr 1%positive eq_refl)
    as (k & Drow & Prow & Hk & HD & HP & Hc & Ha & _ & Ha').
  assert (k = 2%positive) as ->.
  { vm_compute in Hs. injection Hs as <- <-. by injection Hk. }
  split; [|by exists Drow, Prow].
  rewrite Ha'. vm_compute in Hs. injection Hs as <- <-.
  vm_compute in HP. by injection HP as <-.
Defined.

Lemma based_on_validation_witness :
  Document_original Sample.db Sample.B = Ok Sample.A
  ∧ Revision_clean (H:=Sample.settings) Sample.db Sample.R5 (Some Sample.B)
    = (Revision.set_based_on (Some 3%positive) Sample.R5,
       Raise ValidationError)
  ∧ Revision_save (H:=Sample.settings) 3 Sample.db Sample.R5 Sample.B
    = Raise ProgrammingError.
Proof.
  assert (Document_original Sample.db Sample.B = Ok Sample.A) as Horig
    by reflexivity.
  split; [exact Horig|].
  destruct (based_on_validation (H:=Sample.settings) Sample.db Sample.R5
              Sample.B Sample.A Horig) as [Hbad _].
  destruct (Hbad 2%positive Sample.R2 2%positive)
    as (corrected & Hcorr & _ & Hclean & Hsave);
    [reflexivity|reflexivity|reflexivity|vm_compute; eauto|discriminate
    |resolve_fk|].
  vm_compute in Hcorr. injection Hcorr as <-.
  split; [exact Hclean|exact (Hsave 3%nat)].
Defined.

Lemma setattr_tracks_renames_witness :
  Document.id Sample.A = Some 1%positive
  ∧ Document.old_title
      (Document___setattr__ (H:=Sample.unicode) Sample.A attr_title "FOO")
    = None
  ∧ Document.old_title
      (Document___setattr__ (H:=Sample.unicode) Sample.E attr_title "école")
    = None
  ∧ Document.old_title
      (Document___setattr__ (H:=Sample.unicode) Sample.A attr_title "Bar")
    = Some "Foo"
  ∧ Document___setattr__ (H:=Sample.unicode)
      (Document___setattr__ (H:=Sample.unicode) Sample.A attr_title "Bar")
      attr_title "Foo" = Sample.A.
Proof.
  split; [reflexivity|].
  destruct (setattr_tracks_renames (H:=Sample.settings) (H0:=Sample.unicode)
              Sample.A attr_title 1%positive eq_refl)
    as (Hcase & _ & Hrevert).
  destruct (setattr_tracks_renames (H:=Sample.settings) (H0:=Sample.unicode)
              Sample.E attr_title 4%positive eq_refl) as (Hcase' & _).
  split; [|split; [|split; [reflexivity|]]].
  - exact (Hcase "FOO" eq_refl eq_refl attr_title).
  - exact (Hcase' "école" eq_refl eq_refl attr_title).
  - exact (proj1 (Hrevert "Bar" eq_refl)).
Defined.

Lemma save_unchanged_never_collides_witness :
  Document.id Sample.A = Some 1%positive
  ∧ Document.old_slug Sample.A = None
  ∧ Document.old_title Sample.A = None
  ∧ Document__collides Sample.db Sample.A attr_slug "foo" = true
  ∧ Document_save (H:=Sample.settings) 3 Sample.db Sample.A
    ≠ Raise SlugCollision.
Proof.
  split; [reflexivity|]. split; [reflexivity|]. split; [reflexivity|].
  destruct (save_unchanged_never_collides (H:=Sample.settings) 3 Sample.db
              Sample.A 1%positive eq_refl eq_refl eq_refl)
    as (Hs & _ & _ & Hown).
  split; [|exact Hs].
  exact (Hown attr_slug Sample.A eq_refl eq_refl eq_refl).
Defined.


Lemma rename_creates_redirect_witness :
  Document.id Sample.A_renamed = Some 1%positive
  ∧ Document.current_revision Sample.A_renamed = Some 3%positive
  ∧ pending_rename Sample.A_renamed = true
  ∧ ∃ db' D',
      Document_save (H:=Sample.settings) 3 Sample.db Sample.A_renamed
      = Ok (db', D')
      ∧ dom (documents db') = {[1%positive; 2%positive; 3%positive]}
      ∧ Document.old_title D' = None
      ∧ ∃ cid rid,
          revisions db'
          = <[rid := redirect_revision rid cid "REDIRECT [[Bar]]" 9%positive]>
              (revisions Sample.db).
Proof.
  split; [reflexivity|]. split; [reflexivity|]. split; [reflexivity|].
  destruct (Document_save (H:=Sample.settings) 3 Sample.db Sample.A_renamed)
    as [[db' D']| |] eqn:Hs; [|vm_compute in Hs; discriminate..].
  exists db', D'. split; [reflexivity|].
  destruct (rename_creates_redirect (H:=Sample.settings) 3 Sample.db
              Sample.A_renamed 1%positive 3%positive db' D'
              eq_refl eq_refl eq_refl Hs)
    as (cur & cid & rid & title & slug & content & Hcur & Hcontent & _ & _
        & _ & Hcid & _ & _ & _ & _ & Hrevs & _ & Hot & _).
  vm_compute in Hcur. injection Hcur as <-.
  vm_compute in Hcontent. injection Hcontent as <-.
  split; [|split; [exact Hot|by exists cid, rid]].
  vm_compute in Hs. injection Hs as <- <-. by vm_compute.
Defined.

(** C2 as the claim words it fails when the title is what changed: the
    redirect's revision encodes the title D is saved with, "Bar", not the
    original title "Foo". *)
Lemma rename_redirect_encodes_new_title :
  Document.old_title Sample.A_renamed = Some "Foo"
  ∧ Document.title Sample.A_renamed = "Bar"
  ∧ ∃ rev,
      revisions
        (Sample.db_of
           (Document_save (H:=Sample.settings) 3 Sample.db Sample.A_renamed))
      !! 4%positive = Some rev
      ∧ Revision.document_id rev = Some 3%positive
      ∧ Ok (Revision.content rev)
        = format_str (REDIRECT_CONTENT (Settings:=Sample.settings)) "Bar"
      ∧ Ok (Revision.content rev)
        ≠ format_str (REDIRECT_CONTENT (Settings:=Sample.settings)) "Foo".
Proof.
  split; [reflexivity|]. split; [reflexivity|].
  eexists. split; [vm_compute; reflexivity|].
  split; [reflexivity|]. split; [reflexivity|]. by vm_compute.
Qed.


(** ** Collisions, checks and stores *)

Lemma save_slug_collision_witness :
  Document.id Sample.draft = None
  ∧ documents Sample.db !! 1%positive = Some Sample.A
  ∧ Document_save (H:=Sample.settings) 1 Sample.db Sample.draft
    = Raise SlugCollision.
Proof.
  split; [reflexivity|]. split; [reflexivity|].
  exact (save_slug_collision (H:=Sample.settings) 0 Sample.db Sample.draft
           1%positive Sample.A (or_introl eq_refl) eq_refl eq_refl eq_refl).
Defined.

Lemma save_title_collision_witness :
  let D := new_document "en-US" "Foo" "foo-again" 10 true in
  Document__raise_if_collides Sample.db D attr_slug SlugCollision = Ok ()
  ∧ Document_save (H:=Sample.settings) 1 Sample.db D = Raise TitleCollision.
Proof.
  intros D.
  assert (Document__raise_if_collides Sample.db D attr_slug SlugCollision
          = Ok ()) as Hslug by (by vm_compute).
  split; [exact Hslug|].
  exact (save_title_collision (H:=Sample.settings) 0 Sample.db D 1%positive
           Sample.A (or_introl eq_refl) Hslug eq_refl eq_refl eq_refl).
Defined.

Lemma save_twice_without_revision_collides_witness :
  let D := Document.mk (Some 1%positive) "Baz" "baz" false true "en-US"
             None None None "" 10 false (Some "bar") None in
  ∃ db' D',
    Document_save (H:=Sample.settings) 2 Sample.empty D = Ok (db', D')
    ∧ Document.old_slug D' = Some "bar"
    ∧ Document_save (H:=Sample.settings) 2 db' D' = Raise SlugCollision.
Proof.
  intros D.
  destruct (Document_save (H:=Sample.settings) 2 Sample.empty D)
    as [[db' D']| |] eqn:Hs; [|vm_compute in Hs; discriminate..].
  exists db', D'. split; [reflexivity|].
  exact (save_twice_without_revision_collides (H:=Sample.settings) 2 1
           Sample.empty D 1%positive "bar" db' D' eq_refl eq_refl eq_refl Hs).
Defined.

Lemma save_normalises_witness :
  let D := Document.set_is_template true
             (new_document "de" "Vorlage" "vorlage" 10 true) in
  ∃ db' D',
    Document_save (H:=Sample.settings) 1 Sample.empty D = Ok (db', D')
    ∧ Document.is_template D' = false
    ∧ Document.is_localizable D' = false
    ∧ Document.category D' = 10%Z.
Proof.
  intros D.
  destruct (Document_save (H:=Sample.settings) 1 Sample.empty D)
    as [[db' D']| |] eqn:Hs; [|vm_compute in Hs; discriminate..].
  exists db', D'. split; [reflexivity|].
  destruct (save_normalises (H:=Sample.settings) 1 Sample.empty D db' D' Hs)
    as (Ht & Hl & _ & Hc & _).
  split; [exact Ht|]. split; [by apply Hl|]. exact (proj1 (Hc eq_refl)).
Defined.

Lemma save_parent_not_localizable_witness :
  let D := Document.mk (Some 9%positive) "Fou" "fou" false false "fr"
             None None (Some 2%positive) "" 10 false None None in
  documents Sample.db !! 2%positive = Some Sample.B
  ∧ Document.is_localizable Sample.B = false
  ∧ Document_save (H:=Sample.settings) 1 Sample.db D = Raise ValidationError.
Proof.
  intros D. split; [reflexivity|]. split; [reflexivity|].
  exact (save_parent_not_localizable (H:=Sample.settings) 0 Sample.db D
           9%positive 2%positive Sample.B eq_refl eq_refl eq_refl eq_refl
           eq_refl eq_refl).
Defined.

Lemma save_has_translations_witness :
  documents Sample.db !! 2%positive = Some Sample.B
  ∧ Document.parent Sample.B = Some 1%positive
  ∧ Document_save (H:=Sample.settings) 1 Sample.db
      (Document.set_is_localizable false Sample.A) = Raise ValidationError.
Proof.
  split; [reflexivity|]. split; [reflexivity|].
  exact (save_has_translations (H:=Sample.settings) 0 Sample.db
           (Document.set_is_localizable false Sample.A) 1%positive 2%positive
           Sample.B eq_refl eq_refl eq_refl eq_refl (or_introl eq_refl)
           eq_refl eq_refl).
Defined.

Lemma save_keeps_documents_unique_witness :
  unique_documents (documents Sample.db)
  ∧ ∃ db' D',
      Document_save (H:=Sample.settings) 3 Sample.db Sample.A_renamed
      = Ok (db', D')
      ∧ size (documents db') = 3%nat
      ∧ (∃ redirect, documents db' !! 3%positive = Some redirect
           ∧ Document.locale redirect = Document.locale D'
           ∧ Document.title redirect = "Foo"
           ∧ Document.slug redirect = "foo-redirect-1")
      ∧ Document.title D' = "Bar"
      ∧ Document.slug D' = "foo"
      ∧ unique_documents (documents db').
Proof.
  split; [exact sample_db_unique|].
  destruct (Document_save (H:=Sample.settings) 3 Sample.db Sample.A_renamed)
    as [[db' D']| |] eqn:Hs; [|vm_compute in Hs; discriminate..].
  exists db', D'. split; [reflexivity|].
  pose proof (save_keeps_documents_unique (H:=Sample.settings) 3 Sample.db
                Sample.A_renamed db' D' sample_db_unique Hs) as Hunique.
  split; [|split; [|split; [|split; [|exact Hunique]]]]; clear Hunique;
    vm_compute in Hs; injection Hs as <- <-.
  - reflexivity.
  - eexists. split; [reflexivity|]. by vm_compute.
  - reflexivity.
  - reflexivity.
Defined.

Lemma save_unapproved_revision_witness :
  let R := new_revision (Some 1%positive) "draft" false 7%positive 7%positive in
  Revision__based_on_is_clean Sample.db R Sample.A = Ok (None, true)
  ∧ ∃ db' R',
      Revision_save (H:=Sample.settings) 0 Sample.db R Sample.A
      = Ok (db', R', Sample.A)
      ∧ Revision.id R' = Some 4%positive
      ∧ revisions Sample.db !! 4%positive = None.
Proof.
  intros R.
  assert (Revision__based_on_is_clean Sample.db R Sample.A = Ok (None, true))
    as Hclean by reflexivity.
  split; [exact Hclean|].
  destruct (save_unapproved_revision (H:=Sample.settings) 0 Sample.db R
              Sample.A 1%positive None eq_refl eq_refl eq_refl Hclean)
    as [Hsave Hfresh].
  eexists _, _. split; [exact Hsave|]. split; [reflexivity|].
  exact (Hfresh eq_refl).
Defined.

Lemma save_revision_stores_witness :
  ∃ db' R' D',
    Revision_save (H:=Sample.settings) 3 Sample.db Sample.R4 Sample.A
    = Ok (db', R', D')
    ∧ ∃ rid, Revision.id R' = Some rid
        ∧ revisions db' !! rid = Some R'
        ∧ revisions db' !! 3%positive = Some Sample.R3.
Proof.
  destruct (Revision_save (H:=Sample.settings) 3 Sample.db Sample.R4 Sample.A)
    as [[[db' R'] D']| |] eqn:Hs; [|vm_compute in Hs; discriminate..].
  exists db', R', D'. split; [reflexivity|].
  destruct (save_revision_stores (H:=Sample.settings) 3 Sample.db Sample.R4
              Sample.A db' R' D' Hs)
    as (rid & d & Hrid & _ & HR' & Hrow & _ & Hkeep).
  exists rid. split; [exact Hrid|]. split; [exact Hrow|].
  apply Hkeep; [|reflexivity].
  clear Hrow HR' Hkeep. vm_compute in Hs. injection Hs as _ <- _.
  injection Hrid as <-. discriminate.
Defined.

(** ** Contributors, cleaning and deleting *)


Lemma approved_revision_adds_contributor_witness :
  Revision.is_approved Sample.R4 = true
  ∧ contributors Sample.db = ∅
  ∧ ∃ db' R' D',
      Revision_save (H:=Sample.settings) 3 Sample.db Sample.R4 Sample.A
      = Ok (db', R', D')
      ∧ (1%positive, 9%positive) ∈ contributors db'.
Proof.
  split; [reflexivity|]. split; [reflexivity|].
  destruct (Revision_save (H:=Sample.settings) 3 Sample.db Sample.R4 Sample.A)
    as [[[db' R'] D']| |] eqn:Hs; [|vm_compute in Hs; discriminate..].
  exists db', R', D'. split; [reflexivity|].
  apply (approved_revision_adds_contributor (H:=Sample.settings) 3 Sample.db
           Sample.R4 Sample.A db' R' D' 1%positive eq_refl eq_refl); [|exact Hs].
  right. exists 3%positive. split; [reflexivity|]. vm_compute. reflexivity.
Defined.

Lemma clean_polices_readiness_witness :
  Revision_clean (H:=Sample.settings) Sample.db Sample.R1 (Some Sample.A)
  = (Sample.R1, Ok ())
  ∧ Revision.is_ready_for_localization Sample.R1 = true
  ∧ Revision.is_approved Sample.R1 = true
  ∧ (∃ s, Revision.significance Sample.R1 = Some s ∧ (10 < s)%Z)
  ∧ Document.locale Sample.A = "en-US".
Proof.
  assert (Revision_clean (H:=Sample.settings) Sample.db Sample.R1
            (Some Sample.A) = (Sample.R1, Ok ())) as Hclean by reflexivity.
  split; [exact Hclean|]. split; [reflexivity|].
  exact (clean_polices_readiness (H:=Sample.settings) Sample.db Sample.R1
           Sample.A Sample.R1 Hclean eq_refl).
Defined.

Lemma clean_without_document_witness :
  let orphan := Document.mk (Some 2%positive) "Fuh" "fuh" false false "de"
                  (Some 2%positive) None (Some 99%positive) "<p>zwei</p>" 10
                  false None None in
  Document_original Sample.db orphan = Raise DoesNotExist
  ∧ Revision.based_on
      (Revision_clean (H:=Sample.settings) Sample.db Sample.R5 (Some orphan)).1
    = None
  ∧ (Revision_clean (H:=Sample.settings) Sample.db Sample.R5 (Some orphan)).2
    = Ok ()
  ∧ (Revision_clean (H:=Sample.settings) Sample.db Sample.R5 None).2
    ≠ Raise ValidationError.
Proof.
  intros orphan.
  assert (Document_original Sample.db orphan = Raise DoesNotExist) as Horig
    by reflexivity.
  split; [exact Horig|].
  destruct (clean_without_document (H:=Sample.settings) Sample.db Sample.R5
              orphan) as (_ & Hnone & Horphan).
  destruct (Horphan Horig) as [Hb Hok].
  split; [exact Hb|]. split; [exact Hok|exact Hnone].
Defined.

Lemma delete_leaves_no_reference_witness :
  Revision.id Sample.R3 = Some 3%positive
  ∧ documents Sample.db !! 1%positive = Some Sample.A
  ∧ ∃ db' D',
      Revision_delete (H:=Sample.settings) Sample.db Sample.R3 Sample.A
      = Ok (db', D')
      ∧ revisions db' !! 3%positive = None
      ∧ Document.current_revision D' ≠ Some 3%positive
      ∧ Document.latest_localizable_revision D' ≠ Some 3%positive.
Proof.
  split; [reflexivity|]. split; [reflexivity|].
  destruct (Revision_delete (H:=Sample.settings) Sample.db Sample.R3 Sample.A)
    as [[db' D']| |] eqn:Hd; [|vm_compute in Hd; discriminate..].
  exists db', D'. split; [reflexivity|].
  destruct (delete_leaves_no_reference (H:=Sample.settings) Sample.db
              Sample.R3 Sample.A 3%positive 1%positive Sample.A db' D'
              eq_refl eq_refl eq_refl eq_refl eq_refl Hd)
    as (Hgone & _ & Hc & Hl & _).
  split; [exact Hgone|]. split; [exact Hc|exact Hl].
Defined.

Lemma is_outdated_lower_level_witness :
  Document_is_majorly_outdated (H:=Sample.settings) Sample.db Sample.B
  = Ok true
  ∧ Document_is_outdated Sample.db Sample.B 20 = Ok true
  ∧ Document_is_outdated Sample.db Sample.B 0 = Ok true.
Proof.
  assert (Document_is_majorly_outdated (H:=Sample.settings) Sample.db Sample.B
          = Ok true) as Hmajor by (by vm_compute).
  split; [exact Hmajor|].
  destruct (is_outdated_lower_level (H:=Sample.settings) Sample.db Sample.B)
    as [Hmono Hmedium].
  split.
  - apply Hmedium; [by vm_compute|exact Hmajor].
  - apply (Hmono 30%Z 0%Z); [lia|exact Hmajor].
Defined.

Lemma localizable_or_latest_fallback_witness :
  Document.latest_localizable_revision Sample.B = None
  ∧ resolves (revisions Sample.db)
      (Document.latest_localizable_revision Sample.B)
  ∧ ∃ r, Document_localizable_or_latest_revision Sample.db Sample.B false
         = Ok (Some r)
      ∧ r ∈ revisions_of Sample.db (Document.id Sample.B)
      ∧ ¬ rejected r
      ∧ Document_localizable_or_latest_revision Sample.db Sample.B true
        = Ok (Some r).
Proof.
  split; [reflexivity|].
  assert (resolves (revisions Sample.db)
            (Document.latest_localizable_revision Sample.B)) as Hres
    by resolve_fk.
  split; [exact Hres|].
  destruct (Document_localizable_or_latest_revision Sample.db Sample.B false)
    as [[r|]| |] eqn:Hr; [|vm_compute in Hr; discriminate..].
  exists r. split; [reflexivity|].
  destruct (localizable_or_latest_fallback Sample.db Sample.B false
              (or_introl eq_refl) Hres) as [Hsome _].
  destruct (Hsome r Hr) as (Hin & Hrej & Hsame).
  split; [exact Hin|]. split; [exact (Hrej eq_refl)|exact (Hsame eq_refl)].
Defined.

Lemma setattr_twice_witness :
  Document.id Sample.A = Some 1%positive
  ∧ Document.old_slug
      (Document___setattr__ (H:=Sample.unicode)
         (Document___setattr__ (H:=Sample.unicode) Sample.A attr_slug "bar")
         attr_slug "baz") = Some "foo"
  ∧ Document.old_slug
      (Document___setattr__ (H:=Sample.unicode)
         (Document___setattr__ (H:=Sample.unicode) Sample.A attr_slug "FOO")
         attr_slug "bar") = Some "FOO"
  ∧ Document.old_title
      (Document___setattr__ (H:=Sample.unicode)
         (Document___setattr__ (H:=Sample.unicode) Sample.E attr_title
            "école")
         attr_title "Zed") = Some "école"
  ∧ Document.old_slug
      (Document___setattr__ (H:=Sample.unicode)
         (Document___setattr__ (H:=Sample.unicode) Sample.draft attr_slug
            "bar")
         attr_slug "baz") = None.
Proof.
  split; [reflexivity|].
  destruct (setattr_twice (H0:=Sample.unicode) Sample.A attr_slug "bar" "baz")
    as [Hstored _].
  destruct (Hstored 1%positive eq_refl eq_refl) as [Hreal _].
  split; [exact (Hreal ltac:(discriminate) ltac:(discriminate))|].
  destruct (setattr_twice (H0:=Sample.unicode) Sample.A attr_slug "FOO" "bar")
    as [Hstored' _].
  destruct (Hstored' 1%positive eq_refl eq_refl) as [_ Hcase].
  split; [exact (Hcase eq_refl ltac:(discriminate))|].
  destruct (setattr_twice (H0:=Sample.unicode) Sample.E attr_title "école"
              "Zed") as [Hstored'' _].
  destruct (Hstored'' 4%positive eq_refl eq_refl) as [_ Hcase'].
  split; [exact (Hcase' eq_refl ltac:(discriminate))|].
  destruct (setattr_twice (H0:=Sample.unicode) Sample.draft attr_slug "bar"
              "baz") as [_ Hnew].
  exact (Hnew eq_refl attr_slug).
Defined.

(** ** Termination *)

Lemma sample_redirect_templates_distinct :
  (∀ old i j w,
     format_named (REDIRECT_TITLE (Settings:=Sample.settings)) old i = Ok w →
     format_named (REDIRECT_TITLE (Settings:=Sample.settings)) old j = Ok w →
     i = j)
  ∧ (∀ old i j w,
       format_named (REDIRECT_SLUG (Settings:=Sample.settings)) old i = Ok w →
       format_named (REDIRECT_SLUG (Settings:=Sample.settings)) old j = Ok w →
       i = j).
Proof.
  assert (∀ s : string, s ++ "" = s) as Hnil.
  { induction s as [|c s IH]; [done|].
    change (String c (s ++ "") = String c s). by rewrite IH. }
  split; intros old i j w Hi Hj.
  - change (Ok (old ++ " Redirect " ++ (pretty i ++ "")) = Ok w) in Hi.
    change (Ok (old ++ " Redirect " ++ (pretty j ++ "")) = Ok w) in Hj.
    rewrite <-Hj in Hi. injection Hi as Hi.
    apply (inj (String.app old)) in Hi. injection Hi as Hi.
    rewrite !Hnil in Hi. change (pretty i = pretty j) in Hi.
    by apply (inj pretty) in Hi.
  - change (Ok (old ++ "-redirect-" ++ (pretty i ++ "")) = Ok w) in Hi.
    change (Ok (old ++ "-redirect-" ++ (pretty j ++ "")) = Ok w) in Hj.
    rewrite <-Hj in Hi. injection Hi as Hi.
    apply (inj (String.app old)) in Hi. injection Hi as Hi.
    rewrite !Hnil in Hi. change (pretty i = pretty j) in Hi.
    by apply (inj pretty) in Hi.
Qed.

Lemma save_terminates_witness :
  (size (documents Sample.db) + 2 < 5)%nat
  ∧ Document_save (H:=Sample.settings) 5 Sample.db Sample.A_renamed
    ≠ OutOfFuel.
Proof.
  assert (size (documents Sample.db) + 2 < 5)%nat as Hfuel
    by (vm_compute; lia).
  split; [exact Hfuel|].
  exact (save_terminates (H:=Sample.settings) 5 Sample.db Sample.A_renamed
           (proj1 sample_redirect_templates_distinct)
           (proj2 sample_redirect_templates_distinct) Hfuel).
Defined.

(** ** Lookups *)

Lemma save_then_translated_to_witness :
  unique_documents (documents Sample.db)
  ∧ Document.parent Sample.B = Some 1%positive
  ∧ ∃ db' B',
      Document_save (H:=Sample.settings) 3 Sample.db Sample.B = Ok (db', B')
      ∧ Document_translated_to (H:=Sample.settings) db' Sample.A "de"
        = Returns (Some (document_of_row 2%positive B')).
Proof.
  split; [exact sample_db_unique|]. split; [reflexivity|].
  destruct (Document_save (H:=Sample.settings) 3 Sample.db Sample.B)
    as [[db' B']| |] eqn:Hs; [|vm_compute in Hs; discriminate..].
  exists db', B'. split; [reflexivity|].
  destruct (save_then_translated_to (H:=Sample.settings) 3 Sample.db Sample.B
              db' B' Sample.A 1%positive sample_db_unique eq_refl Hs eq_refl
              eq_refl) as (k & Hk & Htr).
  assert (k = 2%positive) as ->; [|exact Htr].
  clear Htr. vm_compute in Hs. injection Hs as _ <-. by injection Hk.
Defined.

Lemma from_url_resolution_witness :
  unique_documents (documents Sample.db)
  ∧ _doc_components_from_url (H0:=SampleUrls.urls) "/de/kb/foo" None true
    = doc_components "de" "/kb/foo" "foo"
  ∧ Document_from_url (H:=Sample.settings) (H0:=SampleUrls.urls) Sample.db
      "/de/kb/foo" None true
    = Returns (Some Sample.B)
  ∧ Document_from_url (H:=Sample.settings) (H0:=SampleUrls.urls) Sample.db
      "/en-US/kb/foo" None true
    = Returns (Some Sample.A)
  ∧ Document_from_url (H:=Sample.settings) (H0:=SampleUrls.urls) Sample.db
      "/de/kb/bar" None true
    = Returns None.
Proof.
  split; [exact sample_db_unique|]. split; [reflexivity|].
  assert (∀ j row l, documents Sample.db !! j = Some row →
            Document.locale row = l → Document.slug row = "foo" →
            j = 1%positive ∧ row = Sample.A) as Hfoo.
  { intros j row l Hj _ Hs. apply elem_of_map_to_list in Hj.
    set (rows := map_to_list (documents Sample.db)) in Hj.
    vm_compute in rows. subst rows.
    apply elem_of_cons in Hj as [[= -> ->]|Hj]; [done|].
    apply elem_of_cons in Hj as [[= -> ->]|Hj]; [done|].
    by apply elem_of_nil in Hj. }
  split; [|split].
  - destruct (from_url_resolution (H:=Sample.settings) (H0:=SampleUrls.urls)
                Sample.db "/de/kb/foo" None true "de" "/kb/foo" "foo"
                sample_db_unique eq_refl) as [_ Hfallback].
    destruct Hfallback as [Hdefault _].
    { intros j row Hj [Hl Hs]. destruct (Hfoo j row _ Hj Hl Hs) as [_ ->].
      discriminate. }
    destruct (Hdefault 1%positive Sample.A eq_refl (conj eq_refl eq_refl))
      as [Htranslated _].
    exact (Htranslated 2%positive Sample.B eq_refl eq_refl eq_refl).
  - destruct (from_url_resolution (H:=Sample.settings) (H0:=SampleUrls.urls)
                Sample.db "/en-US/kb/foo" None true "en-US" "/kb/foo" "foo"
                sample_db_unique eq_refl) as [Hdirect _].
    exact (Hdirect 1%positive Sample.A eq_refl (conj eq_refl eq_refl)).
  - destruct (from_url_resolution (H:=Sample.settings) (H0:=SampleUrls.urls)
                Sample.db "/de/kb/bar" None true "de" "/kb/bar" "bar"
                sample_db_unique eq_refl) as [_ Hfallback].
    assert (∀ j row, documents Sample.db !! j = Some row →
              Document.slug row ≠ "bar") as Hbar.
    { intros j row Hj. apply elem_of_map_to_list in Hj.
      set (rows := map_to_list (documents Sample.db)) in Hj.
      vm_compute in rows. subst rows.
      apply elem_of_cons in Hj as [[= -> ->]|Hj]; [done|].
      apply elem_of_cons in Hj as [[= -> ->]|Hj]; [done|].
      by apply elem_of_nil in Hj. }
    destruct Hfallback as [_ Hnone].
    { intros j row Hj [_ Hs]. by apply (Hbar j row Hj). }
    apply Hnone. intros j row Hj [_ Hs]. by apply (Hbar j row Hj).
Defined.

Lemma from_url_result_witness :
  unique_documents (documents Sample.db)
  ∧ Document_from_url (H:=Sample.settings) (H0:=SampleUrls.urls) Sample.db
      "/de/kb/foo" None true
    = Returns (Some Sample.B)
  ∧ Document.locale Sample.B = "de"
  ∧ points_to_document_view (H0:=SampleUrls.urls) "/de/kb/foo" None = true
  ∧ Document_from_url (H:=Sample.settings) (H0:=SampleUrls.urls) Sample.db
      "http://support.example/de/kb/foo" None true
    = Returns None.
Proof.
  split; [exact sample_db_unique|].
  assert (Document_from_url (H:=Sample.settings) (H0:=SampleUrls.urls)
            Sample.db "/de/kb/foo" None true = Returns (Some Sample.B))
    as Hfound by (by vm_compute).
  split; [exact Hfound|]. split; [reflexivity|].
  destruct (from_url_result (H:=Sample.settings) (H0:=SampleUrls.urls)
              Sample.db "/de/kb/foo" None true) as (_ & _ & Hdoc).
  destruct (Hdoc Sample.B Hfound) as (_ & _ & Hview).
  split; [exact (Hview eq_refl)|]. by vm_compute.
Defined.

Lemma redirect_url_default_source_witness :
  startswith (Document.html SampleUrls.redirect)
    (REDIRECT_HTML (Urls:=SampleUrls.urls)) = true
  ∧ first_href (Urls:=SampleUrls.urls) (Document.html SampleUrls.redirect)
    = Some "/en-US/kb/bar"
  ∧ Document_redirect_url (H0:=SampleUrls.urls) SampleUrls.redirect "en-US"
    = Some "/en-US/kb/bar"
  ∧ Document_redirect_url (H0:=SampleUrls.urls) SampleUrls.redirect "de"
    = Some "/de/kb/bar"
  ∧ Document_redirect_document (H:=Sample.settings) (H0:=SampleUrls.urls)
      Sample.db SampleUrls.redirect
    = Document_from_url (H:=Sample.settings) (H0:=SampleUrls.urls) Sample.db
        "/en-US/kb/bar" None true
  ∧ Document_redirect_document (H:=Sample.settings) (H0:=SampleUrls.urls)
      Sample.db Sample.A
    = Returns None.
Proof.
  assert (startswith (Document.html SampleUrls.redirect)
            (REDIRECT_HTML (Urls:=SampleUrls.urls)) = true) as Hstart
    by (by vm_compute).
  assert (first_href (Urls:=SampleUrls.urls)
            (Document.html SampleUrls.redirect) = Some "/en-US/kb/bar")
    as Hhref by (by vm_compute).
  split; [exact Hstart|]. split; [exact Hhref|].
  destruct (redirect_url_default_source (H:=Sample.settings)
              (H0:=SampleUrls.urls) Sample.db SampleUrls.redirect "de")
    as (Hdefault & Hrewritten & _ & Hfollow).
  split; [|split; [|split]].
  - change (LANGUAGE_CODE (Urls:=SampleUrls.urls)) with "en-US" in Hdefault.
    rewrite Hdefault, Hstart. exact Hhref.
  - destruct (Document_redirect_url (H0:=SampleUrls.urls) SampleUrls.redirect
                "de") as [u|] eqn:Hu; [|vm_compute in Hu; discriminate].
    destruct (Hrewritten u eq_refl) as (_ & full & Hfull & _ & ->).
    + rewrite Hhref. intros [= <-]. vm_compute in Hu. discriminate.
    + rewrite Hhref in Hfull. injection Hfull as <-. reflexivity.
  - apply Hfollow; [exact Hstart|exact Hhref|discriminate].
  - destruct (redirect_url_default_source (H:=Sample.settings)
                (H0:=SampleUrls.urls) Sample.db Sample.A "de")
      as (_ & _ & Hplain & _).
    exact (proj2 (Hplain ltac:(by vm_compute))).
Defined.

(** ** The cached html, contributions and links *)

Lemma approved_save_keeps_html_fresh_witness :
  Revision.is_approved Sample.R4 = true
  ∧ ∃ db' R' D',
      Revision_save (H:=Sample.settings) 3 Sample.db Sample.R4 Sample.A
      = Ok (db', R', D')
      ∧ Document.html D' = "<p>four</p>"
      ∧ Document_content_parsed (H:=Sample.settings) db' D'
        = Ok (Document.html D').
Proof.
  split; [reflexivity|].
  destruct (Revision_save (H:=Sample.settings) 3 Sample.db Sample.R4 Sample.A)
    as [[[db' R'] D']| |] eqn:Hs; [|vm_compute in Hs; discriminate..].
  exists db', R', D'. split; [reflexivity|].
  destruct (approved_save_keeps_html_fresh (H:=Sample.settings) 3 Sample.db
              Sample.R4 Sample.A db' R' D' eq_refl) as [Hfresh _];
    [right; exists 3%positive; split; [reflexivity|by vm_compute]|exact Hs|].
  split; [|exact Hfresh].
  clear Hfresh. vm_compute in Hs. by injection Hs as _ _ <-.
Defined.


Lemma user_documents_counts_each_once_witness :
  user_documents Sample.db 9%positive = [Sample.A]
  ∧ NoDup (user_documents Sample.db 9%positive)
  ∧ (user_num_documents Sample.db 7%positive ≤ 2)%nat
  ∧ user_num_documents Sample.db 5%positive = 0%nat.
Proof.
  split; [by vm_compute|].
  destruct (user_documents_counts_each_once Sample.db 9%positive)
    as (Hnodup & _).
  split; [exact Hnodup|].
  destruct (user_documents_counts_each_once Sample.db 7%positive)
    as (_ & _ & Hle & _).
  split; [exact Hle|].
  destruct (user_documents_counts_each_once Sample.db 5%positive)
    as (_ & _ & _ & Hzero).
  apply Hzero. intros j r Hj. apply elem_of_map_to_list in Hj.
  set (rows := map_to_list (revisions Sample.db)) in Hj.
  vm_compute in rows. subst rows.
  repeat (apply elem_of_cons in Hj as [[= -> ->]|Hj]; [discriminate|]).
  by apply elem_of_nil in Hj.
Defined.

Lemma saved_revision_counts_for_creator_witness :
  let R := new_revision (Some 2%positive) "drei" false 5%positive 5%positive in
  user_num_documents Sample.db 5%positive = 0%nat
  ∧ is_Some (documents Sample.db !! 2%positive)
  ∧ ∃ db' R' D',
      Revision_save (H:=Sample.settings) 3 Sample.db R Sample.B
      = Ok (db', R', D')
      ∧ (0 < user_num_documents db' 5%positive)%nat.
Proof.
  intros R. split; [reflexivity|].
  assert (is_Some (documents Sample.db !! 2%positive)) as Hstored
    by (by exists Sample.B).
  split; [exact Hstored|].
  destruct (Revision_save (H:=Sample.settings) 3 Sample.db R Sample.B)
    as [[[db' R'] D']| |] eqn:Hs; [|vm_compute in Hs; discriminate..].
  exists db', R', D'. split; [reflexivity|].
  exact (proj2 (saved_revision_counts_for_creator (H:=Sample.settings) 3
                  Sample.db R Sample.B db' R' D' 2%positive eq_refl Hstored
                  Hs)).
Defined.

Lemma links_are_recomputed_witness :
  ∃ db',
    Document_parse_and_calculate_links (H:=SampleUrls.linking)
      SampleUrls.linked Sample.A = Ok db'
    ∧ links db' !! (1%positive, 2%positive) = Some "link"
    ∧ links db' !! (1%positive, 1%positive) = Some "include"
    ∧ links db' !! (1%positive, 7%positive) = None
    ∧ links db' !! (2%positive, 1%positive) = Some "link".
Proof.
  destruct (Document_parse_and_calculate_links (H:=SampleUrls.linking)
              SampleUrls.linked Sample.A) as [db'| |] eqn:Hl;
    [|vm_compute in Hl; discriminate..].
  exists db'. split; [reflexivity|].
  destruct (links_are_recomputed (H:=SampleUrls.linking) SampleUrls.linked
              Sample.A db' Hl) as [_ Hlinks].
  destruct (Hlinks 1%positive 3%positive eq_refl eq_refl)
    as (row & Hrow & Hother & Hown).
  split; [by rewrite Hown|]. split; [by rewrite Hown|].
  split; [by rewrite Hown|]. by rewrite Hother.
Defined.

Lemma old_url_resolves_to_redirect_witness :
  let moved := Document___setattr__ (H:=Sample.unicode) Sample.A attr_slug
                 "bar" in
  unique_documents (documents Sample.db)
  ∧ Document.old_slug moved = Some "foo"
  ∧ ∃ db' D',
      Document_save (H:=Sample.settings) 3 Sample.db moved = Ok (db', D')
      ∧ Document.slug D' = "bar"
      ∧ ∃ r, Document_from_url (H:=Sample.settings) (H0:=SampleUrls.urls) db'
               "/en-US/kb/foo" None true = Returns (Some r)
          ∧ Document.slug r = "foo"
          ∧ Document.id r ≠ Some 1%positive
          ∧ Document.html r = "<p>REDIRECT [[Foo]]</p>".
Proof.
  intros moved. split; [exact sample_db_unique|]. split; [reflexivity|].
  destruct (Document_save (H:=Sample.settings) 3 Sample.db moved)
    as [[db' D']| |] eqn:Hs; [|vm_compute in Hs; discriminate..].
  exists db', D'. split; [reflexivity|].
  destruct (old_url_resolves_to_redirect (H:=Sample.settings)
              (H0:=SampleUrls.urls) 3 Sample.db moved db' D' 1%positive
              3%positive "foo" "/en-US/kb/foo" None true "/kb/foo"
              sample_db_unique eq_refl eq_refl eq_refl Hs eq_refl)
    as (r & content & Hfrom & _ & Hslug & Hid & Hcontent & Hhtml).
  split; [vm_compute in Hs; by injection Hs as _ <-|].
  exists r. split; [exact Hfrom|]. split; [exact Hslug|]. split; [exact Hid|].
  rewrite Hhtml. vm_compute in Hcontent. by injection Hcontent as <-.
Defined.

Lemma translated_to_original_witness :
  Document_translated_to (H:=Sample.settings) Sample.db Sample.A "de"
  = Returns (Some Sample.B)
  ∧ Document_original Sample.db Sample.B = Ok Sample.A
  ∧ Document_translated_to (H:=Sample.settings) Sample.db Sample.B "fr"
    = Throws NotImplementedError
  ∧ Document_translated_to (H:=Sample.settings) Sample.db Sample.draft "de"
    = Returns None.
Proof.
  assert (Document_translated_to (H:=Sample.settings) Sample.db Sample.A "de"
          = Returns (Some Sample.B)) as Hde by (by vm_compute).
  split; [exact Hde|].
  destruct (translated_to_original (H:=Sample.settings) Sample.db Sample.A
              "de") as (_ & _ & Hback).
  destruct (Hback Sample.B Hde) as (_ & k & j & row & Hk & _ & _ & _ & Horig).
  injection Hk as <-.
  split; [exact (Horig Sample.A eq_refl)|].
  destruct (translated_to_original (H:=Sample.settings) Sample.db Sample.B
              "fr") as (Hforeign & _).
  split; [apply Hforeign; discriminate|].
  destruct (translated_to_original (H:=Sample.settings) Sample.db
              Sample.draft "de") as (_ & Hnew & _).
  exact (Hnew eq_refl eq_refl).
Defined.
